(** * Claude Code Wrapped: the presentation layer and the entry point

    A shallow embedding of the parts of [ui.py], [exporters/markdown_exporter.py],
    [exporters/html_exporter.py] and [main.py] that read a [WrappedStats] value
    and turn it into a report, and of the prompts of [interactive.py], with the
    properties of those readers.

    Conventions of the embedding.
    - Python [int] is [Z]; Python [float] is modelled by the exact rationals [Q]
      where no statement depends on a rounding error of the doubles, and by
      the binary64 values of [SpecFloat] in the bars and the animation frames
      whose size is a truncated product (module [Float]).
    - [str] is [string] (a sequence of bytes, UTF-8 for non-ASCII text).
    - A [dict] whose iteration order is observed is an association list in
      insertion order; a [dict] that is only looked up is a [gmap].
    - A raised exception is the [Raise] case of [result].
    - [datetime.now()] is an explicit argument, the reading of the clock. *)

From Stdlib Require Import ZArith QArith Qround String Ascii List Lia DecimalString
  DecimalPos Permutation Sorted.
From Stdlib Require SpecFloat.
From stdpp Require Import gmap strings list fin_maps.

Open Scope string_scope.
Open Scope Z_scope.

(** ** Python primitives *)

Module Py.

Inductive exn : Type :=
| ZeroDivisionError
| IndexError
| ValueError
| OverflowError.

Inductive result (A : Type) : Type :=
| Ok (a : A)
| Raise (e : exn).

Arguments Ok {A} a.
Arguments Raise {A} e.

Definition bind {A B : Type} (r : result A) (k : A -> result B) : result B :=
  match r with
  | Ok a => k a
  | Raise e => Raise e
  end.

Definition raises {A : Type} (r : result A) : bool :=
  match r with
  | Ok _ => false
  | Raise _ => true
  end.

(** [str(n)] for an [int]. *)
Definition str (n : Z) : string := NilZero.string_of_int (Z.to_int n).

Definition nl : string := String "010"%char EmptyString.
Definition dq : string := String "034"%char EmptyString.

(** [s.lower()], on the ASCII letters (model identifiers are ASCII). *)
Definition lower_ascii (c : ascii) : ascii :=
  let n := nat_of_ascii c in
  if ((65 <=? n) && (n <=? 90))%nat then ascii_of_nat (n + 32) else c.

Fixpoint lower (s : string) : string :=
  match s with
  | EmptyString => EmptyString
  | String c s' => String (lower_ascii c) (lower s')
  end.

(** [sub in s] for two strings. *)
Fixpoint contains (sub s : string) : bool :=
  String.prefix sub s ||
  match s with
  | EmptyString => false
  | String _ s' => contains sub s'
  end.

(** [s * n]: repetition, empty when [n <= 0]. *)
Fixpoint repeat_nat (s : string) (n : nat) : string :=
  match n with
  | O => EmptyString
  | S n' => s ++ repeat_nat s n'
  end.

Definition repeat (s : string) (n : Z) : string := repeat_nat s (Z.to_nat n).

(** [s.zfill(w)] of the digits of a non-negative number: [f"{n:0wd}"]. *)
Definition zfill (w : nat) (n : Z) : string :=
  let d := str n in
  repeat_nat "0" (w - String.length d) ++ d.

(** [f"{n:,}"]: decimal digits in groups of three. *)
Fixpoint group3 (rev_digits : list ascii) : list ascii :=
  match rev_digits with
  | a :: b :: c :: rest =>
      match rest with
      | [] => [a; b; c]
      | _ => a :: b :: c :: ","%char :: group3 rest
      end
  | l => l
  end.

Definition commas (n : Z) : string :=
  let body :=
    string_of_list_ascii
      (rev (group3 (rev (list_ascii_of_string (str (Z.abs n)))))) in
  if n <? 0 then "-" ++ body else body.

(** [a / b] on two [int]s: true division, a [float]. *)
Definition truediv (a b : Z) : result Q :=
  if b =? 0 then Raise ZeroDivisionError else Ok (inject_Z a / inject_Z b)%Q.

(** [int(x)] on a [float]: truncation towards zero. *)
Definition int (x : Q) : Z := Z.quot (Qnum x) (Zpos (Qden x)).

(** [a > b] on two [float]s. *)
Definition gt (a b : Q) : bool := negb (Qle_bool a b).

(** [max(l) if l else d]. *)
Definition max_or (d : Z) (l : list Z) : Z :=
  match l with
  | [] => d
  | x :: xs => fold_left Z.max xs x
  end.

(** [sum(l)]. *)
Definition sum (l : list Z) : Z := fold_left Z.add l 0.

(** [any(l)] on a list of [int]s: some entry is not zero. *)
Definition any (l : list Z) : bool := existsb (fun x => negb (x =? 0)) l.

(** [l[i]] for an index [i >= 0]. *)
Definition getitem (l : list Z) (i : nat) : result Z :=
  match nth_error l i with
  | Some x => Ok x
  | None => Raise IndexError
  end.

(** [round(x, ndigits)]: to the nearest multiple of [10^-ndigits], a tie
    going to the even one. *)
Definition round_half_even (x : Q) : Z :=
  let f := Qfloor x in
  let r := (x - inject_Z f)%Q in
  match (r ?= 1 # 2)%Q with
  | Lt => f
  | Gt => f + 1
  | Eq => if Z.even f then f else f + 1
  end.

Definition round (x : Q) (ndigits : nat) : Q :=
  let s := Pos.pow 10 (Pos.of_nat ndigits) in
  match ndigits with
  | O => inject_Z (round_half_even x)
  | _ => Qmake (round_half_even (x * inject_Z (Zpos s))) s
  end.

(** [l[lo:hi]] and [l[lo:]] for indices [0 <= lo <= hi]. *)
Definition slice (lo hi : nat) (l : list Z) : list Z := take (hi - lo) (drop lo l).
Definition slice_from (lo : nat) (l : list Z) : list Z := drop lo l.

(** A [for] loop whose body may raise: the state is threaded through the
    elements in order, and the first exception ends the loop. *)
Fixpoint for_each {A S : Type} (body : S -> A -> result S) (l : list A) (s : S)
  : result S :=
  match l with
  | [] => Ok s
  | x :: l' =>
      match body s x with
      | Ok s' => for_each body l' s'
      | Raise e => Raise e
      end
  end.

(** A comprehension whose element expression may raise. *)
Fixpoint map_each {A B : Type} (f : A -> result B) (l : list A) : result (list B) :=
  match l with
  | [] => Ok []
  | x :: l' =>
      match f x with
      | Ok y =>
          match map_each f l' with
          | Ok ys => Ok (y :: ys)
          | Raise e => Raise e
          end
      | Raise e => Raise e
      end
  end.

(** [sep.join(l)]. *)
Fixpoint join (sep : string) (l : list string) : string :=
  match l with
  | [] => EmptyString
  | x :: l' =>
      match l' with
      | [] => x
      | _ :: _ => x ++ sep ++ join sep l'
      end
  end.


(** An insertion-ordered [dict] with [str] keys. *)
Definition dict (V : Type) : Type := list (string * V).

Fixpoint dict_get {V : Type} (d : dict V) (k : string) : option V :=
  match d with
  | [] => None
  | (k', v) :: d' => if String.eqb k' k then Some v else dict_get d' k
  end.

(** [d.get(k, default)]. *)
Definition dict_get_or {V : Type} (d : dict V) (k : string) (default : V) : V :=
  match dict_get d k with
  | Some v => v
  | None => default
  end.

(** [d[k] = v]: in place when [k] is a key, appended otherwise. *)
Fixpoint dict_set {V : Type} (d : dict V) (k : string) (v : V) : dict V :=
  match d with
  | [] => [(k, v)]
  | (k', v') :: d' =>
      if String.eqb k' k then (k', v) :: d' else (k', v') :: dict_set d' k v
  end.

Definition dict_keys {V : Type} (d : dict V) : list string := map fst d.

(** [dict(pairs)]. *)
Definition dict_of_pairs {V : Type} (l : list (string * V)) : dict V :=
  fold_left (fun d kv => dict_set d (fst kv) (snd kv)) l [].

(** [sorted(l, key=...)]: a stable sort, [le] the order of the keys. *)
Fixpoint insert_sorted {A : Type} (le : A -> A -> bool) (x : A) (l : list A) : list A :=
  match l with
  | [] => [x]
  | y :: l' => if le y x then y :: insert_sorted le x l' else x :: y :: l'
  end.

Definition sorted {A : Type} (le : A -> A -> bool) (l : list A) : list A :=
  fold_left (fun acc x => insert_sorted le x acc) l [].

(** [len(s)]: the characters of a text held as its UTF-8 bytes, one for
    each byte that does not continue a character. *)
Definition is_continuation (c : ascii) : bool :=
  let n := nat_of_ascii c in
  ((128 <=? n) && (n <? 192))%nat.

Fixpoint len (s : string) : Z :=
  match s with
  | EmptyString => 0
  | String c s' => (if is_continuation c then 0 else 1) + len s'
  end.

(** [f"{'':>{w}}"]: the empty string in [w] columns, that is [w] blanks;
    a negative width is refused as a format specifier. *)
Definition blanks (w : Z) : result string :=
  if w <? 0 then Raise ValueError else Ok (repeat " " w).

(** [enumerate(l, start)]. *)
Definition enumerate {A : Type} (start : Z) (l : list A) : list (Z * A) :=
  combine (map (fun i => start + Z.of_nat i) (seq 0 (length l))) l.

(** [range(n)]. *)
Definition range (n : Z) : list Z := map Z.of_nat (seq 0 (Z.to_nat n)).

(** [s[:n]]: the first [n] characters of a text, each with the bytes that
    continue it. *)
Fixpoint take_chars (n : nat) (s : string) : string :=
  match s with
  | EmptyString => EmptyString
  | String c s' =>
      if is_continuation c then String c (take_chars n s')
      else
        match n with
        | O => EmptyString
        | S n' => String c (take_chars n' s')
        end
  end.

(** [f"{s:<w}"]: the text, then blanks up to [w] columns. *)
Definition ljust (w : Z) (s : string) : string := s ++ repeat " " (w - len s).

End Py.

Notation "'try!' x ':=' r 'in' k" := (Py.bind r (fun x => k))
  (at level 10, x name, r at level 100, k at level 200).

(** ** [float] values in bar widths

    Where a quotient of two counts is scaled and truncated into a width or
    into the number of a frame, the [float]s are the binary64 values of
    IEEE 754, with the operations of [SpecFloat]. An [int] below 2^53 in
    absolute value is converted without rounding; the counts of the
    statistics are of that size. *)

Module Float.

Definition float : Type := SpecFloat.spec_float.

(** [float(n)]. *)
Definition of_int (n : Z) : float := SpecFloat.binary_normalize 53 1024 n 0 false.

(** [x * y]. *)
Definition mul (x y : float) : float := SpecFloat.SFmul 53 1024 x y.

(** [a / b] on two [int]s. *)
Definition truediv (a b : Z) : Py.result float :=
  if b =? 0 then Py.Raise Py.ZeroDivisionError
  else Py.Ok (SpecFloat.SFdiv 53 1024 (of_int a) (of_int b)).

(** [x / n] for a [float] and an [int]. *)
Definition div_int_value (x : float) (n : Z) : float :=
  SpecFloat.SFdiv 53 1024 x (of_int n).

Definition div_int (x : float) (n : Z) : Py.result float :=
  if n =? 0 then Py.Raise Py.ZeroDivisionError
  else Py.Ok (div_int_value x n).

(** [int(x)] on a finite [float]: truncation towards zero. *)
Definition to_int (x : float) : Z :=
  match x with
  | SpecFloat.S754_finite s m e =>
      let n := if 0 <=? e then Zpos m * 2 ^ e else Z.quot (Zpos m) (2 ^ (- e)) in
      if s then - n else n
  | _ => 0
  end.

(** [int((count / max_val) * scale)]. *)
Definition scaled (count max_val scale : Z) : Py.result Z :=
  try! ratio := truediv count max_val in
  Py.Ok (to_int (mul ratio (of_int scale))).

(** [x * n] for a [float] and an [int]: the [int] is converted first, and
    one that rounds beyond the largest double, 2^1024 - 2^970 or more in
    absolute value, raises [OverflowError]. *)
Definition mul_int (x : float) (n : Z) : Py.result float :=
  if Z.abs n <? 2 ^ 1024 - 2 ^ 970 then Py.Ok (mul x (of_int n))
  else Py.Raise Py.OverflowError.

(** A duration that [time.sleep] takes: a zero, or a positive number
    below 2^33 seconds. [time.sleep] raises [ValueError] on a negative
    number and on a NaN, and [OverflowError] beyond the range of its
    clock, which is wider than 2^33 seconds. *)
Definition sleepable (x : float) : bool :=
  match x with
  | SpecFloat.S754_zero _ => true
  | SpecFloat.S754_finite false m e => (Zpos m <? 2 ^ 53) && (e <=? -20)
  | _ => false
  end.

End Float.

(** ** [datetime] values

    A naive [datetime] holds its calendar fields and is ordered field by
    field, the year first. *)

Module Datetime.

Record datetime : Type := mk {
  year : Z;
  month : Z;
  day : Z;
  hour : Z;
  minute : Z;
  second : Z;
  microsecond : Z
}.

(** [datetime(y, m, d)]: midnight of that day. *)
Definition at_midnight (y m d : Z) : datetime := mk y m d 0 0 0 0.

Definition fields (t : datetime) : list Z :=
  [year t; month t; day t; hour t; minute t; second t; microsecond t].

Fixpoint lex_compare (a b : list Z) : comparison :=
  match a, b with
  | [], [] => Eq
  | [], _ :: _ => Lt
  | _ :: _, [] => Gt
  | x :: a', y :: b' =>
      match x ?= y with
      | Eq => lex_compare a' b'
      | c => c
      end
  end.

Definition compare (s t : datetime) : comparison := lex_compare (fields s) (fields t).

(** [s < t], [s > t] and [s <= t]. *)
Definition ltb (s t : datetime) : bool :=
  match compare s t with Lt => true | _ => false end.
Definition gtb (s t : datetime) : bool := ltb t s.
Definition leb (s t : datetime) : bool := negb (ltb t s).

Definition month_names : list string :=
  ["January"; "February"; "March"; "April"; "May"; "June"; "July";
   "August"; "September"; "October"; "November"; "December"].

Definition month_abbrs : list string :=
  ["Jan"; "Feb"; "Mar"; "Apr"; "May"; "Jun"; "Jul"; "Aug"; "Sep"; "Oct";
   "Nov"; "Dec"].

Definition month_name (m : Z) : string := nth (Z.to_nat (m - 1)) month_names EmptyString.
Definition month_abbr (m : Z) : string := nth (Z.to_nat (m - 1)) month_abbrs EmptyString.

(** [t.strftime("%Y-%m-%d")]. *)
Definition strftime_Y_m_d (t : datetime) : string :=
  Py.zfill 4 (year t) ++ "-" ++ Py.zfill 2 (month t) ++ "-" ++ Py.zfill 2 (day t).

(** [t.strftime('%B %d, %Y')]. *)
Definition strftime_B_d_Y (t : datetime) : string :=
  month_name (month t) ++ " " ++ Py.zfill 2 (day t) ++ ", " ++ Py.zfill 4 (year t).

(** [t.isoformat()]. *)
Definition isoformat (t : datetime) : string :=
  strftime_Y_m_d t ++ "T" ++ Py.zfill 2 (hour t) ++ ":" ++ Py.zfill 2 (minute t)
    ++ ":" ++ Py.zfill 2 (second t)
    ++ (if microsecond t =? 0 then EmptyString else "." ++ Py.zfill 6 (microsecond t)).

(** [datetime.strptime(s, "%Y-%m").strftime("%b %Y")]: four digits, a dash
    and a month written [1[0-2]], [0[1-9]] or [[1-9]], with nothing after
    it; anything else raises [ValueError]. *)
Definition digit (c : ascii) : option Z :=
  let n := nat_of_ascii c in
  if ((48 <=? n) && (n <=? 57))%nat then Some (Z.of_nat (n - 48)) else None.

Definition parse_month (s : string) : option Z :=
  match s with
  | String a (String b EmptyString) =>
      match digit a, digit b with
      | Some 1, Some d => if d <=? 2 then Some (10 + d) else None
      | Some 0, Some d => if 1 <=? d then Some d else None
      | _, _ => None
      end
  | String a EmptyString =>
      match digit a with
      | Some d => if 1 <=? d then Some d else None
      | None => None
      end
  | _ => None
  end.

Definition strptime_Y_m (s : string) : Py.result datetime :=
  match s with
  | String a (String b (String c (String d (String "-"%char rest)))) =>
      match digit a, digit b, digit c, digit d, parse_month rest with
      | Some a, Some b, Some c, Some d, Some m =>
          let y := 1000 * a + 100 * b + 10 * c + d in
          if 1 <=? y then Py.Ok (at_midnight y m 1) else Py.Raise Py.ValueError
      | _, _, _, _, _ => Py.Raise Py.ValueError
      end
  | _ => Py.Raise Py.ValueError
  end.

Definition strftime_b_Y (t : datetime) : string :=
  month_abbr (month t) ++ " " ++ Py.zfill 4 (year t).

(** [datetime(y, m, d)] checks its arguments. *)
Definition is_leap (y : Z) : bool :=
  (y mod 4 =? 0) && (negb (y mod 100 =? 0) || (y mod 400 =? 0)).

Definition days_in_month (y m : Z) : Z :=
  if m =? 2 then (if is_leap y then 29 else 28)
  else if (m =? 4) || (m =? 6) || (m =? 9) || (m =? 11) then 30
  else 31.

(** The arguments are read as C [int]s of 32 bits first: one that does
    not fit raises [OverflowError], before any range is checked. *)
Definition c_int (z : Z) : bool := (-2147483648 <=? z) && (z <=? 2147483647).

Definition new (y m d : Z) : Py.result datetime :=
  if negb (c_int y && c_int m && c_int d) then Py.Raise Py.OverflowError
  else if (1 <=? y) && (y <=? 9999) && (1 <=? m) && (m <=? 12)
          && (1 <=? d) && (d <=? days_in_month y m)
  then Py.Ok (at_midnight y m d)
  else Py.Raise Py.ValueError.

(** [datetime.strptime(s, "%Y-%m-%d")]: the day is written [3[01]],
    [[12]\d], [0[1-9]], [[1-9]] or a space and [[1-9]]. *)
Definition parse_day (s : string) : option Z :=
  match s with
  | String a (String b EmptyString) =>
      match digit a, digit b with
      | Some 3, Some d => if d <=? 1 then Some (30 + d) else None
      | Some 1, Some d => Some (10 + d)
      | Some 2, Some d => Some (20 + d)
      | Some 0, Some d => if 1 <=? d then Some d else None
      | None, Some d => if Ascii.eqb a " " && (1 <=? d) then Some d else None
      | _, _ => None
      end
  | String a EmptyString =>
      match digit a with
      | Some d => if 1 <=? d then Some d else None
      | None => None
      end
  | _ => None
  end.

Fixpoint split_dash (s : string) : option (string * string) :=
  match s with
  | EmptyString => None
  | String c s' =>
      if Ascii.eqb c "-" then Some (EmptyString, s')
      else match split_dash s' with
           | Some (a, b) => Some (String c a, b)
           | None => None
           end
  end.

Definition strptime_Y_m_d (s : string) : Py.result datetime :=
  match s with
  | String a (String b (String c (String d (String "-"%char rest)))) =>
      match digit a, digit b, digit c, digit d, split_dash rest with
      | Some a, Some b, Some c, Some d, Some (ms, ds) =>
          match parse_month ms, parse_day ds with
          | Some m, Some dd => new (1000 * a + 100 * b + 10 * c + d) m dd
          | _, _ => Py.Raise Py.ValueError
          end
      | _, _, _, _, _ => Py.Raise Py.ValueError
      end
  | _ => Py.Raise Py.ValueError
  end.

(** [min(dates) if dates else d] and [max(dates) if dates else d]. *)
Definition min_or (d : datetime) (l : list datetime) : datetime :=
  match l with
  | [] => d
  | x :: xs => fold_left (fun m t => if ltb t m then t else m) xs x
  end.

Definition max_or (d : datetime) (l : list datetime) : datetime :=
  match l with
  | [] => d
  | x :: xs => fold_left (fun m t => if ltb m t then t else m) xs x
  end.

End Datetime.

Abbreviation datetime := Datetime.datetime.

(** ** The statistics read by the presentation layer *)

(** Modelled from the spec: the [DailyStats] dataclass of [stats.py], which is
    not among the sources (the daily bucket of section 3: message count and
    token total of one day). *)
Record DailyStats : Type := {
  message_count : Z;
  tokens : Z
}.

(** Modelled from the spec: the [WrappedStats] dataclass of [stats.py], which
    is not among the sources. The fields are the ones the readers below use,
    under the names they use; the two distributions are the hourly and weekday
    histograms, lists of 24 and 7 counters. *)
Record WrappedStats : Type := {
  year : option Z;
  total_messages : Z;
  total_user_messages : Z;
  total_assistant_messages : Z;
  total_sessions : Z;
  total_projects : Z;
  total_tokens : Z;
  total_input_tokens : Z;
  total_output_tokens : Z;
  total_cache_creation_tokens : Z;
  total_cache_read_tokens : Z;
  active_days : Z;
  late_night_days : Z;
  streak_longest : Z;
  streak_current : Z;
  streak_longest_start : option datetime;
  streak_longest_end : option datetime;
  most_active_hour : option Z;
  most_active_day : option (datetime * Z);
  primary_model : option string;
  top_tools : list (string * Z);
  top_mcps : list (string * Z);
  top_projects : list (string * Z);
  hourly_distribution : list Z;
  weekday_distribution : list Z;
  estimated_cost : option Q;
  cost_by_model : Py.dict Q;
  avg_messages_per_day : Q;
  avg_messages_per_week : Q;
  avg_messages_per_month : Q;
  avg_cost_per_day : option Q;
  avg_cost_per_week : option Q;
  avg_cost_per_month : option Q;
  total_edits : Z;
  total_writes : Z;
  avg_edits_per_day : Q;
  avg_edits_per_week : Q;
  monthly_costs : Py.dict Q;
  monthly_tokens : Py.dict (Py.dict Z);
  longest_conversation_messages : Z;
  longest_conversation_tokens : Z;
  longest_conversation_date : option datetime;
  daily_stats : gmap string DailyStats;
  models_used : gmap string Z;
  first_message_date : option datetime;
  last_message_date : option datetime
}.

(** The histograms have their fixed lengths. *)
Definition distributions_sized (stats : WrappedStats) : Prop :=
  length (hourly_distribution stats) = 24%nat /\
  length (weekday_distribution stats) = 7%nat.

(** A cell of a rendered table. [format_tokens] lives in [stats.py] and
    [format_cost] in [pricing.py], outside the sources: a cell keeps the
    value the formatter is applied to. *)
Inductive cell : Type :=
| Plain (s : string)
| Tokens (n : Z)
| Cost (c : Q).


(** ** [ui.py]: the terminal renderer *)

Module Ui.

(** [format_year_display] *)
Definition format_year_display (year : option Z) : string :=
  match year with
  | None => "All time"
  | Some y => Py.str y
  end.

(** The body of the day loop of [get_contribution_data]: the level of one
    day of the grid. The quotient of the two counts is the exact rational:
    on doubles, [int((count / max_count) * 3)] is the same integer, for
    counts below 2^49 (a product that is not an integer is further from the
    integers than the rounding error, and the thirds round to 1.0 and 2.0). *)
Definition max_count (daily_stats : gmap string DailyStats) : Z :=
  Py.max_or 1 (map (fun kv => message_count (snd kv)) (map_to_list daily_stats)).



(** The reporting window of [get_contribution_data]: [start_date] and
    [end_date]. *)
Definition date_range (daily_stats : gmap string DailyStats) (year : option Z)
    (now : datetime) : Py.result (datetime * datetime) :=
  match year with
  | None =>
      try! dates := Py.map_each Datetime.strptime_Y_m_d
                      (map fst (map_to_list daily_stats)) in
      Py.Ok (Datetime.min_or now dates, Datetime.max_or now dates)
  | Some y =>
      try! start_date := Datetime.new y 1 1 in
      if y =? Datetime.year now then Py.Ok (start_date, now)
      else
        try! end_date := Datetime.new y 12 31 in
        Py.Ok (start_date, end_date)
  end.

(** [create_weekday_chart]: the text of the panel, without its styles. *)
Definition days : list string := ["Mon"; "Tue"; "Wed"; "Thu"; "Fri"; "Sat"; "Sun"].

Definition create_weekday_chart (distribution : list Z) (width : Z)
  : Py.result string :=
  let max_val := if Py.any distribution then Py.max_or 1 distribution else 1 in
  let bar_width := Z.max 10 (width - 18) in
  Py.for_each
    (fun content day_count =>
       let '(day, count) := day_count in
       try! bar_len :=
         (if max_val >? 0 then
            try! ratio := Py.truediv count max_val in
            Py.Ok (Py.int (ratio * inject_Z bar_width)%Q)
          else Py.Ok 0) in
       let bar := Py.repeat "â–ˆ" bar_len ++ Py.repeat "â–‘" (bar_width - bar_len) in
       Py.Ok (content ++ day ++ " " ++ bar ++ " " ++ Py.commas count ++ Py.nl))
    (combine days distribution)
    Py.nl.

(** [determine_personality]. The thresholds [0.4] and [0.5] are the exact
    rationals: a count times the double nearest to 0.4 rounds to the side of
    the exact product on which every integer lies, for any count below
    2^50, so the comparison with an integer is the exact one. *)
Record personality : Type := {
  emoji : string;
  title : string;
  description : string
}.

Definition top_tool (stats : WrappedStats) : option string :=
  match top_tools stats with
  | [] => None
  | (tool, _) :: _ => Some tool
  end.

Definition is_tool (t : option string) (name : string) : bool :=
  match t with
  | Some s => String.eqb s name
  | None => false
  end.

Definition models_used_get (stats : WrappedStats) (name : string) : Z :=
  match models_used stats !! name with
  | Some n => n
  | None => 0
  end.

Definition night_hours (stats : WrappedStats) : Z :=
  Py.sum (Py.slice_from 22 (hourly_distribution stats))
  + Py.sum (Py.slice 0 6 (hourly_distribution stats)).

Definition day_hours (stats : WrappedStats) : Z :=
  Py.sum (Py.slice 6 22 (hourly_distribution stats)).

Definition weekday_msgs (stats : WrappedStats) : Z :=
  Py.sum (Py.slice 0 5 (weekday_distribution stats)).

Definition determine_personality (stats : WrappedStats) : Py.result personality :=
  let night_hours := night_hours stats in
  let day_hours := day_hours stats in
  let top_tool := top_tool stats in
  try! saturday := Py.getitem (weekday_distribution stats) 5 in
  try! sunday := Py.getitem (weekday_distribution stats) 6 in
  let weekend_msgs := saturday + sunday in
  let weekday_msgs := weekday_msgs stats in
  if Py.gt (inject_Z night_hours) (inject_Z day_hours * 0.4)%Q then
    Py.Ok {| emoji := "ğŸ¦‰"; title := "Night Owl";
             description := "The quiet hours are your sanctuary." |}
  else if streak_longest stats >=? 14 then
    Py.Ok {| emoji := "ğŸ”¥"; title := "Streak Master";
             description := Py.str (streak_longest stats) ++ " days. Unstoppable." |}
  else if is_tool top_tool "Edit" then
    Py.Ok {| emoji := "ğŸ¨"; title := "The Refactorer";
             description := "You see beauty in clean code." |}
  else if is_tool top_tool "Bash" then
    Py.Ok {| emoji := "âš¡"; title := "Terminal Warrior";
             description := "Command line is your domain." |}
  else if total_projects stats >=? 5 then
    Py.Ok {| emoji := "ğŸš€"; title := "Empire Builder";
             description := Py.str (total_projects stats) ++ " projects. Legend." |}
  else if Py.gt (inject_Z weekend_msgs) (inject_Z weekday_msgs * 0.5)%Q then
    Py.Ok {| emoji := "ğŸŒ™"; title := "Weekend Warrior";
             description := "Passion fuels your weekends." |}
  else if models_used_get stats "Opus" >? models_used_get stats "Sonnet" then
    Py.Ok {| emoji := "ğŸ¯"; title := "Perfectionist";
             description := "Only the best will do." |}
  else
    Py.Ok {| emoji := "ğŸ’»"; title := "Dedicated Dev";
             description := "Steady and reliable." |}.

(** [simplify_model_name] *)
Definition simplify_model_name (model : string) : string :=
  let model_lower := Py.lower model in
  if Py.contains "opus-4-5" model_lower || Py.contains "opus-4.5" model_lower then
    "Opus 4.5"
  else if Py.contains "opus-4-1" model_lower || Py.contains "opus-4.1" model_lower then
    "Opus 4.1"
  else if Py.contains "opus" model_lower then "Opus"
  else if Py.contains "sonnet-4-5" model_lower || Py.contains "sonnet-4.5" model_lower then
    "Sonnet 4.5"
  else if Py.contains "sonnet" model_lower then "Sonnet"
  else if Py.contains "haiku-4-5" model_lower || Py.contains "haiku-4.5" model_lower then
    "Haiku 4.5"
  else if Py.contains "haiku" model_lower then "Haiku"
  else model.

(** [create_monthly_cost_table]: the rows added to the table. *)
Definition truthy (c : option Q) : bool :=
  match c with
  | Some x => negb (Qeq_bool x 0)
  | None => false
  end.

Definition month_name (month_key : string) : string :=
  match Datetime.strptime_Y_m month_key with
  | Py.Ok month_date => Datetime.strftime_b_Y month_date
  | Py.Raise _ => month_key
  end.

Definition month_row (stats : WrappedStats) (month_key : string) : list cell :=
  let cost := Py.dict_get_or (monthly_costs stats) month_key 0%Q in
  let tokens := Py.dict_get_or (monthly_tokens stats) month_key [] in
  let input_tokens := Py.dict_get_or tokens "input" 0 in
  let output_tokens := Py.dict_get_or tokens "output" 0 in
  let cache_tokens :=
    Py.dict_get_or tokens "cache_create" 0 + Py.dict_get_or tokens "cache_read" 0 in
  [Plain (month_name month_key); Tokens input_tokens; Tokens output_tokens;
   Tokens cache_tokens; Cost cost].

Definition separator_row : list cell :=
  [Plain EmptyString; Plain EmptyString; Plain EmptyString; Plain EmptyString;
   Plain EmptyString].

Definition total_row (stats : WrappedStats) : list cell :=
  [Plain "Total";
   Tokens (total_input_tokens stats);
   Tokens (total_output_tokens stats);
   Tokens (total_cache_creation_tokens stats + total_cache_read_tokens stats);
   match estimated_cost stats with
   | Some c => if truthy (Some c) then Cost c else Plain "N/A"
   | None => Plain "N/A"
   end].

Definition create_monthly_cost_table (stats : WrappedStats) : list (list cell) :=
  let sorted_months := Py.sorted String.leb (Py.dict_keys (monthly_costs stats)) in
  (map (month_row stats) sorted_months
   ++ match sorted_months with
      | [] => []
      | _ :: _ => [separator_row; total_row stats]
      end)%list.

(** [create_credits_roll]: the costs grouped by display name, the cost
    lines of the first frame and the peak hour of the second. *)
Definition display_costs (stats : WrappedStats) : Py.dict Q :=
  fold_left
    (fun display_costs model_cost =>
       let '(model, cost) := model_cost in
       let display_name := simplify_model_name model in
       Py.dict_set display_costs display_name
         (Py.dict_get_or display_costs display_name 0 + cost)%Q)
    (cost_by_model stats) [].

Definition by_cost_descending (a b : string * Q) : bool :=
  Qle_bool (- snd a) (- snd b).

Definition cost_lines (stats : WrappedStats) : list (string * Q) :=
  match estimated_cost stats with
  | Some _ => Py.sorted by_cost_descending (display_costs stats)
  | None => []
  end.

Definition peak_hour (stats : WrappedStats) : option string :=
  match most_active_hour stats with
  | Some h =>
      let hour_label := if h <? 12 then "AM" else "PM" in
      let hour_12 := if h mod 12 =? 0 then 12 else h mod 12 in
      Some (Py.str hour_12 ++ ":00 " ++ hour_label)
  | None => None
  end.

(** [create_credits_roll]: the left margin of the frames. *)
Definition pad (console_width : Z) : string := Py.repeat " " (console_width / 4).

(** The numbers frame: the lines of the costs by model, each with the
    label in 27 columns and the cost. *)
Definition numbers_cost_lines (stats : WrappedStats) (console_width : Z)
  : Py.result (list (string * cell)) :=
  Py.map_each
    (fun model_cost : string * Q =>
       let '(model, cost) := model_cost in
       try! fill := Py.blanks (27 - Py.len model) in
       Py.Ok (pad console_width ++ model ++ fill, Cost cost))
    (cost_lines stats).

(** The labels of the frames that [create_credits_roll] appends to
    [labeled_frames], in the order of the roll. *)
Definition is_some {A : Type} (o : option A) : bool :=
  match o with
  | Some _ => true
  | None => false
  end.

Definition frame_labels (stats : WrappedStats) : list string :=
  (["numbers"; "timeline"; "averages"]
     ++ (if (streak_longest stats >=? 3) && is_some (streak_longest_start stats)
            && is_some (streak_longest_end stats)
         then ["streak"] else [])
     ++ (if longest_conversation_messages stats >? 0 then ["conversation"] else [])
     ++ ["starring"]
     ++ (match top_projects stats with
         | [] => []
         | _ :: _ => ["projects"]
         end)
     ++ ["final"])%list.

(** The last loop: the prompt appended to the frame at index [i], [None]
    for a frame that is left as it is. *)
Definition label_to_name : Py.dict (option string) :=
  [("numbers", Some "the numbers"); ("timeline", Some "the timeline");
   ("averages", Some "the averages"); ("streak", Some "the streak");
   ("conversation", Some "the longest conversation");
   ("starring", Some "the starring"); ("projects", Some "the projects");
   ("final", None)].

Definition prompt (console_width : Z) (labels : list string) (i : nat) (label : string)
  : option string :=
  if negb (String.eqb label "final") then
    match nth_error labels (i + 1) with
    | Some next_label =>
        match Py.dict_get_or label_to_name next_label (Some "continue") with
        | Some (String c next_name) =>
            Some (pad console_width ++ "press [ENTER] for " ++ String c next_name)
        | Some EmptyString | None =>
            Some (pad console_width ++ "press [ENTER] to continue")
        end
    | None => Some (pad console_width ++ "press [ENTER] to continue")
    end
  else None.

Definition prompts (console_width : Z) (labels : list string)
  : list (string * option string) :=
  map (fun i_label : nat * string =>
         let '(i, label) := i_label in
         (label, prompt console_width labels i label))
    (combine (seq 0 (length labels)) labels).

(** The dates that the timeline frame builds: [datetime(stats.year, 1, 1)]
    for the current year, and [datetime(stats.year, 12, 31)] for another
    year when there is a first message. *)
Definition timeline_dates (stats : WrappedStats) (today : datetime) : Py.result unit :=
  try! total_days_year :=
    match year stats with
    | None => Py.Ok tt
    | Some y =>
        if y =? Datetime.year today
        then try! new_year := Datetime.new y 1 1 in Py.Ok tt
        else Py.Ok tt
    end in
  match first_message_date stats, year stats with
  | Some _, Some y =>
      if y =? Datetime.year today then Py.Ok tt
      else try! year_end := Datetime.new y 12 31 in Py.Ok tt
  | _, _ => Py.Ok tt
  end.

(** [create_credits_roll]: the frames in the order of the roll, each one
    by its label and the prompt that the last loop appends to it. The
    roll is returned when the numbers frame and the timeline frame are
    built; an exception of one of them leaves no roll. *)
Definition create_credits_roll (stats : WrappedStats) (console_width : Z)
    (today : datetime) : Py.result (list (string * option string)) :=
  try! numbers := numbers_cost_lines stats console_width in
  try! timeline := timeline_dates stats today in
  Py.Ok (prompts console_width (frame_labels stats)).


(** [animate_count_up]: what the live display shows and how long it
    sleeps, frame by frame, then the value that stays on the console. A
    target too large for a double raises [OverflowError] in the first
    frame. The frames are those of a call in which [time.sleep] takes the
    time of a step; the exceptions of [time.sleep] are not part of this
    definition. *)
Inductive frame : Type :=
| Update (text : string)
| Sleep (seconds : Float.float)
| Print (text : string).

Definition animate_count_up (target : Z) (duration : Float.float) (suffix : string)
  : Py.result (list frame) :=
  let steps := if target >? 0 then Z.min 30 target else 1 in
  try! step_duration := Float.div_int duration steps in
  try! frames :=
    Py.for_each
      (fun frames i =>
         try! ratio := Float.truediv i steps in
         try! product := Float.mul_int ratio target in
         let current := Float.to_int product in
         Py.Ok (frames ++ [Update (Py.commas current ++ suffix); Sleep step_duration])%list)
      (Py.range (steps + 1))
      [] in
  Py.Ok (frames ++ [Print (Py.commas target ++ suffix)])%list.

End Ui.

(** ** [exporters/markdown_exporter.py] *)

Module Markdown.

(** [_build_title_section] *)
Definition _build_title_section (year : option Z) (now : datetime) : string :=
  let year_display := Ui.format_year_display year in
  "# 🎬 CLAUDE CODE WRAPPED" ++ Py.nl ++ "## Your " ++ year_display ++ Py.nl ++ Py.nl ++ "*A year in review · Generated " ++ Datetime.strftime_B_d_Y now ++ "*".


(** [_build_contribution_graph]: the reporting window and the body of the
    day loop, the cell of one day of the grid ([None] is a gap). *)
Definition date_range (daily_stats : gmap string DailyStats) (year : option Z)
    (now : datetime) : Py.result (datetime * datetime) :=
  match year with
  | None =>
      try! dates := Py.map_each Datetime.strptime_Y_m_d
                      (map fst (map_to_list daily_stats)) in
      Py.Ok (Datetime.min_or now dates, Datetime.max_or now dates)
  | Some y =>
      try! start_date := Datetime.new y 1 1 in
      if y =? Datetime.year now then Py.Ok (start_date, now)
      else
        try! end_date := Datetime.new y 12 31 in
        Py.Ok (start_date, end_date)
  end.

Definition max_count (daily_stats : gmap string DailyStats) : Z :=
  Py.max_or 1 (map (fun kv => message_count (snd kv)) (map_to_list daily_stats)).

Definition contribution_cell (daily_stats : gmap string DailyStats)
    (start_date end_date date : datetime) : Py.result (option Z) :=
  let date_str := Datetime.strftime_Y_m_d date in
  if Datetime.ltb date start_date || Datetime.gtb date end_date then Py.Ok None
  else
    match daily_stats !! date_str with
    | Some s =>
        let count := message_count s in
        try! level :=
          (if count >? 0 then
             try! ratio := Py.truediv count (max_count daily_stats) in
             Py.Ok (Z.min 4 (1 + Py.int (ratio * 3)%Q))
           else Py.Ok 0) in
        Py.Ok (Some level)
    | None => Py.Ok (Some 0)
    end.

(** [_build_charts] *)
Definition days : list string := ["Mon"; "Tue"; "Wed"; "Thu"; "Fri"; "Sat"; "Sun"].

Definition enumerate (l : list Z) : list (Z * Z) :=
  combine (map Z.of_nat (seq 0 (length l))) l.

Definition weekday_chart (weekday_distribution : list Z) : Py.result string :=
  let max_weekday := Py.max_or 1 weekday_distribution in
  try! chart :=
    Py.for_each
      (fun chart day_count =>
         let '(day, count) := day_count in
         try! ratio := Py.truediv count max_weekday in
         let bar_width := Py.int (ratio * 30)%Q in
         let bar := Py.repeat "█" bar_width in
         Py.Ok (chart ++ day ++ " " ++ bar ++ " " ++ Py.commas count ++ Py.nl))
      (combine days weekday_distribution)
      ("### Weekday Activity" ++ Py.nl ++ Py.nl ++ "```" ++ Py.nl) in
  Py.Ok (chart ++ "```").

Definition hourly_chart (hourly_distribution : list Z) : Py.result string :=
  let max_hourly := Py.max_or 1 hourly_distribution in
  try! chart :=
    Py.for_each
      (fun chart hour_count =>
         let '(hour, count) := hour_count in
         if count >? 0 then
           try! ratio := Py.truediv count max_hourly in
           let bar_width := Py.int (ratio * 40)%Q in
           let bar := Py.repeat "█" bar_width in
           Py.Ok (chart ++ Py.zfill 2 hour ++ ":00 " ++ bar ++ " " ++ Py.commas count
                    ++ Py.nl)
         else Py.Ok chart)
      (enumerate hourly_distribution)
      ("### Hourly Activity" ++ Py.nl ++ Py.nl ++ "```" ++ Py.nl) in
  Py.Ok (chart ++ "```").

Definition _build_charts (stats : WrappedStats) : Py.result string :=
  try! weekday_chart := weekday_chart (weekday_distribution stats) in
  try! hourly_chart := hourly_chart (hourly_distribution stats) in
  Py.Ok ("---" ++ Py.nl ++ Py.nl ++ "## 📊 Activity Patterns" ++ Py.nl ++ Py.nl
           ++ weekday_chart ++ Py.nl ++ Py.nl ++ hourly_chart).

(** [_build_monthly_costs]: the rows of the table, no row at all when
    there is no monthly cost. The loop carries the rows and the four
    running totals. *)
Record totals : Type := {
  rows : list (list cell);
  total_cost : Q;
  total_input : Z;
  total_output : Z;
  total_cache : Z
}.

Definition header_row : list cell :=
  [Plain "Month"; Plain "Input"; Plain "Output"; Plain "Cache"; Plain "Cost"].

Definition month_step (stats : WrappedStats) (acc : totals) (month_str : string)
  : Py.result totals :=
  let cost := Py.dict_get_or (monthly_costs stats) month_str 0%Q in
  let total_cost := (total_cost acc + cost)%Q in
  match Py.dict_get (monthly_tokens stats) month_str with
  | Some tokens =>
      let input_tokens := Py.dict_get_or tokens "input" 0 in
      let output_tokens := Py.dict_get_or tokens "output" 0 in
      let cache_tokens :=
        Py.dict_get_or tokens "cache_create" 0 + Py.dict_get_or tokens "cache_read" 0 in
      try! month_date := Datetime.strptime_Y_m month_str in
      let month_label := Datetime.strftime_b_Y month_date in
      Py.Ok {| rows := (rows acc ++ [[Plain month_label; Tokens input_tokens;
                                      Tokens output_tokens; Tokens cache_tokens;
                                      Cost cost]])%list;
               total_cost := total_cost;
               total_input := total_input acc + input_tokens;
               total_output := total_output acc + output_tokens;
               total_cache := total_cache acc + cache_tokens |}
  | None =>
      Py.Ok {| rows := rows acc;
               total_cost := total_cost;
               total_input := total_input acc;
               total_output := total_output acc;
               total_cache := total_cache acc |}
  end.

Definition total_row (acc : totals) : list cell :=
  [Plain "Total"; Tokens (total_input acc); Tokens (total_output acc);
   Tokens (total_cache acc); Cost (total_cost acc)].

Definition _build_monthly_costs (stats : WrappedStats) : Py.result (list (list cell)) :=
  match monthly_costs stats with
  | [] => Py.Ok []
  | _ :: _ =>
      try! acc :=
        Py.for_each (month_step stats)
          (Py.sorted String.leb (Py.dict_keys (monthly_costs stats)))
          {| rows := [header_row]; total_cost := 0; total_input := 0;
             total_output := 0; total_cache := 0 |} in
      Py.Ok (rows acc ++ [total_row acc])%list
  end.

(** [_build_credits]: the costs grouped by display name, the cost lines
    and the peak hour. *)
Definition display_costs (stats : WrappedStats) : Py.dict Q :=
  fold_left
    (fun display_costs model_cost =>
       let '(model, cost) := model_cost in
       let display_name := Ui.simplify_model_name model in
       Py.dict_set display_costs display_name
         (Py.dict_get_or display_costs display_name 0 + cost)%Q)
    (cost_by_model stats) [].

Definition cost_lines (stats : WrappedStats) : list (string * Q) :=
  match estimated_cost stats with
  | Some _ => Py.sorted (fun a b => Qle_bool (- snd a) (- snd b)) (display_costs stats)
  | None => []
  end.

Definition peak_hour (stats : WrappedStats) : option string :=
  match most_active_hour stats with
  | Some h =>
      let hour_label := if h <? 12 then "AM" else "PM" in
      let hour_12 := if h mod 12 =? 0 then 12 else h mod 12 in
      Some (Py.str hour_12 ++ ":00 " ++ hour_label)
  | None => None
  end.

(** [_build_contribution_graph], once the weeks are built: the text of
    the grid, one line for each day of the week. A cell of a week is [None]
    outside the reporting window and a level inside. *)
Definition days_labels : list string := ["Mon"; "   "; "Wed"; "   "; "Fri"; "   "; "   "].

Definition graph_row (weeks : list (list (option Z))) (graph : string) (row : nat)
  : Py.result string :=
  match nth_error days_labels row with
  | None => Py.Raise Py.IndexError
  | Some label =>
      try! graph :=
        Py.for_each
          (fun graph week =>
             match nth_error week row with
             | None => Py.Raise Py.IndexError
             | Some None => Py.Ok (graph ++ "  ")
             | Some (Some _) => Py.Ok (graph ++ "■ ")
             end)
          weeks (graph ++ label ++ " ") in
      Py.Ok (graph ++ Py.nl)
  end.

Definition graph (weeks : list (list (option Z))) : Py.result string :=
  try! graph := Py.for_each (graph_row weeks) (seq 0 7) ("```" ++ Py.nl) in
  Py.Ok (graph ++ Py.nl ++ "     Less ■ ■ ■ ■ ■ More" ++ Py.nl ++ "```").

(** [_build_tools_and_projects]: the bars of the tools and of the
    projects are scaled by the count of the first item. *)
Definition tools_md (top_tools : list (string * Z)) : Py.result (list string) :=
  match top_tools with
  | [] => Py.Ok []
  | (_, max_tool) :: _ =>
      try! tools_md :=
        Py.for_each
          (fun tools_md tool_count =>
             let '(tool, count) := (tool_count : string * Z) in
             try! bar_width := Float.scaled count max_tool 30 in
             let bar := Py.repeat "█" bar_width in
             Py.Ok (tools_md ++ Py.ljust 20 tool ++ " " ++ bar ++ " " ++ Py.commas count
                      ++ Py.nl))
          (firstn 5 top_tools)
          ("### 🔧 Top Tools" ++ Py.nl ++ Py.nl ++ "```" ++ Py.nl) in
      Py.Ok [tools_md ++ "```"]
  end.

Definition projects_md (top_projects : list (string * Z)) : Py.result (list string) :=
  match top_projects with
  | [] => Py.Ok []
  | (_, max_proj) :: _ =>
      try! projects_md :=
        Py.for_each
          (fun projects_md proj_count =>
             let '(proj, count) := (proj_count : string * Z) in
             try! bar_width := Float.scaled count max_proj 30 in
             let bar := Py.repeat "█" bar_width in
             let display_name :=
               if Py.len proj <=? 20 then proj else Py.take_chars 17 proj ++ "..." in
             Py.Ok (projects_md ++ Py.ljust 20 display_name ++ " " ++ bar ++ " "
                      ++ Py.commas count ++ Py.nl))
          (firstn 5 top_projects)
          ("### 📁 Top Projects" ++ Py.nl ++ Py.nl ++ "```" ++ Py.nl) in
      Py.Ok [projects_md ++ "```"]
  end.

Definition _build_tools_and_projects (stats : WrappedStats) : Py.result string :=
  try! tools := tools_md (top_tools stats) in
  try! projects := projects_md (top_projects stats) in
  match (tools ++ projects)%list with
  | [] => Py.Ok EmptyString
  | sections => Py.Ok ("---" ++ Py.nl ++ Py.nl ++ "## 🛠️  Tools & Projects" ++ Py.nl ++ Py.nl ++ Py.join (Py.nl ++ Py.nl) sections)
  end.

(** [_build_mcp_section]. *)
Definition _build_mcp_section (stats : WrappedStats) : Py.result string :=
  match top_mcps stats with
  | [] => Py.Ok EmptyString
  | (_, max_mcp) :: _ =>
      try! mcp_md :=
        Py.for_each
          (fun mcp_md mcp_count =>
             let '(mcp, count) := (mcp_count : string * Z) in
             try! bar_width := Float.scaled count max_mcp 30 in
             let bar := Py.repeat "█" bar_width in
             Py.Ok (mcp_md ++ Py.ljust 20 mcp ++ " " ++ bar ++ " " ++ Py.commas count
                      ++ Py.nl))
          (firstn 3 (top_mcps stats))
          ("```" ++ Py.nl) in
      Py.Ok ("---" ++ Py.nl ++ Py.nl ++ "## 🔌 MCP Servers" ++ Py.nl ++ Py.nl ++ mcp_md ++ "```")
  end.

End Markdown.

(** ** [exporters/html_exporter.py] *)

Module Html.

(** [_build_title_section] *)
Definition _build_title_section (year : option Z) (now : datetime) : string :=
  let year_display := Ui.format_year_display year in
  Py.nl ++ "    <div class=" ++ Py.dq ++ "section title-section" ++ Py.dq ++ ">" ++ Py.nl ++ "        <div class=" ++ Py.dq ++ "title-logo" ++ Py.dq ++ "> CLAUDE CODE WRAPPED</div>" ++ Py.nl ++ "        <div class=" ++ Py.dq ++ "title-year" ++ Py.dq ++ ">Your "
    ++ year_display ++ "</div>" ++ Py.nl ++ "        <div class=" ++ Py.dq ++ "title-credit" ++ Py.dq ++ ">" ++ Py.nl ++ "            A year in review 路 Generated "
    ++ Datetime.strftime_B_d_Y now ++ Py.nl ++ "        </div>" ++ Py.nl ++ "    </div>".



(** [_build_contribution_graph]: the reporting window and the body of the
    day loop; a cell is the level, the count and the date. *)
Definition date_range (daily_stats : gmap string DailyStats) (year : option Z)
    (now : datetime) : Py.result (datetime * datetime) :=
  match year with
  | None =>
      try! dates := Py.map_each Datetime.strptime_Y_m_d
                      (map fst (map_to_list daily_stats)) in
      Py.Ok (Datetime.min_or now dates, Datetime.max_or now dates)
  | Some y =>
      try! start_date := Datetime.new y 1 1 in
      if y =? Datetime.year now then Py.Ok (start_date, now)
      else
        try! end_date := Datetime.new y 12 31 in
        Py.Ok (start_date, end_date)
  end.

Definition max_count (daily_stats : gmap string DailyStats) : Z :=
  Py.max_or 1 (map (fun kv => message_count (snd kv)) (map_to_list daily_stats)).

Definition contribution_cell (daily_stats : gmap string DailyStats)
    (start_date end_date date : datetime) : Py.result (option (Z * Z * string)) :=
  let date_str := Datetime.strftime_Y_m_d date in
  if Datetime.ltb date start_date || Datetime.gtb date end_date then Py.Ok None
  else
    match daily_stats !! date_str with
    | Some s =>
        let count := message_count s in
        try! level :=
          (if count >? 0 then
             try! ratio := Py.truediv count (max_count daily_stats) in
             Py.Ok (Z.min 4 (1 + Py.int (ratio * 3)%Q))
           else Py.Ok 0) in
        Py.Ok (Some (level, count, date_str))
    | None => Py.Ok (Some (0, 0, date_str))
    end.

(** [_build_monthly_costs]: the rows of the table, with the same loop as
    the Markdown exporter. *)
Record totals : Type := {
  rows : list (list cell);
  total_cost : Q;
  total_input : Z;
  total_output : Z;
  total_cache : Z
}.

Definition header_row : list cell :=
  [Plain "Month"; Plain "Input"; Plain "Output"; Plain "Cache"; Plain "Cost"].

Definition month_step (stats : WrappedStats) (acc : totals) (month_str : string)
  : Py.result totals :=
  let cost := Py.dict_get_or (monthly_costs stats) month_str 0%Q in
  let total_cost := (total_cost acc + cost)%Q in
  match Py.dict_get (monthly_tokens stats) month_str with
  | Some tokens =>
      let input_tokens := Py.dict_get_or tokens "input" 0 in
      let output_tokens := Py.dict_get_or tokens "output" 0 in
      let cache_tokens :=
        Py.dict_get_or tokens "cache_create" 0 + Py.dict_get_or tokens "cache_read" 0 in
      try! month_date := Datetime.strptime_Y_m month_str in
      let month_label := Datetime.strftime_b_Y month_date in
      Py.Ok {| rows := (rows acc ++ [[Plain month_label; Tokens input_tokens;
                                      Tokens output_tokens; Tokens cache_tokens;
                                      Cost cost]])%list;
               total_cost := total_cost;
               total_input := total_input acc + input_tokens;
               total_output := total_output acc + output_tokens;
               total_cache := total_cache acc + cache_tokens |}
  | None =>
      Py.Ok {| rows := rows acc;
               total_cost := total_cost;
               total_input := total_input acc;
               total_output := total_output acc;
               total_cache := total_cache acc |}
  end.

Definition total_row (acc : totals) : list cell :=
  [Plain "Total"; Tokens (total_input acc); Tokens (total_output acc);
   Tokens (total_cache acc); Cost (total_cost acc)].

Definition _build_monthly_costs (stats : WrappedStats) : Py.result (list (list cell)) :=
  match monthly_costs stats with
  | [] => Py.Ok []
  | _ :: _ =>
      try! acc :=
        Py.for_each (month_step stats)
          (Py.sorted String.leb (Py.dict_keys (monthly_costs stats)))
          {| rows := [header_row]; total_cost := 0; total_input := 0;
             total_output := 0; total_cache := 0 |} in
      Py.Ok (rows acc ++ [total_row acc])%list
  end.

(** [_build_credits]: the costs grouped by display name, the cost lines
    and the peak hour. *)
Definition display_costs (stats : WrappedStats) : Py.dict Q :=
  fold_left
    (fun display_costs model_cost =>
       let '(model, cost) := model_cost in
       let display_name := Ui.simplify_model_name model in
       Py.dict_set display_costs display_name
         (Py.dict_get_or display_costs display_name 0 + cost)%Q)
    (cost_by_model stats) [].

Definition cost_lines (stats : WrappedStats) : list (string * Q) :=
  match estimated_cost stats with
  | Some _ => Py.sorted (fun a b => Qle_bool (- snd a) (- snd b)) (display_costs stats)
  | None => []
  end.

Definition peak_hour (stats : WrappedStats) : option string :=
  match most_active_hour stats with
  | Some h =>
      let hour_label := if h <? 12 then "AM" else "PM" in
      let hour_12 := if h mod 12 =? 0 then 12 else h mod 12 in
      Some (Py.str hour_12 ++ ":00 " ++ hour_label)
  | None => None
  end.

(** [_build_weekday_chart] and [_build_hourly_chart]: the bars, each with
    its label, its size in percent and its count; the hourly bars have a
    colour. *)
Definition days : list string := ["Mon"; "Tue"; "Wed"; "Thu"; "Fri"; "Sat"; "Sun"].




(** [_build_tools_and_projects] and [_build_mcp_section]: the bars of each
    panel, [None] for a panel that is left out; a project has its full name
    as a title and a name of at most 20 characters as a label. *)
Definition tools_panel (top_tools : list (string * Z))
  : Py.result (option (list (string * Z * Z))) :=
  match top_tools with
  | [] => Py.Ok None
  | (_, max_tool_count) :: _ =>
      try! bars :=
        Py.for_each
          (fun html tool_count =>
             let '(tool, count) := (tool_count : string * Z) in
             try! width := Float.scaled count max_tool_count 100 in
             Py.Ok (html ++ [(tool, width, count)])%list)
          (firstn 5 top_tools)
          [] in
      Py.Ok (Some bars)
  end.

Definition projects_panel (top_projects : list (string * Z))
  : Py.result (option (list (string * string * Z * Z))) :=
  match top_projects with
  | [] => Py.Ok None
  | (_, max_proj_count) :: _ =>
      try! bars :=
        Py.for_each
          (fun html proj_count =>
             let '(proj, count) := (proj_count : string * Z) in
             try! width := Float.scaled count max_proj_count 100 in
             let display_name :=
               if Py.len proj <=? 20 then proj else Py.take_chars 17 proj ++ "..." in
             Py.Ok (html ++ [(proj, display_name, width, count)])%list)
          (firstn 5 top_projects)
          [] in
      Py.Ok (Some bars)
  end.

Definition _build_tools_and_projects (stats : WrappedStats)
  : Py.result (option (list (string * Z * Z)) * option (list (string * string * Z * Z))) :=
  try! tools := tools_panel (top_tools stats) in
  try! projects := projects_panel (top_projects stats) in
  Py.Ok (tools, projects).

Definition _build_mcp_section (stats : WrappedStats)
  : Py.result (option (list (string * Z * Z))) :=
  match top_mcps stats with
  | [] => Py.Ok None
  | (_, max_mcp_count) :: _ =>
      try! bars :=
        Py.for_each
          (fun html mcp_count =>
             let '(mcp, count) := (mcp_count : string * Z) in
             try! width := Float.scaled count max_mcp_count 100 in
             Py.Ok (html ++ [(mcp, width, count)])%list)
          (firstn 3 (top_mcps stats))
          [] in
      Py.Ok (Some bars)
  end.

End Html.

(** ** [main.py]: the entry point *)

Module Main.

(** *** The object of the JSON output *)

#[warnings="-register-all"] Inductive json : Type :=
| JNull
| JInt (n : Z)
| JFloat (x : Q)
| JStr (s : string)
| JList (items : list json)
| JObj (members : list (string * json)).

Definition opt {A : Type} (f : A -> json) (o : option A) : json :=
  match o with
  | Some a => f a
  | None => JNull
  end.

Definition obj {A : Type} (f : A -> json) (d : Py.dict A) : json :=
  JObj (map (fun kv => (fst kv, f (snd kv))) d).

(** [round(x, n) if x else None] *)
Definition rounded_or_null (x : option Q) (ndigits : nat) : json :=
  match x with
  | Some v => if Qeq_bool v 0 then JNull else JFloat (Py.round v ndigits)
  | None => JNull
  end.

(** The [output] dictionary of [main], in the order of its literal. *)
Definition output (stats : WrappedStats) : list (string * json) :=
  [ ("year", opt JInt (year stats));
    ("total_messages", JInt (total_messages stats));
    ("total_user_messages", JInt (total_user_messages stats));
    ("total_assistant_messages", JInt (total_assistant_messages stats));
    ("total_sessions", JInt (total_sessions stats));
    ("total_projects", JInt (total_projects stats));
    ("total_tokens", JInt (total_tokens stats));
    ("total_input_tokens", JInt (total_input_tokens stats));
    ("total_output_tokens", JInt (total_output_tokens stats));
    ("active_days", JInt (active_days stats));
    ("late_night_days", JInt (late_night_days stats));
    ("streak_longest", JInt (streak_longest stats));
    ("streak_current", JInt (streak_current stats));
    ("most_active_hour", opt JInt (most_active_hour stats));
    ("most_active_day",
       opt (fun d => JStr (Datetime.isoformat (fst d))) (most_active_day stats));
    ("most_active_day_messages", opt (fun d => JInt (snd d)) (most_active_day stats));
    ("primary_model", opt JStr (primary_model stats));
    ("top_tools", obj JInt (Py.dict_of_pairs (top_tools stats)));
    ("top_mcps", obj JInt (Py.dict_of_pairs (top_mcps stats)));
    ("top_projects", obj JInt (Py.dict_of_pairs (top_projects stats)));
    ("hourly_distribution", JList (map JInt (hourly_distribution stats)));
    ("weekday_distribution", JList (map JInt (weekday_distribution stats)));
    ("estimated_cost_usd", opt JFloat (estimated_cost stats));
    ("cost_by_model", obj JFloat (cost_by_model stats));
    ("avg_messages_per_day", JFloat (Py.round (avg_messages_per_day stats) 1));
    ("avg_messages_per_week", JFloat (Py.round (avg_messages_per_week stats) 1));
    ("avg_messages_per_month", JFloat (Py.round (avg_messages_per_month stats) 1));
    ("avg_cost_per_day", rounded_or_null (avg_cost_per_day stats) 2);
    ("avg_cost_per_week", rounded_or_null (avg_cost_per_week stats) 2);
    ("avg_cost_per_month", rounded_or_null (avg_cost_per_month stats) 2);
    ("total_edits", JInt (total_edits stats));
    ("total_writes", JInt (total_writes stats));
    ("avg_code_changes_per_day", JFloat (Py.round (avg_edits_per_day stats) 1));
    ("avg_code_changes_per_week", JFloat (Py.round (avg_edits_per_week stats) 1));
    ("monthly_costs", obj JFloat (monthly_costs stats));
    ("monthly_tokens", obj (obj JInt) (monthly_tokens stats));
    ("longest_conversation_messages", JInt (longest_conversation_messages stats));
    ("longest_conversation_tokens", JInt (longest_conversation_tokens stats));
    ("longest_conversation_date",
       opt (fun d => JStr (Datetime.isoformat d)) (longest_conversation_date stats)) ].

Definition keys (o : list (string * json)) : list string := map fst o.

Fixpoint member (k : string) (o : list (string * json)) : option json :=
  match o with
  | [] => None
  | (k', v) :: o' => if String.eqb k' k then Some v else member k o'
  end.

(** The integer [n] is the value of a member of the object. *)
Definition has_int_member (n : Z) (o : list (string * json)) : bool :=
  existsb (fun kv => match snd kv with JInt m => m =? n | _ => false end) o.


(** *** The run of [main]

    [main] is followed from the parsed arguments on: the interactive
    prompts and the parsing of the command line, which come before and have
    exits of their own, are not part of this run. What it does to the
    outside is recorded as a trace of events; [sys.exit] ends the run, and
    so does an exception that an exporter raises, which [main] does not
    catch. The call of [render_wrapped] is the last event of a run that
    comes to it: what it draws, and whether it returns, is not part of the
    trace. *)

Record Args : Type := {
  arg_year : string;
  no_animate : bool;
  json_flag : bool;
  html : bool;
  markdown : bool;
  output_name : option string
}.

Inductive event : Type :=
| ConsolePrint (text : string)
| LoadAllMessages (year_filter : option Z)
| AggregateStats (year_filter : option Z)
| ExportToHtml (stats : WrappedStats) (year_filter : option Z) (path : string)
| ExportToMarkdown (stats : WrappedStats) (year_filter : option Z) (path : string)
| PrintJson (o : list (string * json))
| RenderWrapped (stats : WrappedStats) (animate : bool)
| SysExit (code : Z)
| Uncaught (exception : string).

(** An event that produces statistics or a report. *)
Definition reports (e : event) : bool :=
  match e with
  | AggregateStats _ | ExportToHtml _ _ _ | ExportToMarkdown _ _ _
  | PrintJson _ | RenderWrapped _ _ => true
  | ConsolePrint _ | LoadAllMessages _ | SysExit _ | Uncaught _ => false
  end.

Definition prog (A : Type) : Type := list event -> list event * option A.

Definition ret {A : Type} (a : A) : prog A := fun t => (t, Some a).

Definition seq {A B : Type} (p : prog A) (k : A -> prog B) : prog B :=
  fun t =>
    match p t with
    | (t', Some a) => k a t'
    | (t', None) => (t', None)
    end.

Definition emit (e : event) : prog unit := fun t => ((t ++ [e])%list, Some tt).

Definition sys_exit {A : Type} (code : Z) : prog A :=
  fun t => ((t ++ [SysExit code])%list, None).

(** The outcome of a call that may raise: [None] when it returns, the
    name of the exception otherwise. *)
Definition returns (outcome : option string) : prog unit :=
  match outcome with
  | None => ret tt
  | Some exception => fun t => ((t ++ [Uncaught exception])%list, None)
  end.

Definition when (b : bool) (p : prog unit) : prog unit :=
  if b then p else ret tt.

Definition run {A : Type} (p : prog A) : list event := fst (p []).

(** [int(s)] on a string: blanks around, a sign, digits that single
    underscores may separate. [int] refuses a text of more than
    [int_max_str_digits] digits with a ValueError of its own; [int_of_str]
    is the reading of the texts within that limit, and the statements on
    the year argument are for such texts. *)
Definition int_max_str_digits : nat := 4300.

Definition is_space (c : ascii) : bool :=
  let n := nat_of_ascii c in
  ((n =? 32) || ((9 <=? n) && (n <=? 13)))%nat.

Fixpoint lstrip (s : string) : string :=
  match s with
  | String c s' => if is_space c then lstrip s' else s
  | EmptyString => EmptyString
  end.

Fixpoint rstrip (s : string) : string :=
  match s with
  | String c s' =>
      match rstrip s' with
      | EmptyString => if is_space c then EmptyString else String c EmptyString
      | r => String c r
      end
  | EmptyString => EmptyString
  end.

(** [after_digit]: the previous character was a digit, so an underscore
    may come. *)
Fixpoint digits (s : string) (acc : Z) (after_digit : bool) : option Z :=
  match s with
  | EmptyString => if after_digit then Some acc else None
  | String c s' =>
      match Datetime.digit c with
      | Some d => digits s' (10 * acc + d) true
      | None =>
          if Ascii.eqb c "_" && after_digit then digits s' acc false else None
      end
  end.

Definition int_of_str (s : string) : option Z :=
  match rstrip (lstrip s) with
  | String "-"%char s' => option_map Z.opp (digits s' 0 false)
  | String "+"%char s' => digits s' 0 false
  | s' => digits s' 0 false
  end.

(** The year argument: the filter, the name used in file names and the
    label of the messages; [None] for an invalid year. *)
Definition parse_year (arg : string) : option (option Z * string * string) :=
  if String.eqb (Py.lower arg) "all" then Some (None, "all-time", "All time")
  else
    match int_of_str arg with
    | Some y => Some (Some y, Py.str y, Py.str y)
    | None => None
    end.

(** [datetime.now().strftime("%Y%m%d-%H%M")] *)
Definition timestamp (now : datetime) : string :=
  Py.zfill 4 (Datetime.year now) ++ Py.zfill 2 (Datetime.month now)
    ++ Py.zfill 2 (Datetime.day now) ++ "-" ++ Py.zfill 2 (Datetime.hour now)
    ++ Py.zfill 2 (Datetime.minute now).

Definition file_name (args : Args) (year_display : string) (now : datetime) : string :=
  match output_name args with
  | Some name => if String.eqb name EmptyString
                 then "claude-wrapped-" ++ year_display ++ "-" ++ timestamp now
                 else name
  | None => "claude-wrapped-" ++ year_display ++ "-" ++ timestamp now
  end.

Section Run.

(** The records of [reader.py] and the functions of [reader.py] and
    [stats.py], none of them among the sources, the outcome of the two
    exporters on a path, and the clock. *)
Variable Message : Type.

Record World : Type := {
  get_claude_dir : string + string;
  load_all_messages : string -> option Z -> list Message;
  aggregate_stats : list Message -> option Z -> WrappedStats;
  export_to_html : WrappedStats -> option Z -> string -> option string;
  export_to_markdown : WrappedStats -> option Z -> string -> option string;
  now : datetime
}.

Definition loading (year_label : string) : string :=
  Py.nl ++ "[dim]Loading your Claude Code history for " ++ year_label
    ++ "...[/dim]" ++ Py.nl.

Definition no_activity (year_label : string) : string :=
  "[yellow]No Claude Code activity found for " ++ year_label ++ ".[/yellow]".

Definition try_another : string :=
  Py.nl ++ "Try a different year or make sure you've used Claude Code.".

Definition main (w : World) (args : Args) : prog unit :=
  match parse_year (arg_year args) with
  | None =>
      seq (emit (ConsolePrint ("[red]Error:[/red] Invalid year '" ++ arg_year args
                                 ++ "'. Use a year (e.g., 2025) or 'all'.")))
          (fun _ => sys_exit 1)
  | Some (year_filter, year_display, year_label) =>
      match get_claude_dir w with
      | inr e =>
          seq (emit (ConsolePrint ("[red]Error:[/red] " ++ e))) (fun _ =>
          seq (emit (ConsolePrint
                 (Py.nl ++ "Make sure you have Claude Code installed and "
                    ++ "have used it at least once."))) (fun _ =>
          sys_exit 1))
      | inl claude_dir =>
          seq (when (negb (json_flag args))
                 (emit (ConsolePrint (loading year_label)))) (fun _ =>
          seq (emit (LoadAllMessages year_filter)) (fun _ =>
          let messages := load_all_messages w claude_dir year_filter in
          match messages with
          | [] =>
              seq (emit (ConsolePrint (no_activity year_label))) (fun _ =>
              seq (emit (ConsolePrint try_another)) (fun _ =>
              sys_exit 0))
          | _ :: _ =>
              seq (emit (AggregateStats year_filter)) (fun _ =>
              let stats := aggregate_stats w messages year_filter in
              seq (when (html args)
                     (let html_path := file_name args year_display (now w) ++ ".html" in
                      seq (emit (ExportToHtml stats year_filter html_path)) (fun _ =>
                      seq (returns (export_to_html w stats year_filter html_path))
                        (fun _ =>
                      emit (ConsolePrint
                              (Py.nl ++ "[green]✓[/green] Exported to [bold]"
                                 ++ html_path ++ "[/bold]")))))) (fun _ =>
              seq (when (markdown args)
                     (let md_path := file_name args year_display (now w) ++ ".md" in
                      seq (emit (ExportToMarkdown stats year_filter md_path)) (fun _ =>
                      seq (returns (export_to_markdown w stats year_filter md_path))
                        (fun _ =>
                      emit (ConsolePrint
                              (Py.nl ++ "[green]✓[/green] Exported to [bold]"
                                 ++ md_path ++ "[/bold]")))))) (fun _ =>
              if json_flag args then emit (PrintJson (output stats))
              else emit (RenderWrapped stats (negb (no_animate args))))))
          end))
      end
  end.

End Run.

Arguments get_claude_dir {Message} w.
Arguments load_all_messages {Message} w _ _.
Arguments aggregate_stats {Message} w _ _.
Arguments export_to_html {Message} w _ _ _.
Arguments export_to_markdown {Message} w _ _ _.
Arguments now {Message} w.
Arguments main {Message} w args.

End Main.

(** ** [interactive.py]: the interactive mode *)

Module Interactive.

(** [get_available_years] *)
Definition get_available_years (now : datetime) : list string :=
  let current_year := Datetime.year now in
  let years := map Py.str [current_year - 2; current_year - 1; current_year] in
  (rev years ++ ["All time"])%list.

(** What [ask()] gives back: an answer, [None] when the user leaves the
    prompt, or a [KeyboardInterrupt] that goes through. *)
Inductive answer (A : Type) : Type :=
| Given (a : A)
| Cancelled
| Interrupted.

Arguments Given {A} a.
Arguments Cancelled {A}.
Arguments Interrupted {A}.

(** The answers of the user to the prompts, each one read only when its
    prompt is shown. *)
Record Answers : Type := {
  year_answer : answer string;
  export_answer : answer string;
  animate_answer : answer bool;
  use_custom : answer bool;
  output_filename : answer string
}.

Inductive event : Type :=
| Print (text : string)
| Select (question : string) (choices : list string)
| Confirm (question : string)
| Text (question : string)
| Exit (code : Z).

(** The dictionary that [interactive_mode] returns. *)
Record Selections : Type := {
  year : string;
  html : bool;
  markdown : bool;
  json : bool;
  no_animate : bool;
  output : option string
}.

Definition export_choices : list string :=
  ["View in terminal only"; "Export to HTML"; "Export to Markdown";
   "Export to both HTML & Markdown"; "Export to JSON"].

Definition outcome : Type := list event * option Selections.

(** The reading of one answer: [None] prints the message and exits inside
    the [try], an interrupt reaches the [except] clause. *)
Definition ask {A : Type} (a : answer A) (t : list event) (k : A -> outcome) : outcome :=
  match a with
  | Given x => k x
  | Cancelled => ((t ++ [Print (Py.nl ++ "[yellow]Cancelled.[/yellow]"); Exit 0])%list, None)
  | Interrupted =>
      ((t ++ [Print (Py.nl ++ Py.nl ++ "[yellow]Cancelled.[/yellow]"); Exit 0])%list, None)
  end.

(** [interactive_mode] *)
Definition interactive_mode (now : datetime) (answers : Answers) : outcome :=
  let t :=
    [Print EmptyString;
     Print "  [bold #E67E22]Claude Code Wrapped[/bold #E67E22] [dim]- Interactive Mode[/dim]";
     Print EmptyString;
     Select "Select time period:" (get_available_years now)] in
  ask (year_answer answers) t (fun year_answer =>
  let year := if String.eqb year_answer "All time" then "all" else year_answer in
  let t := (t ++ [Select "Export format:" export_choices])%list in
  ask (export_answer answers) t (fun export_answer =>
  let html := Py.contains "HTML" export_answer in
  let markdown := Py.contains "Markdown" export_answer in
  let json_export := Py.contains "JSON" export_answer in
  let filename (t : list event) (no_animate : bool) : outcome :=
    let finish (t : list event) (output_filename : option string) : outcome :=
      ((t ++ [Print EmptyString])%list,
       Some {| year := year; html := html; markdown := markdown; json := json_export;
               no_animate := no_animate; output := output_filename |}) in
    if html || markdown || json_export then
      let t := (t ++ [Confirm "Use custom filename?"])%list in
      ask (use_custom answers) t (fun use_custom =>
      if use_custom then
        let t := (t ++ [Text "Enter filename (without extension):"])%list in
        ask (output_filename answers) t (fun output_filename =>
        finish t (Some output_filename))
      else finish t None)
    else finish t None in
  if String.eqb export_answer "View in terminal only" || html || markdown then
    let t := (t ++ [Confirm "Show animations?"])%list in
    ask (animate_answer answers) t (fun animate_answer =>
    filename t (negb animate_answer))
  else filename t true)).

(** [should_use_interactive_mode], on [sys.argv]. *)
Definition should_use_interactive_mode (argv : list string) : bool :=
  match argv with
  | [_] => true
  | [_; arg] => String.eqb arg "--interactive" || String.eqb arg "-i"
  | _ => false
  end.

(** The namespace that [main] makes of the selections. *)
Definition to_args (selections : Selections) : Main.Args :=
  {| Main.arg_year := year selections;
     Main.no_animate := no_animate selections;
     Main.json_flag := json selections;
     Main.html := html selections;
     Main.markdown := markdown selections;
     Main.output_name := output selections |}.

End Interactive.

(** ** The properties, in the words of the specification *)

Module Spec.

(** The closed set of display labels. *)
Definition labels : list string :=
  ["Opus 4.5"; "Opus 4.1"; "Opus"; "Sonnet 4.5"; "Sonnet"; "Haiku 4.5"; "Haiku"].

(** The 12-hour rendering of an hour of the day. *)
Definition hour_12 (h : Z) : Z := if h mod 12 =? 0 then 12 else h mod 12.

Definition peak_hour_label (h : Z) : string :=
  Py.str (hour_12 h) ++ ":00 " ++ (if h <? 12 then "AM" else "PM").

(** The rule chain of the personality, as an ordered list of predicates
    and titles over the fields of the statistics, and its evaluation from
    the top. The night is made of the hours 22-23 and 0-5 of a histogram
    of 24 hours, the weekend of the days 5 and 6 of a histogram of 7 days. *)
Definition hour (stats : WrappedStats) (h : nat) : Z :=
  nth h (hourly_distribution stats) 0.

Definition night_count (stats : WrappedStats) : Z :=
  hour stats 22 + hour stats 23
  + (hour stats 0 + hour stats 1 + hour stats 2 + hour stats 3 + hour stats 4
     + hour stats 5).

Definition day_count (stats : WrappedStats) : Z :=
  hour stats 6 + hour stats 7 + hour stats 8 + hour stats 9 + hour stats 10
  + hour stats 11 + hour stats 12 + hour stats 13 + hour stats 14 + hour stats 15
  + hour stats 16 + hour stats 17 + hour stats 18 + hour stats 19 + hour stats 20
  + hour stats 21.

Definition weekday (stats : WrappedStats) (d : nat) : Z :=
  nth d (weekday_distribution stats) 0.

Definition weekend_msgs (stats : WrappedStats) : Z := weekday stats 5 + weekday stats 6.

Definition working_days_msgs (stats : WrappedStats) : Z :=
  weekday stats 0 + weekday stats 1 + weekday stats 2 + weekday stats 3 + weekday stats 4.

(** [count] exceeds [factor] times [base]. *)
Definition exceeds (count : Z) (factor : Q) (base : Z) : bool :=
  match (inject_Z count ?= factor * inject_Z base)%Q with
  | Gt => true
  | _ => false
  end.

(** The first tool of the ranking is [name]. *)
Definition top_tool_is (stats : WrappedStats) (name : string) : bool :=
  match top_tools stats with
  | (tool, _) :: _ => String.eqb tool name
  | [] => false
  end.

(** The messages of a model family, none when the family is not used. *)
Definition messages_of (stats : WrappedStats) (family : string) : Z :=
  default 0 (models_used stats !! family).

Definition rules : list ((WrappedStats -> bool) * string) :=
  [ (fun s => exceeds (night_count s) 0.4 (day_count s), "Night Owl");
    (fun s => 14 <=? streak_longest s, "Streak Master");
    (fun s => top_tool_is s "Edit", "The Refactorer");
    (fun s => top_tool_is s "Bash", "Terminal Warrior");
    (fun s => 5 <=? total_projects s, "Empire Builder");
    (fun s => exceeds (weekend_msgs s) 0.5 (working_days_msgs s), "Weekend Warrior");
    (fun s => messages_of s "Sonnet" <? messages_of s "Opus", "Perfectionist") ].



Fixpoint first_match (rs : list ((WrappedStats -> bool) * string))
    (fallback : string) (stats : WrappedStats) : string :=
  match rs with
  | [] => fallback
  | (holds, label) :: rs' =>
      if holds stats then label else first_match rs' fallback stats
  end.

(** The intensity level of a day with [count] messages. *)
Definition level (count max_count : Z) : Z :=
  if count >? 0 then Z.min 4 (1 + 3 * count / max_count) else 0.


(** The total row read from the aggregate. *)
Definition stored_total_row (stats : WrappedStats) : list cell :=
  [Plain "Total";
   Tokens (total_input_tokens stats);
   Tokens (total_output_tokens stats);
   Tokens (total_cache_creation_tokens stats + total_cache_read_tokens stats);
   match estimated_cost stats with
   | Some c => Cost c
   | None => Plain "N/A"
   end].

(** The total row summed over the monthly buckets: the cost over the
    months of [monthly_costs], the tokens over those of them that are
    months of [monthly_tokens] too. *)
Definition months (stats : WrappedStats) : list string :=
  Py.sorted String.leb (Py.dict_keys (monthly_costs stats)).

Definition month_cost (stats : WrappedStats) (month : string) : Q :=
  Py.dict_get_or (monthly_costs stats) month 0%Q.

Definition month_tokens (stats : WrappedStats) (kinds : list string) (month : string) : Z :=
  match Py.dict_get (monthly_tokens stats) month with
  | Some tokens => Py.sum (map (fun kind => Py.dict_get_or tokens kind 0) kinds)
  | None => 0
  end.

Definition summed_total_row (stats : WrappedStats) : list cell :=
  [Plain "Total";
   Tokens (Py.sum (map (month_tokens stats ["input"]) (months stats)));
   Tokens (Py.sum (map (month_tokens stats ["output"]) (months stats)));
   Tokens (Py.sum (map (month_tokens stats ["cache_create"; "cache_read"]) (months stats)));
   Cost (fold_left Qplus (map (month_cost stats) (months stats)) 0%Q)].

(** A month whose row can be written: it has no tokens, or its key is a
    year and a month. *)
Definition month_writable (stats : WrappedStats) (month : string) : bool :=
  match Py.dict_get (monthly_tokens stats) month with
  | Some _ => negb (Py.raises (Datetime.strptime_Y_m month))
  | None => true
  end.

(** The members of the JSON object. *)
Definition json_keys : list string :=
  ["year"; "total_messages"; "total_user_messages"; "total_assistant_messages";
   "total_sessions"; "total_projects"; "total_tokens"; "total_input_tokens";
   "total_output_tokens"; "active_days"; "late_night_days"; "streak_longest";
   "streak_current"; "most_active_hour"; "most_active_day";
   "most_active_day_messages"; "primary_model"; "top_tools"; "top_mcps";
   "top_projects"; "hourly_distribution"; "weekday_distribution";
   "estimated_cost_usd"; "cost_by_model"; "avg_messages_per_day";
   "avg_messages_per_week"; "avg_messages_per_month"; "avg_cost_per_day";
   "avg_cost_per_week"; "avg_cost_per_month"; "total_edits"; "total_writes";
   "avg_code_changes_per_day"; "avg_code_changes_per_week"; "monthly_costs";
   "monthly_tokens"; "longest_conversation_messages";
   "longest_conversation_tokens"; "longest_conversation_date"].

(** The fields the serialization contract names that the object has
    under these names. *)
Definition contract_keys : list string :=
  ["total_messages"; "total_sessions"; "total_projects"; "total_tokens";
   "total_input_tokens"; "total_output_tokens"; "active_days"; "late_night_days";
   "streak_longest"; "streak_current"; "most_active_hour"; "most_active_day";
   "most_active_day_messages"; "top_tools"; "top_mcps"; "top_projects";
   "hourly_distribution"; "weekday_distribution"; "estimated_cost_usd";
   "cost_by_model"; "avg_messages_per_day"; "avg_messages_per_week";
   "avg_messages_per_month"; "avg_cost_per_day"; "avg_cost_per_week";
   "avg_cost_per_month"; "monthly_costs"; "monthly_tokens";
   "longest_conversation_messages"; "longest_conversation_tokens";
   "longest_conversation_date"].

Definition has_key (o : list (string * Main.json)) (k : string) : bool :=
  existsb (String.eqb k) (Main.keys o).

Definition list_length (o : list (string * Main.json)) (k : string) : option nat :=
  match Main.member k o with
  | Some (Main.JList items) => Some (length items)
  | _ => None
  end.



(** The value found under a label after the grouping loop has gone
    through some models, from the value found before and the costs of the
    models of that label. *)
Definition grouped (before : option Q) (costs : list Q) : option Q :=
  match costs with
  | [] => before
  | _ :: _ => Some (fold_left Qplus costs (default 0%Q before))
  end.


End Spec.

(** ** Sample values *)

Module Sample.

(** A year without any recorded activity: every counter is zero. *)
Definition idle : WrappedStats := {|
  year := Some 2025;
  total_messages := 0; total_user_messages := 0; total_assistant_messages := 0;
  total_sessions := 0; total_projects := 0;
  total_tokens := 0; total_input_tokens := 0; total_output_tokens := 0;
  total_cache_creation_tokens := 0; total_cache_read_tokens := 0;
  active_days := 0; late_night_days := 0;
  streak_longest := 0; streak_current := 0;
  streak_longest_start := None; streak_longest_end := None;
  most_active_hour := None; most_active_day := None; primary_model := None;
  top_tools := []; top_mcps := []; top_projects := [];
  hourly_distribution := repeat 0 24;
  weekday_distribution := repeat 0 7;
  estimated_cost := None; cost_by_model := [];
  avg_messages_per_day := 0; avg_messages_per_week := 0; avg_messages_per_month := 0;
  avg_cost_per_day := None; avg_cost_per_week := None; avg_cost_per_month := None;
  total_edits := 0; total_writes := 0;
  avg_edits_per_day := 0; avg_edits_per_week := 0;
  monthly_costs := []; monthly_tokens := [];
  longest_conversation_messages := 0; longest_conversation_tokens := 0;
  longest_conversation_date := None;
  daily_stats := ∅; models_used := ∅;
  first_message_date := None; last_message_date := None
|}.

(** One day of work in January 2025, at midnight, with one Opus model;
    the aggregate holds more tokens and a higher cost than its only
    monthly bucket. *)
Definition january : WrappedStats := {|
  year := Some 2025;
  total_messages := 3; total_user_messages := 1; total_assistant_messages := 2;
  total_sessions := 1; total_projects := 1;
  total_tokens := 165; total_input_tokens := 100; total_output_tokens := 50;
  total_cache_creation_tokens := 777; total_cache_read_tokens := 888;
  active_days := 1; late_night_days := 1;
  streak_longest := 1; streak_current := 0;
  streak_longest_start := Some (Datetime.at_midnight 2025 1 1);
  streak_longest_end := Some (Datetime.at_midnight 2025 1 1);
  most_active_hour := Some 0;
  most_active_day := Some (Datetime.at_midnight 2025 1 1, 3);
  primary_model := Some "claude-opus-4-5-20251101";
  top_tools := [("Read", 2)]; top_mcps := []; top_projects := [("wrapped", 3)];
  hourly_distribution := 3 :: repeat 0 23;
  weekday_distribution := [0; 0; 3; 0; 0; 0; 0];
  estimated_cost := Some 2.5%Q;
  cost_by_model := [("claude-opus-4-5-20251101", 2.5%Q)];
  avg_messages_per_day := 3; avg_messages_per_week := 21; avg_messages_per_month := 91;
  avg_cost_per_day := Some 2.5%Q; avg_cost_per_week := Some 17.5%Q;
  avg_cost_per_month := Some 76%Q;
  total_edits := 0; total_writes := 0;
  avg_edits_per_day := 0; avg_edits_per_week := 0;
  monthly_costs := [("2025-01", 1%Q)];
  monthly_tokens :=
    [("2025-01", [("input", 40); ("output", 10); ("cache_create", 1); ("cache_read", 2)])];
  longest_conversation_messages := 3; longest_conversation_tokens := 165;
  longest_conversation_date := Some (Datetime.at_midnight 2025 1 1);
  daily_stats := {[ "2025-01-01" := {| message_count := 3; tokens := 165 |} ]};
  models_used := {[ "Opus" := 2 ]};
  first_message_date := Some (Datetime.at_midnight 2025 1 1);
  last_message_date := Some (Datetime.at_midnight 2025 1 1)
|}.

(** A clock reading on 30 December 2025 and two on the 31st. *)
Definition dec_30 : datetime := Datetime.mk 2025 12 30 9 0 0 0.


(** A world where the reader finds nothing. *)
Definition silent_world : Main.World unit := {|
  Main.get_claude_dir := inl "/home/dev/.claude";
  Main.load_all_messages := fun _ _ => [];
  Main.aggregate_stats := fun _ _ => idle;
  Main.export_to_html := fun _ _ _ => None;
  Main.export_to_markdown := fun _ _ _ => None;
  Main.now := dec_30
|}.

Definition args_2025 : Main.Args := {|
  Main.arg_year := "2025";
  Main.no_animate := false;
  Main.json_flag := false;
  Main.html := true;
  Main.markdown := true;
  Main.output_name := None
|}.

(** A world where the reader finds one message, and a run that asks for
    the JSON object alone. *)
Definition busy_world : Main.World unit := {|
  Main.get_claude_dir := inl "/home/dev/.claude";
  Main.load_all_messages := fun _ _ => [tt];
  Main.aggregate_stats := fun _ _ => january;
  Main.export_to_html := fun _ _ _ => None;
  Main.export_to_markdown := fun _ _ _ => None;
  Main.now := dec_30
|}.

Definition args_json : Main.Args := {|
  Main.arg_year := "2025";
  Main.no_animate := true;
  Main.json_flag := true;
  Main.html := false;
  Main.markdown := false;
  Main.output_name := None
|}.

(** A world whose week has no message at all, where the Markdown
    exporter stops on its charts, and a run that asks for the JSON object
    and for the Markdown file. *)
Definition zero_week_world : Main.World unit := {|
  Main.get_claude_dir := inl "/home/dev/.claude";
  Main.load_all_messages := fun _ _ => [tt];
  Main.aggregate_stats := fun _ _ => idle;
  Main.export_to_html := fun _ _ _ => None;
  Main.export_to_markdown :=
    fun stats _ _ =>
      match Markdown._build_charts stats with
      | Py.Raise Py.ZeroDivisionError => Some "ZeroDivisionError"
      | _ => None
      end;
  Main.now := dec_30
|}.

Definition args_json_markdown : Main.Args := {|
  Main.arg_year := "2025";
  Main.no_animate := true;
  Main.json_flag := true;
  Main.html := false;
  Main.markdown := true;
  Main.output_name := None
|}.

(** The answers of a user who asks for all time as JSON, under the default
    file name; the question about animations is not shown. *)
Definition json_answers : Interactive.Answers := {|
  Interactive.year_answer := Interactive.Given "All time";
  Interactive.export_answer := Interactive.Given "Export to JSON";
  Interactive.animate_answer := Interactive.Cancelled;
  Interactive.use_custom := Interactive.Given false;
  Interactive.output_filename := Interactive.Cancelled
|}.

(** The January sample with three months of costs, stored out of order;
    the month of April has no tokens. *)
Definition quarters : WrappedStats := {|
  year := None;
  total_messages := total_messages january;
  total_user_messages := total_user_messages january;
  total_assistant_messages := total_assistant_messages january;
  total_sessions := total_sessions january;
  total_projects := total_projects january;
  total_tokens := total_tokens january;
  total_input_tokens := total_input_tokens january;
  total_output_tokens := total_output_tokens january;
  total_cache_creation_tokens := total_cache_creation_tokens january;
  total_cache_read_tokens := total_cache_read_tokens january;
  active_days := active_days january;
  late_night_days := late_night_days january;
  streak_longest := streak_longest january;
  streak_current := streak_current january;
  streak_longest_start := streak_longest_start january;
  streak_longest_end := streak_longest_end january;
  most_active_hour := most_active_hour january;
  most_active_day := most_active_day january;
  primary_model := primary_model january;
  top_tools := top_tools january;
  top_mcps := top_mcps january;
  top_projects := top_projects january;
  hourly_distribution := hourly_distribution january;
  weekday_distribution := weekday_distribution january;
  estimated_cost := Some 6%Q;
  cost_by_model :=
    [("claude-sonnet-4-5-20250929", 1%Q); ("claude-opus-4-5-20251101", 2%Q);
     ("claude-sonnet-4-5", 3%Q)];
  avg_messages_per_day := avg_messages_per_day january;
  avg_messages_per_week := avg_messages_per_week january;
  avg_messages_per_month := avg_messages_per_month january;
  avg_cost_per_day := avg_cost_per_day january;
  avg_cost_per_week := avg_cost_per_week january;
  avg_cost_per_month := avg_cost_per_month january;
  total_edits := total_edits january;
  total_writes := total_writes january;
  avg_edits_per_day := avg_edits_per_day january;
  avg_edits_per_week := avg_edits_per_week january;
  monthly_costs := [("2025-04", 3%Q); ("2024-12", 1%Q); ("2025-01", 2%Q)];
  monthly_tokens :=
    [("2025-01", [("input", 40); ("output", 10)]);
     ("2024-12", [("input", 4); ("cache_read", 1)])];
  longest_conversation_messages := longest_conversation_messages january;
  longest_conversation_tokens := longest_conversation_tokens january;
  longest_conversation_date := longest_conversation_date january;
  daily_stats := daily_stats january;
  models_used := models_used january;
  first_message_date := first_message_date january;
  last_message_date := last_message_date january
|}.

(** The quarters sample with one month stored under its name. *)
Definition named_month : WrappedStats := {|
  year := year quarters;
  total_messages := total_messages quarters;
  total_user_messages := total_user_messages quarters;
  total_assistant_messages := total_assistant_messages quarters;
  total_sessions := total_sessions quarters;
  total_projects := total_projects quarters;
  total_tokens := total_tokens quarters;
  total_input_tokens := total_input_tokens quarters;
  total_output_tokens := total_output_tokens quarters;
  total_cache_creation_tokens := total_cache_creation_tokens quarters;
  total_cache_read_tokens := total_cache_read_tokens quarters;
  active_days := active_days quarters;
  late_night_days := late_night_days quarters;
  streak_longest := streak_longest quarters;
  streak_current := streak_current quarters;
  streak_longest_start := streak_longest_start quarters;
  streak_longest_end := streak_longest_end quarters;
  most_active_hour := most_active_hour quarters;
  most_active_day := most_active_day quarters;
  primary_model := primary_model quarters;
  top_tools := top_tools quarters;
  top_mcps := top_mcps quarters;
  top_projects := top_projects quarters;
  hourly_distribution := hourly_distribution quarters;
  weekday_distribution := weekday_distribution quarters;
  estimated_cost := estimated_cost quarters;
  cost_by_model := cost_by_model quarters;
  avg_messages_per_day := avg_messages_per_day quarters;
  avg_messages_per_week := avg_messages_per_week quarters;
  avg_messages_per_month := avg_messages_per_month quarters;
  avg_cost_per_day := avg_cost_per_day quarters;
  avg_cost_per_week := avg_cost_per_week quarters;
  avg_cost_per_month := avg_cost_per_month quarters;
  total_edits := total_edits quarters;
  total_writes := total_writes quarters;
  avg_edits_per_day := avg_edits_per_day quarters;
  avg_edits_per_week := avg_edits_per_week quarters;
  monthly_costs := [("2025-01", 2%Q); ("March 2025", 1%Q)];
  monthly_tokens := [("2025-01", [("input", 40)]); ("March 2025", [("input", 4)])];
  longest_conversation_messages := longest_conversation_messages quarters;
  longest_conversation_tokens := longest_conversation_tokens quarters;
  longest_conversation_date := longest_conversation_date quarters;
  daily_stats := daily_stats quarters;
  models_used := models_used quarters;
  first_message_date := first_message_date quarters;
  last_message_date := last_message_date quarters
|}.

(** The statistics of [january] with a weekday histogram cut to its five working days. *)
Definition five_day_week : WrappedStats := {|
  year := year january;
  total_messages := total_messages january;
  total_user_messages := total_user_messages january;
  total_assistant_messages := total_assistant_messages january;
  total_sessions := total_sessions january;
  total_projects := total_projects january;
  total_tokens := total_tokens january;
  total_input_tokens := total_input_tokens january;
  total_output_tokens := total_output_tokens january;
  total_cache_creation_tokens := total_cache_creation_tokens january;
  total_cache_read_tokens := total_cache_read_tokens january;
  active_days := active_days january;
  late_night_days := late_night_days january;
  streak_longest := streak_longest january;
  streak_current := streak_current january;
  streak_longest_start := streak_longest_start january;
  streak_longest_end := streak_longest_end january;
  most_active_hour := most_active_hour january;
  most_active_day := most_active_day january;
  primary_model := primary_model january;
  top_tools := top_tools january;
  top_mcps := top_mcps january;
  top_projects := top_projects january;
  hourly_distribution := hourly_distribution january;
  weekday_distribution := [0; 0; 3; 0; 0];
  estimated_cost := estimated_cost january;
  cost_by_model := cost_by_model january;
  avg_messages_per_day := avg_messages_per_day january;
  avg_messages_per_week := avg_messages_per_week january;
  avg_messages_per_month := avg_messages_per_month january;
  avg_cost_per_day := avg_cost_per_day january;
  avg_cost_per_week := avg_cost_per_week january;
  avg_cost_per_month := avg_cost_per_month january;
  total_edits := total_edits january;
  total_writes := total_writes january;
  avg_edits_per_day := avg_edits_per_day january;
  avg_edits_per_week := avg_edits_per_week january;
  monthly_costs := monthly_costs january;
  monthly_tokens := monthly_tokens january;
  longest_conversation_messages := longest_conversation_messages january;
  longest_conversation_tokens := longest_conversation_tokens january;
  longest_conversation_date := longest_conversation_date january;
  daily_stats := daily_stats january;
  models_used := models_used january;
  first_message_date := first_message_date january;
  last_message_date := last_message_date january
|}.

(** The statistics of [january] with the cost of a model of no known family, under an identifier of 38 characters. *)
Definition long_label : WrappedStats := {|
  year := year january;
  total_messages := total_messages january;
  total_user_messages := total_user_messages january;
  total_assistant_messages := total_assistant_messages january;
  total_sessions := total_sessions january;
  total_projects := total_projects january;
  total_tokens := total_tokens january;
  total_input_tokens := total_input_tokens january;
  total_output_tokens := total_output_tokens january;
  total_cache_creation_tokens := total_cache_creation_tokens january;
  total_cache_read_tokens := total_cache_read_tokens january;
  active_days := active_days january;
  late_night_days := late_night_days january;
  streak_longest := streak_longest january;
  streak_current := streak_current january;
  streak_longest_start := streak_longest_start january;
  streak_longest_end := streak_longest_end january;
  most_active_hour := most_active_hour january;
  most_active_day := most_active_day january;
  primary_model := primary_model january;
  top_tools := top_tools january;
  top_mcps := top_mcps january;
  top_projects := top_projects january;
  hourly_distribution := hourly_distribution january;
  weekday_distribution := weekday_distribution january;
  estimated_cost := estimated_cost january;
  cost_by_model := [("vendor/experimental-model-preview-2025", 1%Q)];
  avg_messages_per_day := avg_messages_per_day january;
  avg_messages_per_week := avg_messages_per_week january;
  avg_messages_per_month := avg_messages_per_month january;
  avg_cost_per_day := avg_cost_per_day january;
  avg_cost_per_week := avg_cost_per_week january;
  avg_cost_per_month := avg_cost_per_month january;
  total_edits := total_edits january;
  total_writes := total_writes january;
  avg_edits_per_day := avg_edits_per_day january;
  avg_edits_per_week := avg_edits_per_week january;
  monthly_costs := monthly_costs january;
  monthly_tokens := monthly_tokens january;
  longest_conversation_messages := longest_conversation_messages january;
  longest_conversation_tokens := longest_conversation_tokens january;
  longest_conversation_date := longest_conversation_date january;
  daily_stats := daily_stats january;
  models_used := models_used january;
  first_message_date := first_message_date january;
  last_message_date := last_message_date january
|}.


End Sample.

(** ** Proof steps *)

(** A list of known length is a list of that many variables. *)
Ltac open_list l :=
  repeat (let x := fresh "x" in destruct l as [| x l]; [discriminate |]);
  try (destruct l; [| discriminate]).

(** The digit that a character stands for, computed. *)
Ltac eval_digit :=
  match goal with
  | |- context [Datetime.digit ?c] =>
      let v := eval vm_compute in (Datetime.digit c) in
      change (Datetime.digit c) with v
  end.

(** The cases of a run of the interactive mode: the answers and the tests
    met on the way, one at a time. *)
Ltac interactive_cases :=
  repeat match goal with
         | |- context [Interactive.ask ?a _ _] =>
             destruct a; cbn [Interactive.ask]
         | |- context [if ?b then _ else _] => destruct b eqn:?; cbn [orb negb]
         end.

(** * Properties *)

(** ** Strings *)

Lemma prefix_trans (a b s : string) :
  String.prefix a b = true -> String.prefix b s = true -> String.prefix a s = true.
Proof.
  revert b s. induction a as [| c a IH]; intros b s Hab Hbs; [destruct s; reflexivity |].
  destruct b as [| d b]; [discriminate Hab |].
  destruct s as [| e s]; [discriminate Hbs |].
  simpl in *.
  destruct (ascii_dec c d) as [-> |]; [| discriminate Hab].
  destruct (ascii_dec d e) as [-> |]; [| discriminate Hbs].
  eauto.
Qed.

(** A string that holds [b] holds every prefix of [b]. *)
Lemma contains_prefix (a b s : string) :
  String.prefix a b = true -> Py.contains b s = true -> Py.contains a s = true.
Proof.
  intros Hab. induction s as [| c s IH]; cbn [Py.contains]; intros H.
  - rewrite orb_false_r in *. eapply prefix_trans; eauto.
  - apply orb_true_iff in H as [H | H].
    + erewrite prefix_trans; eauto.
    + rewrite IH by exact H. apply orb_true_r.
Qed.

Lemma not_contains_prefix (a b s : string) :
  String.prefix a b = true -> Py.contains a s = false -> Py.contains b s = false.
Proof.
  intros Hab Ha. destruct (Py.contains b s) eqn:Hb; [| reflexivity].
  rewrite (contains_prefix a b s Hab Hb) in Ha. discriminate Ha.
Qed.

(** ** Display names of models *)

(** C8, as stated, fails: an identifier of no known family is returned
    unchanged, outside the closed set of labels. *)
Lemma C8_unknown_model_kept :
  Ui.simplify_model_name "gpt-4" = "gpt-4" /\
  ~ In (Ui.simplify_model_name "gpt-4") Spec.labels.
Proof.
  split; [reflexivity |].
  vm_compute. intros H.
  repeat (destruct H as [H | H]; [discriminate H |]). exact H.
Qed.

(** C8, amended: [simplify_model_name] returns a label of the family whose
    name the identifier holds (in any case; Opus before Sonnet before Haiku),
    one of the seven labels, or else, for an identifier that holds none of
    the three family names, the identifier itself, unchanged. *)
Theorem C8_simplify_model_name_label_or_input (model : string) :
  let lowered := Py.lower model in
  let result := Ui.simplify_model_name model in
  (Py.contains "opus" lowered = true /\
   In result ["Opus 4.5"; "Opus 4.1"; "Opus"]) \/
  (Py.contains "opus" lowered = false /\ Py.contains "sonnet" lowered = true /\
   In result ["Sonnet 4.5"; "Sonnet"]) \/
  (Py.contains "opus" lowered = false /\ Py.contains "sonnet" lowered = false /\
   Py.contains "haiku" lowered = true /\ In result ["Haiku 4.5"; "Haiku"]) \/
  (Py.contains "opus" lowered = false /\ Py.contains "sonnet" lowered = false /\
   Py.contains "haiku" lowered = false /\ result = model).
Proof.
  intros lowered result. subst result. unfold Ui.simplify_model_name.
  fold lowered.
  destruct (Py.contains "opus" lowered) eqn:Ho.
  { left. split; [reflexivity |].
    destruct (_ || _); [simpl; auto |].
    destruct (_ || _); simpl; auto. }
  rewrite (not_contains_prefix "opus" "opus-4-5" lowered eq_refl Ho).
  rewrite (not_contains_prefix "opus" "opus-4.5" lowered eq_refl Ho).
  rewrite (not_contains_prefix "opus" "opus-4-1" lowered eq_refl Ho).
  rewrite (not_contains_prefix "opus" "opus-4.1" lowered eq_refl Ho).
  cbn [orb]. right.
  destruct (Py.contains "sonnet" lowered) eqn:Hs.
  { left. do 2 (split; [reflexivity |]).
    destruct (_ || _); simpl; auto. }
  rewrite (not_contains_prefix "sonnet" "sonnet-4-5" lowered eq_refl Hs).
  rewrite (not_contains_prefix "sonnet" "sonnet-4.5" lowered eq_refl Hs).
  cbn [orb]. right.
  destruct (Py.contains "haiku" lowered) eqn:Hh.
  { left. do 3 (split; [reflexivity |]).
    destruct (_ || _); simpl; auto. }
  rewrite (not_contains_prefix "haiku" "haiku-4-5" lowered eq_refl Hh).
  rewrite (not_contains_prefix "haiku" "haiku-4.5" lowered eq_refl Hh).
  cbn [orb]. right. auto.
Qed.

(** ** The peak hour *)

(** C9: for an hour of the day [h], the terminal credits, the Markdown
    credits and the HTML credits show the same 12-hour label: the hour is
    [h mod 12], written 12 when that is 0, with AM exactly when [h < 12];
    midnight reads 12:00 AM and noon 12:00 PM. *)
Theorem C9_peak_hour_same_label (stats : WrappedStats) (h : Z) :
  most_active_hour stats = Some h ->
  0 <= h <= 23 ->
  Ui.peak_hour stats = Some (Spec.peak_hour_label h) /\
  Markdown.peak_hour stats = Some (Spec.peak_hour_label h) /\
  Html.peak_hour stats = Some (Spec.peak_hour_label h) /\
  1 <= Spec.hour_12 h <= 12 /\
  Spec.hour_12 h mod 12 = h mod 12 /\
  (h = 0 -> Spec.peak_hour_label h = "12:00 AM") /\
  (h = 12 -> Spec.peak_hour_label h = "12:00 PM").
Proof.
  intros Hh Hrange.
  unfold Ui.peak_hour, Markdown.peak_hour, Html.peak_hour. rewrite Hh.
  repeat split; try (intros ->; reflexivity);
    unfold Spec.hour_12; destruct (Z.eqb_spec (h mod 12) 0) as [E | E];
    try lia; try (rewrite E; reflexivity);
    try (pose proof (Z.mod_pos_bound h 12 ltac:(lia)); lia).
  rewrite Z.mod_mod by lia. reflexivity.
Qed.

(** Midnight, the peak hour of the January sample, reads 12:00 AM in the
    three credits. *)
Lemma C9_peak_hour_midnight :
  most_active_hour Sample.january = Some 0 /\
  Ui.peak_hour Sample.january = Some "12:00 AM" /\
  Markdown.peak_hour Sample.january = Some "12:00 AM" /\
  Html.peak_hour Sample.january = Some "12:00 AM".
Proof.
  split; [reflexivity |].
  destruct (C9_peak_hour_same_label Sample.january 0 eq_refl ltac:(lia))
    as (Hui & Hmd & Hhtml & _).
  repeat split; assumption.
Defined.

(** ** The personality *)

Lemma sum_from (l : list Z) (a : Z) : fold_left Z.add l a = a + Py.sum l.
Proof.
  unfold Py.sum. revert a. induction l as [| x l IH]; intros a; cbn [fold_left]; [lia |].
  rewrite (IH (a + x)), (IH (0 + x)). lia.
Qed.

Lemma sum_cons (x : Z) (l : list Z) : Py.sum (x :: l) = x + Py.sum l.
Proof. unfold Py.sum at 1. simpl. apply sum_from. Qed.

Lemma gt_spec (a b : Q) : Py.gt a b = true <-> (b < a)%Q.
Proof.
  unfold Py.gt. rewrite negb_true_iff, <- not_true_iff_false, Qle_bool_iff.
  split; [apply Qnot_le_lt | apply Qlt_not_le].
Qed.

Lemma gt_exceeds (count base : Z) (factor : Q) :
  Py.gt (inject_Z count) (inject_Z base * factor)%Q = Spec.exceeds count factor base.
Proof.
  unfold Spec.exceeds.
  destruct (inject_Z count ?= factor * inject_Z base)%Q eqn:Hcmp.
  - apply not_true_is_false. intros Hgt. apply gt_spec in Hgt.
    rewrite Qmult_comm in Hgt. apply Qeq_alt in Hcmp. rewrite Hcmp in Hgt.
    exact (Qlt_irrefl _ Hgt).
  - apply not_true_is_false. intros Hgt. apply gt_spec in Hgt.
    rewrite Qmult_comm in Hgt. apply Qlt_alt in Hcmp.
    exact (Qlt_irrefl _ (Qlt_trans _ _ _ Hgt Hcmp)).
  - apply gt_spec. rewrite Qmult_comm. apply Qgt_alt. exact Hcmp.
Qed.

(** C6, as stated, fails: [determine_personality] is not total. On
    statistics whose weekday histogram has the five working days only, it
    raises [IndexError] where the weekend is read. *)
Lemma C6_five_working_days_raise :
  length (weekday_distribution Sample.five_day_week) = 5%nat /\
  Ui.determine_personality Sample.five_day_week = Py.Raise Py.IndexError.
Proof. split; reflexivity. Qed.

(** C6, amended: on statistics whose histograms have their 24 and 7
    counters, each below 2^40 in absolute value, [determine_personality]
    returns a personality; its title is the one of the first rule that
    holds, in the fixed order of the rules over the fields of the
    statistics, and Dedicated Dev when none does. A night count (hours
    22-23 and 0-5) above 0.4 times the count of the other hours gives Night
    Owl whatever the other fields are. The products by 0.4 and 0.5 are the
    exact ones; on counts of this size the doubles of the code compare in
    the same way. *)
Theorem C6_determine_personality_first_match (stats : WrappedStats) :
  distributions_sized stats ->
  forallb (fun count => Z.abs count <? 2 ^ 40)
    (hourly_distribution stats ++ weekday_distribution stats) = true ->
  exists p,
    Ui.determine_personality stats = Py.Ok p /\
    Ui.title p = Spec.first_match Spec.rules "Dedicated Dev" stats /\
    (Spec.exceeds (Spec.night_count stats) 0.4 (Spec.day_count stats) = true ->
     Ui.title p = "Night Owl") /\
    Spec.night_count stats + Spec.day_count stats = Py.sum (hourly_distribution stats).
Proof.
  intros [Hh Hw] _.
  assert (Hget : Py.getitem (weekday_distribution stats) 5
                 = Py.Ok (Spec.weekday stats 5) /\
                 Py.getitem (weekday_distribution stats) 6
                 = Py.Ok (Spec.weekday stats 6) /\
                 Ui.weekday_msgs stats = Spec.working_days_msgs stats).
  { unfold Spec.working_days_msgs, Spec.weekday, Ui.weekday_msgs, Py.slice.
    destruct (weekday_distribution stats) as [| ? l]; [discriminate |].
    open_list l. cbn [drop take nth Nat.sub]. repeat split.
    all: rewrite ?sum_cons; unfold Py.sum; simpl; lia. }
  destruct Hget as (Hsat & Hsun & Hwork).
  assert (Hhours : Ui.night_hours stats = Spec.night_count stats /\
                   Ui.day_hours stats = Spec.day_count stats /\
                   Spec.night_count stats + Spec.day_count stats
                   = Py.sum (hourly_distribution stats)).
  { unfold Ui.night_hours, Ui.day_hours, Spec.night_count, Spec.day_count, Spec.hour,
      Py.slice, Py.slice_from.
    destruct (hourly_distribution stats) as [| ? l]; [discriminate |].
    open_list l. cbn [drop take nth Nat.sub]. rewrite !sum_cons. unfold Py.sum. simpl.
    repeat split; lia. }
  destruct Hhours as (Hnight & Hday & Hsum).
  assert (Htool : forall name,
            Ui.is_tool (Ui.top_tool stats) name = Spec.top_tool_is stats name).
  { intros name. unfold Ui.is_tool, Ui.top_tool, Spec.top_tool_is.
    destruct (top_tools stats) as [| [tool count] rest]; reflexivity. }
  assert (Hmodel : forall family,
            Ui.models_used_get stats family = Spec.messages_of stats family).
  { intros family. unfold Ui.models_used_get, Spec.messages_of.
    destruct (models_used stats !! family); reflexivity. }
  unfold Ui.determine_personality. rewrite Hsat, Hsun. cbn [Py.bind].
  rewrite Hnight, Hday, Hwork, (Htool "Edit"), (Htool "Bash"), (Hmodel "Opus"),
    (Hmodel "Sonnet"), !gt_exceeds, !Z.geb_leb, Z.gtb_ltb.
  fold (Spec.weekend_msgs stats).
  unfold Spec.rules. cbn [Spec.first_match].
  destruct (Spec.exceeds (Spec.night_count stats) 0.4 (Spec.day_count stats)).
  { eexists. split; [reflexivity | split; [reflexivity | split; [reflexivity | exact Hsum]]]. }
  repeat match goal with
         | |- context [if ?b then _ else _] =>
             destruct b;
             [eexists; split; [reflexivity | split; [reflexivity | split; [discriminate | exact Hsum]]] |]
         end.
  eexists; split; [reflexivity | split; [reflexivity | split; [discriminate | exact Hsum]]].
Qed.

(** The January sample, whose only messages are at midnight. *)
Lemma C6_january_is_a_night_owl :
  distributions_sized Sample.january /\
  exists p,
    Ui.determine_personality Sample.january = Py.Ok p /\
    Ui.title p = "Night Owl".
Proof.
  assert (H : distributions_sized Sample.january) by (split; reflexivity).
  split; [exact H |].
  destruct (C6_determine_personality_first_match Sample.january H eq_refl)
    as (p & Hp & _ & Hnight & _).
  exists p. split; [exact Hp | apply Hnight; reflexivity].
Defined.

(** ** The contribution graph *)







Lemma new_year (y m d : Z) (t : datetime) :
  Datetime.new y m d = Py.Ok t -> Datetime.year t = y.
Proof.
  unfold Datetime.new. destruct (negb _); [discriminate |].
  destruct (_ && _); [| discriminate].
  intros [= <-]. reflexivity.
Qed.





(** ** The activity charts *)

(** A loop whose body never raises on the elements it meets ends well. *)
Lemma for_each_ok {A S : Type} (body : S -> A -> Py.result S) (l : list A) (s : S) :
  (forall s' x, In x l -> exists s'', body s' x = Py.Ok s'') ->
  exists r, Py.for_each body l s = Py.Ok r.
Proof.
  revert s. induction l as [| x l IH]; intros s Hbody; cbn [Py.for_each].
  - eauto.
  - destruct (Hbody s x (or_introl eq_refl)) as [s'' ->].
    apply IH. intros s' y Hy. apply Hbody. right. exact Hy.
Qed.




(** The weekday chart of the Markdown exporter divides every count by the
    largest one: on a week of zeros the first division is by zero. *)
Lemma fold_max_zeros (l : list Z) : Forall (fun x => x = 0) l -> fold_left Z.max l 0 = 0.
Proof. induction 1 as [| x l -> _ IH]; [reflexivity | exact IH]. Qed.

Lemma weekday_chart_zeros (weekday_distribution : list Z) :
  weekday_distribution <> [] ->
  Forall (fun x => x = 0) weekday_distribution ->
  Markdown.weekday_chart weekday_distribution = Py.Raise Py.ZeroDivisionError.
Proof.
  intros Hne Hz. destruct Hz as [| x l -> Hl]; [contradiction |].
  unfold Markdown.weekday_chart. cbn [Py.max_or].
  rewrite (fold_max_zeros l Hl). reflexivity.
Qed.

(** C4 fails on the code: on statistics whose histograms have their 24 and
    7 counters, all of them zero, the weekday chart of the terminal is
    built, and building the charts of the Markdown exporter raises
    [ZeroDivisionError]. *)
Theorem C4_markdown_charts_divide_by_zero :
  distributions_sized Sample.idle /\
  Forall (fun x => x = 0) (weekday_distribution Sample.idle) /\
  Forall (fun x => x = 0) (hourly_distribution Sample.idle) /\
  Py.raises (Ui.create_weekday_chart (weekday_distribution Sample.idle) 80) = false /\
  Markdown._build_charts Sample.idle = Py.Raise Py.ZeroDivisionError.
Proof.
  split; [split; reflexivity |].
  split; [repeat constructor |].
  split; [repeat constructor |].
  split; reflexivity.
Qed.

(** ** The title sections and the clock *)














(** ** A period without activity *)

(** C7: when the year argument is valid, a year within the limit of
    [int] on the length of a text or [all], the Claude directory exists
    and the reader returns no message for the period, [main] prints
    [No Claude Code activity found for] and the label of the period, then
    the advice to try another year, and exits with status 0;
    [aggregate_stats] is not called and nothing is exported, printed as
    JSON or rendered. *)
Theorem C7_no_activity_exits (Message : Type) (w : Main.World Message)
    (args : Main.Args) (year_filter : option Z) (year_display year_label claude_dir : string) :
  (String.length (Main.arg_year args) <= Main.int_max_str_digits)%nat ->
  Main.parse_year (Main.arg_year args) = Some (year_filter, year_display, year_label) ->
  Main.get_claude_dir w = inl claude_dir ->
  Main.load_all_messages w claude_dir year_filter = [] ->
  Main.run (Main.main w args)
    = ((if Main.json_flag args then []
        else [Main.ConsolePrint
                (Py.nl ++ "[dim]Loading your Claude Code history for " ++ year_label
                   ++ "...[/dim]" ++ Py.nl)])
       ++ [Main.LoadAllMessages year_filter;
           Main.ConsolePrint
             ("[yellow]No Claude Code activity found for " ++ year_label
                ++ ".[/yellow]");
           Main.ConsolePrint
             (Py.nl ++ "Try a different year or make sure you've used Claude Code.");
           Main.SysExit 0])%list /\
  snd (Main.main w args []) = None /\
  In (Main.ConsolePrint
        ("[yellow]No Claude Code activity found for " ++ year_label ++ ".[/yellow]"))
    (Main.run (Main.main w args)) /\
  existsb Main.reports (Main.run (Main.main w args)) = false.
Proof.
  intros _ Hyear Hdir Hload.
  unfold Main.run, Main.main. rewrite Hyear, Hdir, Hload.
  destruct (Main.json_flag args); cbn; repeat split; auto.
Qed.

(** The year 2025 in a world where the reader finds nothing. *)
Lemma C7_silent_world_2025 :
  Main.run (Main.main Sample.silent_world Sample.args_2025)
    = [Main.ConsolePrint
         (Py.nl ++ "[dim]Loading your Claude Code history for 2025...[/dim]" ++ Py.nl);
       Main.LoadAllMessages (Some 2025);
       Main.ConsolePrint "[yellow]No Claude Code activity found for 2025.[/yellow]";
       Main.ConsolePrint
         (Py.nl ++ "Try a different year or make sure you've used Claude Code.");
       Main.SysExit 0] /\
  existsb Main.reports (Main.run (Main.main Sample.silent_world Sample.args_2025)) = false.
Proof.
  assert (Hlimit : (String.length (Main.arg_year Sample.args_2025)
                    <= Main.int_max_str_digits)%nat).
  { vm_compute. lia. }
  destruct (C7_no_activity_exits unit Sample.silent_world Sample.args_2025
              (Some 2025) "2025" "2025" "/home/dev/.claude" Hlimit eq_refl eq_refl eq_refl)
    as (Htrace & _ & _ & Hnone).
  split; [exact Htrace | exact Hnone].
Defined.

(** ** Costs by model *)

Lemma dict_get_set_eq {V : Type} (d : Py.dict V) (k : string) (v : V) :
  Py.dict_get (Py.dict_set d k v) k = Some v.
Proof.
  induction d as [| [k' v'] d IH]; cbn [Py.dict_set Py.dict_get].
  - rewrite String.eqb_refl. reflexivity.
  - destruct (String.eqb k' k) eqn:E; cbn [Py.dict_get]; rewrite E; auto.
Qed.

Lemma dict_get_set_ne {V : Type} (d : Py.dict V) (k k' : string) (v : V) :
  String.eqb k k' = false ->
  Py.dict_get (Py.dict_set d k v) k' = Py.dict_get d k'.
Proof.
  intros Hne. induction d as [| [k0 v0] d IH]; cbn [Py.dict_set Py.dict_get].
  - rewrite Hne. reflexivity.
  - destruct (String.eqb k0 k) eqn:E; cbn [Py.dict_get].
    + apply String.eqb_eq in E. subst k0. rewrite Hne. reflexivity.
    + rewrite IH. reflexivity.
Qed.

Lemma grouping_loop (label : string) (items : list (string * Q)) (d : Py.dict Q) :
  Py.dict_get
    (fold_left
       (fun display_costs (model_cost : string * Q) =>
          let '(model, cost) := model_cost in
          let display_name := Ui.simplify_model_name model in
          Py.dict_set display_costs display_name
            (Py.dict_get_or display_costs display_name 0 + cost)%Q)
       items d) label
  = Spec.grouped (Py.dict_get d label)
      (map snd
         (List.filter
            (fun model_cost => String.eqb (Ui.simplify_model_name (fst model_cost)) label)
            items)).
Proof.
  revert d. induction items as [| [model cost] items IH]; intros d; [reflexivity |].
  cbn [fold_left List.filter fst]. rewrite IH.
  destruct (String.eqb (Ui.simplify_model_name model) label) eqn:E.
  - apply String.eqb_eq in E. subst label. rewrite dict_get_set_eq.
    unfold Py.dict_get_or. cbn [map snd].
    destruct (map snd _); destruct (Py.dict_get d _); reflexivity.
  - rewrite dict_get_set_ne by exact E. reflexivity.
Qed.



(** The lines of the numbers frame, when the frame is built: the cost
    lines, each with its label padded to 27 columns after the margin. *)
Lemma map_each_inv {A B : Type} (f : A -> Py.result B) (g : A -> B) (l : list A)
    (ys : list B) :
  (forall x y, In x l -> f x = Py.Ok y -> y = g x) ->
  Py.map_each f l = Py.Ok ys -> ys = map g l.
Proof.
  revert ys. induction l as [| x l IH]; intros ys Hf; cbn [Py.map_each map].
  - intros [= <-]. reflexivity.
  - destruct (f x) as [y | e] eqn:Hx; [| discriminate].
    destruct (Py.map_each f l) as [ys' | e]; [| discriminate].
    intros [= <-]. f_equal.
    + apply Hf; [left; reflexivity | exact Hx].
    + apply IH; [| reflexivity]. intros z y' Hz. apply Hf. right. exact Hz.
Qed.

Lemma numbers_cost_lines_built (stats : WrappedStats) (console_width : Z)
    (lines : list (string * cell)) :
  Ui.numbers_cost_lines stats console_width = Py.Ok lines ->
  lines
  = map (fun line : string * Q =>
           (Ui.pad console_width ++ fst line
              ++ Py.repeat " " (27 - Py.len (fst line)), Cost (snd line)))
      (Ui.cost_lines stats).
Proof.
  unfold Ui.numbers_cost_lines. apply map_each_inv.
  intros [model cost] y _. unfold Py.blanks.
  destruct (27 - Py.len model <? 0); [discriminate |].
  cbn [Py.bind fst snd]. intros [= <-]. reflexivity.
Qed.



(** ** The JSON object *)

(** C2, as stated, fails: the object has no member for the cache-write
    total nor for the cache-read total; no key of it names a cache. And
    the lists are emitted as they are stored: five counters of the
    weekdays give a list of five elements. *)
Lemma C2_no_cache_totals :
  total_cache_creation_tokens Sample.january = 777 /\
  total_cache_read_tokens Sample.january = 888 /\
  Main.has_int_member 777 (Main.output Sample.january) = false /\
  Main.has_int_member 888 (Main.output Sample.january) = false /\
  existsb (Py.contains "cache") (Main.keys (Main.output Sample.january)) = false /\
  Spec.list_length (Main.output Sample.five_day_week) "weekday_distribution" = Some 5%nat.
Proof. repeat split; vm_compute; reflexivity. Qed.

(** C2, amended: for every statistics value the JSON object has the 39
    members of the literal of [main], among them every field of the
    contract but the cache totals: the token totals are [total_tokens],
    [total_input_tokens] and [total_output_tokens] only;
    [hourly_distribution] and [weekday_distribution] are the stored lists,
    in order and with the lengths they are stored with, so they have 24
    and 7 elements exactly when the statistics do. *)
Theorem C2_json_members (stats : WrappedStats) :
  Main.keys (Main.output stats) = Spec.json_keys /\
  forallb (Spec.has_key (Main.output stats)) Spec.contract_keys = true /\
  existsb (Py.contains "cache") (Main.keys (Main.output stats)) = false /\
  Main.member "total_tokens" (Main.output stats) = Some (Main.JInt (total_tokens stats)) /\
  Main.member "total_input_tokens" (Main.output stats)
    = Some (Main.JInt (total_input_tokens stats)) /\
  Main.member "total_output_tokens" (Main.output stats)
    = Some (Main.JInt (total_output_tokens stats)) /\
  Main.member "hourly_distribution" (Main.output stats)
    = Some (Main.JList (map Main.JInt (hourly_distribution stats))) /\
  Main.member "weekday_distribution" (Main.output stats)
    = Some (Main.JList (map Main.JInt (weekday_distribution stats))) /\
  Spec.list_length (Main.output stats) "hourly_distribution"
    = Some (length (hourly_distribution stats)) /\
  Spec.list_length (Main.output stats) "weekday_distribution"
    = Some (length (weekday_distribution stats)) /\
  (Spec.list_length (Main.output stats) "hourly_distribution" = Some 24%nat /\
   Spec.list_length (Main.output stats) "weekday_distribution" = Some 7%nat
   <-> distributions_sized stats).
Proof.
  assert (Hh : Spec.list_length (Main.output stats) "hourly_distribution"
               = Some (length (hourly_distribution stats))).
  { unfold Spec.list_length.
    change (Main.member "hourly_distribution" (Main.output stats))
      with (Some (Main.JList (map Main.JInt (hourly_distribution stats)))).
    cbv beta iota. rewrite length_map. reflexivity. }
  assert (Hw : Spec.list_length (Main.output stats) "weekday_distribution"
               = Some (length (weekday_distribution stats))).
  { unfold Spec.list_length.
    change (Main.member "weekday_distribution" (Main.output stats))
      with (Some (Main.JList (map Main.JInt (weekday_distribution stats)))).
    cbv beta iota. rewrite length_map. reflexivity. }
  do 8 (split; [reflexivity |]).
  split; [exact Hh |]. split; [exact Hw |].
  rewrite Hh, Hw. unfold distributions_sized.
  split; intros [H24 H7]; split; congruence.
Qed.

(** The object of the January sample. *)
Lemma C2_january_members :
  Main.keys (Main.output Sample.january) = Spec.json_keys /\
  Spec.list_length (Main.output Sample.january) "hourly_distribution" = Some 24%nat /\
  Spec.list_length (Main.output Sample.january) "weekday_distribution" = Some 7%nat.
Proof.
  destruct (C2_json_members Sample.january)
    as (Hk & _ & _ & _ & _ & _ & _ & _ & _ & _ & Hsized).
  split; [exact Hk |]. apply Hsized. split; reflexivity.
Defined.

(** ** The monthly cost table *)

Lemma insert_sorted_not_nil {A : Type} (le : A -> A -> bool) (x : A) (l : list A) :
  Py.insert_sorted le x l <> [].
Proof. destruct l as [| y l]; cbn [Py.insert_sorted]; [| destruct (le y x)]; discriminate. Qed.

Lemma sorted_not_nil {A : Type} (le : A -> A -> bool) (l : list A) :
  l <> [] -> Py.sorted le l <> [].
Proof.
  unfold Py.sorted. intros Hl.
  assert (H : forall acc, l <> [] \/ acc <> [] ->
                          fold_left (fun acc x => Py.insert_sorted le x acc) l acc <> []).
  { clear Hl. induction l as [| x l IH]; intros acc Hne; cbn [fold_left].
    - destruct Hne as [Hne | Hne]; [contradiction | exact Hne].
    - apply IH. right. apply insert_sorted_not_nil. }
  apply H. left. exact Hl.
Qed.

(** One turn of the loop of the Markdown exporter over the months, on a
    month that can be written: the running totals grow by the figures of
    the month. *)
Lemma markdown_month_step (stats : WrappedStats) (acc : Markdown.totals) (k : string) :
  Spec.month_writable stats k = true ->
  exists acc',
    Markdown.month_step stats acc k = Py.Ok acc' /\
    Markdown.total_input acc'
      = Markdown.total_input acc + Spec.month_tokens stats ["input"] k /\
    Markdown.total_output acc'
      = Markdown.total_output acc + Spec.month_tokens stats ["output"] k /\
    Markdown.total_cache acc'
      = Markdown.total_cache acc
        + Spec.month_tokens stats ["cache_create"; "cache_read"] k /\
    Markdown.total_cost acc' = (Markdown.total_cost acc + Spec.month_cost stats k)%Q.
Proof.
  unfold Spec.month_writable, Markdown.month_step, Spec.month_tokens, Spec.month_cost.
  destruct (Py.dict_get (monthly_tokens stats) k) as [tokens |].
  - destruct (Datetime.strptime_Y_m k) as [month_date |]; [intros _ | discriminate].
    cbn [Py.bind]. eexists. split; [reflexivity |].
    cbn [Markdown.total_input Markdown.total_output Markdown.total_cache
           Markdown.total_cost map].
    rewrite !sum_cons. unfold Py.sum. cbn [fold_left]. repeat split; lia.
  - intros _. eexists. split; [reflexivity |].
    cbn [Markdown.total_input Markdown.total_output Markdown.total_cache
           Markdown.total_cost].
    repeat split; lia.
Qed.

Lemma html_month_step (stats : WrappedStats) (acc : Html.totals) (k : string) :
  Spec.month_writable stats k = true ->
  exists acc',
    Html.month_step stats acc k = Py.Ok acc' /\
    Html.total_input acc' = Html.total_input acc + Spec.month_tokens stats ["input"] k /\
    Html.total_output acc' = Html.total_output acc + Spec.month_tokens stats ["output"] k /\
    Html.total_cache acc'
      = Html.total_cache acc + Spec.month_tokens stats ["cache_create"; "cache_read"] k /\
    Html.total_cost acc' = (Html.total_cost acc + Spec.month_cost stats k)%Q.
Proof.
  unfold Spec.month_writable, Html.month_step, Spec.month_tokens, Spec.month_cost.
  destruct (Py.dict_get (monthly_tokens stats) k) as [tokens |].
  - destruct (Datetime.strptime_Y_m k) as [month_date |]; [intros _ | discriminate].
    cbn [Py.bind]. eexists. split; [reflexivity |].
    cbn [Html.total_input Html.total_output Html.total_cache Html.total_cost map].
    rewrite !sum_cons. unfold Py.sum. cbn [fold_left]. repeat split; lia.
  - intros _. eexists. split; [reflexivity |].
    cbn [Html.total_input Html.total_output Html.total_cache Html.total_cost].
    repeat split; lia.
Qed.

(** The whole loop: it ends well when every month can be written, and its
    running totals are the sums over the months. *)
Lemma markdown_month_loop (stats : WrappedStats) (keys : list string) (acc : Markdown.totals) :
  forallb (Spec.month_writable stats) keys = true ->
  exists acc',
    Py.for_each (Markdown.month_step stats) keys acc = Py.Ok acc' /\
    Markdown.total_input acc'
      = Markdown.total_input acc + Py.sum (map (Spec.month_tokens stats ["input"]) keys) /\
    Markdown.total_output acc'
      = Markdown.total_output acc + Py.sum (map (Spec.month_tokens stats ["output"]) keys) /\
    Markdown.total_cache acc'
      = Markdown.total_cache acc
        + Py.sum (map (Spec.month_tokens stats ["cache_create"; "cache_read"]) keys) /\
    Markdown.total_cost acc'
      = fold_left Qplus (map (Spec.month_cost stats) keys) (Markdown.total_cost acc).
Proof.
  revert acc. induction keys as [| k keys IH]; intros acc Hall.
  - exists acc. cbn. repeat split; lia.
  - cbn [forallb] in Hall. apply andb_true_iff in Hall as [Hk Hrest].
    destruct (markdown_month_step stats acc k Hk) as (acc1 & Hstep & Hi & Ho & Hc & Hq).
    destruct (IH acc1 Hrest) as (acc2 & Hloop & Hi2 & Ho2 & Hc2 & Hq2).
    exists acc2. cbn [Py.for_each map fold_left]. rewrite Hstep, Hloop, !sum_cons.
    rewrite Hi2, Ho2, Hc2, Hq2, Hi, Ho, Hc, Hq. repeat split; lia.
Qed.

Lemma html_month_loop (stats : WrappedStats) (keys : list string) (acc : Html.totals) :
  forallb (Spec.month_writable stats) keys = true ->
  exists acc',
    Py.for_each (Html.month_step stats) keys acc = Py.Ok acc' /\
    Html.total_input acc'
      = Html.total_input acc + Py.sum (map (Spec.month_tokens stats ["input"]) keys) /\
    Html.total_output acc'
      = Html.total_output acc + Py.sum (map (Spec.month_tokens stats ["output"]) keys) /\
    Html.total_cache acc'
      = Html.total_cache acc
        + Py.sum (map (Spec.month_tokens stats ["cache_create"; "cache_read"]) keys) /\
    Html.total_cost acc'
      = fold_left Qplus (map (Spec.month_cost stats) keys) (Html.total_cost acc).
Proof.
  revert acc. induction keys as [| k keys IH]; intros acc Hall.
  - exists acc. cbn. repeat split; lia.
  - cbn [forallb] in Hall. apply andb_true_iff in Hall as [Hk Hrest].
    destruct (html_month_step stats acc k Hk) as (acc1 & Hstep & Hi & Ho & Hc & Hq).
    destruct (IH acc1 Hrest) as (acc2 & Hloop & Hi2 & Ho2 & Hc2 & Hq2).
    exists acc2. cbn [Py.for_each map fold_left]. rewrite Hstep, Hloop, !sum_cons.
    rewrite Hi2, Ho2, Hc2, Hq2, Hi, Ho, Hc, Hq. repeat split; lia.
Qed.

(** C3, as stated, fails: the Total row of the Markdown and HTML exporters
    is summed over the monthly buckets. On statistics whose only month holds
    40 input tokens, 10 output tokens, 3 cache tokens and a cost of 1, while
    the aggregate holds 100, 50, 1665 and 2.5, the exporters show the
    former and the terminal the latter. *)
Lemma C3_exporters_sum_the_months :
  Markdown._build_monthly_costs Sample.january
    = Py.Ok [Markdown.header_row;
             [Plain "Jan 2025"; Tokens 40; Tokens 10; Tokens 3; Cost 1];
             [Plain "Total"; Tokens 40; Tokens 10; Tokens 3; Cost 1]] /\
  Html._build_monthly_costs Sample.january
    = Py.Ok [Html.header_row;
             [Plain "Jan 2025"; Tokens 40; Tokens 10; Tokens 3; Cost 1];
             [Plain "Total"; Tokens 40; Tokens 10; Tokens 3; Cost 1]] /\
  Spec.stored_total_row Sample.january
    = [Plain "Total"; Tokens 100; Tokens 50; Tokens 1665; Cost 2.5] /\
  List.last (Ui.create_monthly_cost_table Sample.january) []
    = Spec.stored_total_row Sample.january.
Proof. repeat split; vm_compute; reflexivity. Qed.

(** C3, amended: when there is a monthly cost and every month can be
    written, the Total row of the terminal table is read from the aggregate
    (the stored input, output and cache totals, and [estimated_cost], shown
    as N/A when it is absent or zero), and the Total row of the Markdown
    and HTML tables is summed over the monthly buckets: the costs of the
    months of [monthly_costs], the tokens of those of them that
    [monthly_tokens] has. *)
Theorem C3_total_rows (stats : WrappedStats) :
  monthly_costs stats <> [] ->
  forallb (Spec.month_writable stats) (Spec.months stats) = true ->
  List.last (Ui.create_monthly_cost_table stats) [] = Ui.total_row stats /\
  firstn 4 (Ui.total_row stats) = firstn 4 (Spec.stored_total_row stats) /\
  (Ui.truthy (estimated_cost stats) = true ->
   Ui.total_row stats = Spec.stored_total_row stats) /\
  (exists rows,
     Markdown._build_monthly_costs stats = Py.Ok (rows ++ [Spec.summed_total_row stats])%list) /\
  (exists rows,
     Html._build_monthly_costs stats = Py.Ok (rows ++ [Spec.summed_total_row stats])%list) /\
  (Ui.truthy (estimated_cost stats) = false ->
   List.last (Ui.total_row stats) (Plain EmptyString) = Plain "N/A").
Proof.
  intros Hne Hall.
  assert (Hkeys : Py.sorted String.leb (Py.dict_keys (monthly_costs stats)) <> []).
  { apply sorted_not_nil. unfold Py.dict_keys.
    destruct (monthly_costs stats); [contradiction | discriminate]. }
  assert (Hna : Ui.truthy (estimated_cost stats) = false ->
                List.last (Ui.total_row stats) (Plain EmptyString) = Plain "N/A").
  { unfold Ui.total_row. cbn [List.last].
    destruct (estimated_cost stats) as [c |]; [| reflexivity].
    intros ->. reflexivity. }
  split; [| split; [reflexivity | split]].
  - unfold Ui.create_monthly_cost_table.
    destruct (Py.sorted String.leb (Py.dict_keys (monthly_costs stats))) as [| m ms];
      [contradiction |].
    change [Ui.separator_row; Ui.total_row stats]
      with ([Ui.separator_row] ++ [Ui.total_row stats])%list.
    rewrite app_assoc. apply last_last.
  - unfold Ui.total_row, Spec.stored_total_row.
    destruct (estimated_cost stats) as [c |]; [| discriminate].
    intros ->. reflexivity.
  - split; [| split; [| exact Hna]].
    + unfold Markdown._build_monthly_costs.
      destruct (monthly_costs stats) as [| kv rest] eqn:Hcosts; [contradiction |].
      rewrite <- Hcosts.
      destruct (markdown_month_loop stats (Spec.months stats)
                  {| Markdown.rows := [Markdown.header_row]; Markdown.total_cost := 0;
                     Markdown.total_input := 0; Markdown.total_output := 0;
                     Markdown.total_cache := 0 |} Hall)
        as (acc & Hloop & Hi & Ho & Hc & Hq).
      unfold Spec.months in Hloop. rewrite Hloop. cbn [Py.bind].
      exists (Markdown.rows acc). unfold Markdown.total_row, Spec.summed_total_row.
      rewrite Hi, Ho, Hc, Hq. reflexivity.
    + unfold Html._build_monthly_costs.
      destruct (monthly_costs stats) as [| kv rest] eqn:Hcosts; [contradiction |].
      rewrite <- Hcosts.
      destruct (html_month_loop stats (Spec.months stats)
                  {| Html.rows := [Html.header_row]; Html.total_cost := 0;
                     Html.total_input := 0; Html.total_output := 0;
                     Html.total_cache := 0 |} Hall)
        as (acc & Hloop & Hi & Ho & Hc & Hq).
      unfold Spec.months in Hloop. rewrite Hloop. cbn [Py.bind].
      exists (Html.rows acc). unfold Html.total_row, Spec.summed_total_row.
      rewrite Hi, Ho, Hc, Hq. reflexivity.
Qed.

(** The tables of the January sample. *)
Lemma C3_january_totals :
  monthly_costs Sample.january <> [] /\
  List.last (Ui.create_monthly_cost_table Sample.january) [] = Ui.total_row Sample.january /\
  (exists rows,
     Markdown._build_monthly_costs Sample.january
       = Py.Ok (rows ++ [Spec.summed_total_row Sample.january])%list).
Proof.
  assert (Hne : monthly_costs Sample.january <> []) by discriminate.
  split; [exact Hne |].
  destruct (C3_total_rows Sample.january Hne eq_refl) as (Hui & _ & _ & Hmd & _ & _).
  split; assumption.
Defined.

(** * Further properties *)

(** ** The year argument *)

Lemma digit_of_uint_acc (d : Decimal.uint) (acc : positive) :
  Main.digits (NilEmpty.string_of_uint d) (Zpos acc) true
  = Some (Zpos (Pos.of_uint_acc d acc)).
Proof.
  revert acc. induction d; intros acc; cbn [NilEmpty.string_of_uint Pos.of_uint_acc];
    [reflexivity | ..];
    cbn [Main.digits]; eval_digit; cbv iota; rewrite <- IHd; f_equal; lia.
Qed.

Lemma digits_of_uint (d : Decimal.uint) (after_digit : bool) :
  d <> Decimal.Nil \/ after_digit = true ->
  Main.digits (NilEmpty.string_of_uint d) 0 after_digit = Some (Z.of_N (Pos.of_uint d)).
Proof.
  revert after_digit. induction d; intros b Hb;
    cbn [NilEmpty.string_of_uint Pos.of_uint].
  - destruct Hb as [Hb | ->]; [contradiction | reflexivity].
  - cbn [Main.digits]. eval_digit. cbv iota. apply IHd. right. reflexivity.
  - cbn [Main.digits]. eval_digit. cbv iota. apply (digit_of_uint_acc d 1).
  - cbn [Main.digits]. eval_digit. cbv iota. apply (digit_of_uint_acc d 2).
  - cbn [Main.digits]. eval_digit. cbv iota. apply (digit_of_uint_acc d 3).
  - cbn [Main.digits]. eval_digit. cbv iota. apply (digit_of_uint_acc d 4).
  - cbn [Main.digits]. eval_digit. cbv iota. apply (digit_of_uint_acc d 5).
  - cbn [Main.digits]. eval_digit. cbv iota. apply (digit_of_uint_acc d 6).
  - cbn [Main.digits]. eval_digit. cbv iota. apply (digit_of_uint_acc d 7).
  - cbn [Main.digits]. eval_digit. cbv iota. apply (digit_of_uint_acc d 8).
  - cbn [Main.digits]. eval_digit. cbv iota. apply (digit_of_uint_acc d 9).
Qed.

(** The text of a number has no blank and starts with a digit. *)
Lemma lstrip_of_uint (d : Decimal.uint) :
  Main.lstrip (NilEmpty.string_of_uint d) = NilEmpty.string_of_uint d.
Proof. destruct d; reflexivity. Qed.

Lemma rstrip_of_uint (d : Decimal.uint) :
  Main.rstrip (NilEmpty.string_of_uint d) = NilEmpty.string_of_uint d.
Proof.
  induction d; cbn [NilEmpty.string_of_uint Main.rstrip]; [reflexivity | ..];
    rewrite IHd; destruct (NilEmpty.string_of_uint d); reflexivity.
Qed.

Lemma of_uint_not_sign (d : Decimal.uint) (acc : Z) :
  d <> Decimal.Nil ->
  match NilEmpty.string_of_uint d with
  | String "-"%char s' => option_map Z.opp (Main.digits s' 0 false)
  | String "+"%char s' => Main.digits s' 0 false
  | s' => Main.digits s' 0 false
  end = Main.digits (NilEmpty.string_of_uint d) 0 false.
Proof. destruct d; [contradiction | ..]; reflexivity. Qed.

Lemma to_uint_not_nil (p : positive) : Pos.to_uint p <> Decimal.Nil.
Proof.
  intros H. pose proof (DecimalPos.Unsigned.of_to p) as Hp.
  rewrite H in Hp. discriminate Hp.
Qed.

(** [int(str(n))] is [n]. *)
Lemma int_of_str_str (n : Z) : Main.int_of_str (Py.str n) = Some n.
Proof.
  unfold Main.int_of_str, Py.str. destruct n as [| p | p]; [reflexivity | |].
  - cbn [Z.to_int NilZero.string_of_int]. unfold NilZero.string_of_uint.
    pose proof (to_uint_not_nil p) as Hnil.
    destruct (Pos.to_uint p) eqn:Hp; [contradiction | ..];
      rewrite <- Hp in *; rewrite lstrip_of_uint, rstrip_of_uint;
      rewrite (of_uint_not_sign _ 0 Hnil), digits_of_uint by (left; exact Hnil);
      rewrite DecimalPos.Unsigned.of_to; reflexivity.
  - cbn [Z.to_int NilZero.string_of_int]. unfold NilZero.string_of_uint.
    pose proof (to_uint_not_nil p) as Hnil.
    assert (Hstr : Main.rstrip (Main.lstrip (String "-" (NilEmpty.string_of_uint (Pos.to_uint p))))
                   = String "-" (NilEmpty.string_of_uint (Pos.to_uint p))).
    { cbn [Main.lstrip]. change (Main.is_space "-") with false. cbv iota.
      cbn [Main.rstrip]. rewrite rstrip_of_uint.
      destruct (Pos.to_uint p); [contradiction | ..]; reflexivity. }
    destruct (Pos.to_uint p) eqn:Hp; [contradiction | ..];
      rewrite <- Hp in *; rewrite Hstr;
      rewrite digits_of_uint by (left; exact Hnil);
      rewrite DecimalPos.Unsigned.of_to; reflexivity.
Qed.

Lemma lower_str_not_all (n : Z) : String.eqb (Py.lower (Py.str n)) "all" = false.
Proof.
  unfold Py.str. destruct n as [| p | p]; [reflexivity | | reflexivity].
  cbn [Z.to_int NilZero.string_of_int]. unfold NilZero.string_of_uint.
  pose proof (to_uint_not_nil p) as Hnil.
  destruct (Pos.to_uint p); [contradiction | ..]; reflexivity.
Qed.

(** X1: the text of an integer is read back as that year: [main] accepts
    [str(y)] for every integer [y] whose text is within the limit of [int],
    at most 4300 characters, with [y] as the filter and its text as the
    display name and the label. *)
Theorem X1_parse_year_of_str (y : Z) :
  (String.length (Py.str y) <= Main.int_max_str_digits)%nat ->
  Main.parse_year (Py.str y) = Some (Some y, Py.str y, Py.str y).
Proof.
  intros _. unfold Main.parse_year. rewrite lower_str_not_all, int_of_str_str. reflexivity.
Qed.

(** The year 2025, and a year before the common era. *)
Lemma X1_year_2025 :
  Main.parse_year "2025" = Some (Some 2025, "2025", "2025") /\
  Main.parse_year "-44" = Some (Some (-44), "-44", "-44").
Proof.
  split.
  - apply (X1_parse_year_of_str 2025). vm_compute. lia.
  - apply (X1_parse_year_of_str (-44)). vm_compute. lia.
Defined.

(** ** The runs of [main] *)

Lemma in_app_one {A : Type} (x y : A) (l : list A) :
  In x (l ++ [y])%list <-> In x l \/ x = y.
Proof. rewrite in_app_iff. cbn. intuition congruence. Qed.

(** X2: once the arguments are read, from the command line or from the
    answers of the interactive mode, a year argument within the limit of
    [int] is given: when [main] then calls [sys.exit], the exit is the last
    event of the run and nothing was aggregated, exported, printed as JSON
    or rendered before it; the status is 1 exactly for an invalid year or
    a missing Claude directory, and 0 exactly for a period without
    messages. The exits of the interactive prompts and of the parsing of
    the command line come before this run and are not among these. *)
Theorem X2_main_exit_status (Message : Type) (w : Main.World Message)
    (args : Main.Args) (code : Z) :
  (String.length (Main.arg_year args) <= Main.int_max_str_digits)%nat ->
  In (Main.SysExit code) (Main.run (Main.main w args)) ->
  List.last (Main.run (Main.main w args)) (Main.SysExit code) = Main.SysExit code /\
  existsb Main.reports (Main.run (Main.main w args)) = false /\
  ((code = 1 /\
    (Main.parse_year (Main.arg_year args) = None \/
     (Main.parse_year (Main.arg_year args) <> None /\
      exists e, Main.get_claude_dir w = inr e))) \/
   (code = 0 /\
    exists year_filter year_display year_label claude_dir,
      Main.parse_year (Main.arg_year args) = Some (year_filter, year_display, year_label) /\
      Main.get_claude_dir w = inl claude_dir /\
      Main.load_all_messages w claude_dir year_filter = [])).
Proof.
  intros _. unfold Main.run, Main.main.
  destruct (Main.parse_year (Main.arg_year args)) as [[[yf yd] yl] |] eqn:Hyear.
  - destruct (Main.get_claude_dir w) as [dir | e] eqn:Hdir.
    + destruct (Main.load_all_messages w dir yf) as [| m ms] eqn:Hload.
      * destruct (Main.json_flag args); cbn; intros Hin;
          (assert (code = 0) as -> by intuition congruence);
          (split; [reflexivity |]); (split; [reflexivity |]);
          right; (split; [reflexivity |]); exists yf, yd, yl, dir; auto.
      * destruct (Main.json_flag args), (Main.html args), (Main.markdown args);
          cbn [Main.when negb Main.seq Main.emit Main.ret];
          repeat match goal with
                 | |- context [Main.returns ?o] => destruct o; cbn [Main.returns Main.ret]
                 end;
          cbn; intros Hin; exfalso; intuition discriminate.
    + cbn. intros Hin.
      assert (code = 1) as -> by intuition congruence.
      split; [reflexivity |]. split; [reflexivity |].
      left. split; [reflexivity |]. right. split; [discriminate | eauto].
  - cbn. intros Hin.
    assert (code = 1) as -> by intuition congruence.
    split; [reflexivity |]. split; [reflexivity |].
    left. split; [reflexivity |]. left. reflexivity.
Qed.

(** The year 2025 in the silent world: an exit with status 0. *)
Lemma X2_silent_world_exit :
  In (Main.SysExit 0) (Main.run (Main.main Sample.silent_world Sample.args_2025)) /\
  existsb Main.reports (Main.run (Main.main Sample.silent_world Sample.args_2025)) = false.
Proof.
  assert (H : In (Main.SysExit 0)
                (Main.run (Main.main Sample.silent_world Sample.args_2025))).
  { vm_compute. tauto. }
  split; [exact H |].
  assert (Hlimit : (String.length (Main.arg_year Sample.args_2025)
                    <= Main.int_max_str_digits)%nat).
  { vm_compute. lia. }
  destruct (X2_main_exit_status unit Sample.silent_world Sample.args_2025 0 Hlimit H)
    as (_ & Hnone & _).
  exact Hnone.
Defined.

(** X3: in JSON mode, on a period with messages and with a year argument
    within the limit of [int], when each export that is asked for returns,
    the run ends with the JSON object of the aggregated statistics and
    renders nothing; the console gets a line exactly when an export is
    asked for too, so the output is the JSON object alone only without
    [--html] and [--markdown]. When an export that is asked for raises,
    the run ends with that exception and prints no JSON object. *)
Theorem X3_json_mode_output (Message : Type) (w : Main.World Message) (args : Main.Args)
    (year_filter : option Z) (year_display year_label claude_dir : string) :
  let stats :=
    Main.aggregate_stats w (Main.load_all_messages w claude_dir year_filter) year_filter in
  let html_outcome :=
    if Main.html args
    then Main.export_to_html w stats year_filter
           (Main.file_name args year_display (Main.now w) ++ ".html")
    else None in
  let markdown_outcome :=
    if Main.markdown args
    then Main.export_to_markdown w stats year_filter
           (Main.file_name args year_display (Main.now w) ++ ".md")
    else None in
  (String.length (Main.arg_year args) <= Main.int_max_str_digits)%nat ->
  Main.parse_year (Main.arg_year args) = Some (year_filter, year_display, year_label) ->
  Main.get_claude_dir w = inl claude_dir ->
  Main.load_all_messages w claude_dir year_filter <> [] ->
  Main.json_flag args = true ->
  (html_outcome = None -> markdown_outcome = None ->
   List.last (Main.run (Main.main w args)) (Main.SysExit 1)
     = Main.PrintJson (Main.output stats) /\
   existsb (fun e => match e with Main.RenderWrapped _ _ => true | _ => false end)
     (Main.run (Main.main w args)) = false /\
   existsb (fun e => match e with Main.ConsolePrint _ => true | _ => false end)
     (Main.run (Main.main w args)) = Main.html args || Main.markdown args) /\
  (forall exception,
     html_outcome = Some exception \/
     (html_outcome = None /\ markdown_outcome = Some exception) ->
     List.last (Main.run (Main.main w args)) (Main.SysExit 1) = Main.Uncaught exception /\
     existsb (fun e => match e with Main.PrintJson _ => true | _ => false end)
       (Main.run (Main.main w args)) = false).
Proof.
  intros stats html_outcome markdown_outcome _ Hyear Hdir Hload Hjson.
  subst stats html_outcome markdown_outcome.
  unfold Main.run, Main.main. rewrite Hyear, Hdir, Hjson.
  destruct (Main.load_all_messages w claude_dir year_filter) as [| m ms];
    [contradiction |].
  destruct (Main.html args), (Main.markdown args);
    cbn [Main.when negb Main.seq Main.emit Main.ret];
    repeat match goal with
           | |- context [Main.returns ?o] => destruct o; cbn [Main.returns Main.ret]
           end;
    cbn; (split; [intros Hhtml Hmd; try discriminate; repeat split; reflexivity |]);
    intros exception [H | [H1 H2]]; try discriminate;
    first [injection H as <- | injection H2 as <-]; split; reflexivity.
Qed.

(** A year with one message, asked for as JSON: nothing on the console.
    A week of zeros, asked for as JSON and as Markdown: the run ends in
    the exporter and prints no JSON object. *)
Lemma X3_one_message_as_json :
  existsb (fun e => match e with Main.ConsolePrint _ => true | _ => false end)
    (Main.run (Main.main Sample.busy_world Sample.args_json)) = false /\
  List.last (Main.run (Main.main Sample.zero_week_world Sample.args_json_markdown))
    (Main.SysExit 1) = Main.Uncaught "ZeroDivisionError" /\
  existsb (fun e => match e with Main.PrintJson _ => true | _ => false end)
    (Main.run (Main.main Sample.zero_week_world Sample.args_json_markdown)) = false.
Proof.
  assert (Hlimit : (String.length (Main.arg_year Sample.args_json)
                    <= Main.int_max_str_digits)%nat).
  { vm_compute. lia. }
  split.
  - destruct (X3_json_mode_output unit Sample.busy_world Sample.args_json
                (Some 2025) "2025" "2025" "/home/dev/.claude" Hlimit eq_refl eq_refl
                ltac:(discriminate) eq_refl) as (Hreturn & _).
    destruct (Hreturn eq_refl eq_refl) as (_ & _ & Hconsole).
    exact Hconsole.
  - destruct (X3_json_mode_output unit Sample.zero_week_world Sample.args_json_markdown
                (Some 2025) "2025" "2025" "/home/dev/.claude" Hlimit eq_refl eq_refl
                ltac:(discriminate) eq_refl) as (_ & Hraise).
    apply (Hraise "ZeroDivisionError"). right. split; reflexivity.
Defined.

(** ** The rankings of the JSON object *)

Lemma dict_get_none_set {V : Type} (d : Py.dict V) (k : string) (v : V) :
  Py.dict_get d k = None -> Py.dict_set d k v = (d ++ [(k, v)])%list.
Proof.
  induction d as [| [k' v'] d IH]; cbn [Py.dict_get Py.dict_set app]; [reflexivity |].
  destruct (String.eqb k' k); [discriminate |]. intros H. rewrite IH by exact H. reflexivity.
Qed.

Lemma dict_get_none_iff {V : Type} (d : Py.dict V) (k : string) :
  Py.dict_get d k = None <-> ~ In k (map fst d).
Proof.
  induction d as [| [k' v'] d IH]; cbn [Py.dict_get map fst In]; [tauto |].
  destruct (String.eqb_spec k' k) as [-> | Hne].
  - split; [discriminate | tauto].
  - rewrite IH. tauto.
Qed.

(** [dict(pairs)] keeps the pairs, in order, when their keys are distinct. *)
Lemma dict_of_pairs_from {V : Type} (l : list (string * V)) (d : Py.dict V) :
  List.NoDup (map fst l) ->
  (forall k, In k (map fst l) -> ~ In k (map fst d)) ->
  fold_left (fun d kv => Py.dict_set d (fst kv) (snd kv)) l d = (d ++ l)%list.
Proof.
  revert d. induction l as [| [k v] l IH]; intros d Hnd Hdis; cbn [fold_left fst snd].
  - rewrite app_nil_r. reflexivity.
  - cbn [map fst] in Hnd, Hdis. apply List.NoDup_cons_iff in Hnd as [Hk Hl].
    rewrite dict_get_none_set by (apply dict_get_none_iff, Hdis; left; reflexivity).
    rewrite IH; [rewrite <- app_assoc; reflexivity | exact Hl |].
    intros k' Hk'. rewrite map_app, in_app_iff. cbn [map fst In].
    intros [Hd | [Heq | []]].
    + apply (Hdis k'); [right |]; assumption.
    + subst k'. exact (Hk Hk').
Qed.

Lemma dict_of_pairs_distinct {V : Type} (l : list (string * V)) :
  List.NoDup (map fst l) -> Py.dict_of_pairs l = l.
Proof.
  intros Hnd. unfold Py.dict_of_pairs. rewrite dict_of_pairs_from; auto.
Qed.

(** X4: when the labels of a ranking are distinct, its member of the JSON
    object lists every entry of the ranking with its count, in the order of
    the ranking. *)
Theorem X4_json_rankings_in_order (stats : WrappedStats) :
  List.NoDup (map fst (top_tools stats)) ->
  List.NoDup (map fst (top_mcps stats)) ->
  List.NoDup (map fst (top_projects stats)) ->
  Main.member "top_tools" (Main.output stats)
    = Some (Main.JObj (map (fun kv => (fst kv, Main.JInt (snd kv))) (top_tools stats))) /\
  Main.member "top_mcps" (Main.output stats)
    = Some (Main.JObj (map (fun kv => (fst kv, Main.JInt (snd kv))) (top_mcps stats))) /\
  Main.member "top_projects" (Main.output stats)
    = Some (Main.JObj (map (fun kv => (fst kv, Main.JInt (snd kv))) (top_projects stats))).
Proof.
  intros Ht Hm Hp.
  change (Main.member "top_tools" (Main.output stats))
    with (Some (Main.obj Main.JInt (Py.dict_of_pairs (top_tools stats)))).
  change (Main.member "top_mcps" (Main.output stats))
    with (Some (Main.obj Main.JInt (Py.dict_of_pairs (top_mcps stats)))).
  change (Main.member "top_projects" (Main.output stats))
    with (Some (Main.obj Main.JInt (Py.dict_of_pairs (top_projects stats)))).
  rewrite !dict_of_pairs_distinct by assumption. repeat split; reflexivity.
Qed.

(** The rankings of the January sample. *)
Lemma X4_january_rankings :
  Main.member "top_tools" (Main.output Sample.january)
    = Some (Main.JObj [("Read", Main.JInt 2)]) /\
  Main.member "top_projects" (Main.output Sample.january)
    = Some (Main.JObj [("wrapped", Main.JInt 3)]).
Proof.
  destruct (X4_json_rankings_in_order Sample.january) as (Ht & _ & Hp).
  - repeat constructor. intros [].
  - constructor.
  - repeat constructor. intros [].
  - split; assumption.
Defined.

(** ** The interactive mode *)

(** What the selections say of the answers, when the mode returns. *)
Lemma interactive_mode_some (now : datetime) (answers : Interactive.Answers)
    (t : list Interactive.event) (sel : Interactive.Selections) :
  Interactive.interactive_mode now answers = (t, Some sel) ->
  exists year_answer export_answer,
    Interactive.year_answer answers = Interactive.Given year_answer /\
    Interactive.export_answer answers = Interactive.Given export_answer /\
    Interactive.year sel
      = (if String.eqb year_answer "All time" then "all" else year_answer) /\
    Interactive.html sel = Py.contains "HTML" export_answer /\
    Interactive.markdown sel = Py.contains "Markdown" export_answer /\
    Interactive.json sel = Py.contains "JSON" export_answer /\
    (String.eqb export_answer "View in terminal only"
       || Py.contains "HTML" export_answer || Py.contains "Markdown" export_answer = false ->
     Interactive.no_animate sel = true /\
     ~ In (Interactive.Confirm "Show animations?") t) /\
    (Py.contains "HTML" export_answer || Py.contains "Markdown" export_answer
       || Py.contains "JSON" export_answer = false ->
     Interactive.output sel = None /\
     ~ In (Interactive.Confirm "Use custom filename?") t /\
     ~ In (Interactive.Text "Enter filename (without extension):") t) /\
    (forall code, ~ In (Interactive.Exit code) t).
Proof.
  unfold Interactive.interactive_mode.
  destruct (Interactive.year_answer answers) as [ya | |]; cbn [Interactive.ask];
    [| discriminate | discriminate].
  destruct (Interactive.export_answer answers) as [ea | |]; cbn [Interactive.ask];
    [| discriminate | discriminate].
  intros H. exists ya, ea. do 2 (split; [reflexivity |]).
  revert H.
  destruct (String.eqb ea "View in terminal only") eqn:Hterm;
    destruct (Py.contains "HTML" ea) eqn:Hhtml;
    destruct (Py.contains "Markdown" ea) eqn:Hmd;
    destruct (Py.contains "JSON" ea) eqn:Hjson;
    cbn [orb];
    destruct (Interactive.animate_answer answers) as [aa | |]; cbn [Interactive.ask];
    try discriminate;
    destruct (Interactive.use_custom answers) as [[|] | |]; cbn [Interactive.ask];
    try discriminate;
    destruct (Interactive.output_filename answers) as [name | |]; cbn [Interactive.ask];
    try discriminate;
    intros [= <- <-]; cbn;
    repeat split; try discriminate; intuition discriminate.
Qed.

Lemma str_not_all_time (n : Z) : String.eqb (Py.str n) "All time" = false.
Proof.
  unfold Py.str. destruct n as [| p | p]; [reflexivity | | reflexivity].
  cbn [Z.to_int NilZero.string_of_int]. unfold NilZero.string_of_uint.
  pose proof (to_uint_not_nil p) as Hnil.
  destruct (Pos.to_uint p); [contradiction | ..]; reflexivity.
Qed.

(** X5: every period of the menu of the interactive mode is a year argument
    that [main] accepts: All time selects no filter, and each of the three
    years is read back as the year it shows, the current one or one of the
    two before. *)
Theorem X5_interactive_period_is_valid (now : datetime) (answers : Interactive.Answers)
    (t : list Interactive.event) (sel : Interactive.Selections) (choice : string) :
  Interactive.year_answer answers = Interactive.Given choice ->
  In choice (Interactive.get_available_years now) ->
  Interactive.interactive_mode now answers = (t, Some sel) ->
  (choice = "All time" /\
   Main.parse_year (Main.arg_year (Interactive.to_args sel))
     = Some (None, "all-time", "All time")) \/
  (exists y,
     Datetime.year now - 2 <= y <= Datetime.year now /\
     choice = Py.str y /\
     Main.parse_year (Main.arg_year (Interactive.to_args sel))
       = Some (Some y, Py.str y, Py.str y)).
Proof.
  intros Hanswer Hin Hrun.
  destruct (interactive_mode_some now answers t sel Hrun)
    as (ya & ea & Hya & _ & Hyear & _).
  rewrite Hanswer in Hya. injection Hya as <-.
  cbn [Interactive.to_args Main.arg_year]. rewrite Hyear.
  unfold Interactive.get_available_years in Hin. cbn [map rev app In] in Hin.
  assert (Hstr : forall y, Datetime.year now - 2 <= y <= Datetime.year now ->
                           Py.str y = choice ->
                           exists y,
                             Datetime.year now - 2 <= y <= Datetime.year now /\
                             choice = Py.str y /\
                             Main.parse_year
                               (if String.eqb choice "All time" then "all" else choice)
                             = Some (Some y, Py.str y, Py.str y)).
  { intros y Hy <-. exists y. split; [exact Hy |]. split; [reflexivity |].
    rewrite str_not_all_time. unfold Main.parse_year.
    rewrite lower_str_not_all, int_of_str_str. reflexivity. }
  destruct Hin as [H | [H | [H | [H | []]]]].
  - right. apply (Hstr (Datetime.year now)); [lia | exact H].
  - right. apply (Hstr (Datetime.year now - 1)); [lia | exact H].
  - right. apply (Hstr (Datetime.year now - 2)); [lia | exact H].
  - left. subst choice. split; reflexivity.
Qed.

(** All time, chosen on 30 December 2025. *)
Lemma X5_all_time_on_dec_30 :
  ("All time" = "All time" /\
   Main.parse_year
     (Main.arg_year
        (Interactive.to_args
           {| Interactive.year := "all"; Interactive.html := false;
              Interactive.markdown := false; Interactive.json := true;
              Interactive.no_animate := true; Interactive.output := None |}))
   = Some (None, "all-time", "All time")) \/
  (exists y,
     Datetime.year Sample.dec_30 - 2 <= y <= Datetime.year Sample.dec_30 /\
     "All time" = Py.str y /\
     Main.parse_year
       (Main.arg_year
          (Interactive.to_args
             {| Interactive.year := "all"; Interactive.html := false;
                Interactive.markdown := false; Interactive.json := true;
                Interactive.no_animate := true; Interactive.output := None |}))
     = Some (Some y, Py.str y, Py.str y)).
Proof.
  refine (X5_interactive_period_is_valid Sample.dec_30 Sample.json_answers _ _
            "All time" eq_refl _ eq_refl).
  vm_compute. tauto.
Defined.

(** X6: the export flags of the interactive mode follow the format chosen
    in the menu: HTML and Markdown for their own entries and for the entry
    of both, JSON for its entry only; JSON is never selected together with
    another export, and it comes without animations and without the
    question about them; the terminal-only entry comes without a file name
    and without the question about it. *)
Theorem X6_interactive_export_flags (now : datetime) (answers : Interactive.Answers)
    (t : list Interactive.event) (sel : Interactive.Selections) (choice : string) :
  Interactive.export_answer answers = Interactive.Given choice ->
  In choice Interactive.export_choices ->
  Interactive.interactive_mode now answers = (t, Some sel) ->
  Interactive.html sel
    = (String.eqb choice "Export to HTML"
       || String.eqb choice "Export to both HTML & Markdown") /\
  Interactive.markdown sel
    = (String.eqb choice "Export to Markdown"
       || String.eqb choice "Export to both HTML & Markdown") /\
  Interactive.json sel = String.eqb choice "Export to JSON" /\
  Interactive.json sel && (Interactive.html sel || Interactive.markdown sel) = false /\
  (Interactive.json sel = true ->
   Interactive.no_animate sel = true /\
   ~ In (Interactive.Confirm "Show animations?") t) /\
  (choice = "View in terminal only" ->
   Interactive.output sel = None /\
   ~ In (Interactive.Confirm "Use custom filename?") t).
Proof.
  intros Hanswer Hin Hrun.
  destruct (interactive_mode_some now answers t sel Hrun)
    as (ya & ea & _ & Hea & _ & Hhtml & Hmd & Hjson & Hanim & Hname & _).
  rewrite Hanswer in Hea. injection Hea as <-.
  rewrite Hhtml, Hmd, Hjson.
  cbn [Interactive.export_choices In] in Hin.
  destruct Hin as [<- | [<- | [<- | [<- | [<- | []]]]]];
    (split; [reflexivity |]); (split; [reflexivity |]); (split; [reflexivity |]);
    (split; [reflexivity |]); split; intros H; try discriminate H.
  - destruct (Hname eq_refl) as (Hout & Hask & _). split; assumption.
  - apply (Hanim eq_refl).
Qed.

(** The JSON format, chosen on 30 December 2025. *)
Lemma X6_json_format :
  Interactive.interactive_mode Sample.dec_30 Sample.json_answers
    = (fst (Interactive.interactive_mode Sample.dec_30 Sample.json_answers),
       Some {| Interactive.year := "all"; Interactive.html := false;
               Interactive.markdown := false; Interactive.json := true;
               Interactive.no_animate := true; Interactive.output := None |}) /\
  ~ In (Interactive.Confirm "Show animations?")
      (fst (Interactive.interactive_mode Sample.dec_30 Sample.json_answers)).
Proof.
  split; [reflexivity |].
  destruct (X6_interactive_export_flags Sample.dec_30 Sample.json_answers _ _
              "Export to JSON" eq_refl ltac:(vm_compute; tauto) eq_refl)
    as (_ & _ & _ & _ & Hjson & _).
  apply (Hjson eq_refl).
Defined.

(** X7: a run of the interactive mode ends in one of two ways. Either it
    returns the selections, and then it has not exited; or a prompt was left
    or interrupted, and then it returns nothing, its last two events are the
    Cancelled message and the exit, and the status is 0. *)
Theorem X7_interactive_mode_ending (now : datetime) (answers : Interactive.Answers) :
  match Interactive.interactive_mode now answers with
  | (t, Some _) => forall code, ~ In (Interactive.Exit code) t
  | (t, None) =>
      exists before message,
        t = (before ++ [Interactive.Print message; Interactive.Exit 0])%list /\
        Py.contains "[yellow]Cancelled.[/yellow]" message = true /\
        forall code, ~ In (Interactive.Exit code) before
  end.
Proof.
  unfold Interactive.interactive_mode.
  destruct (Interactive.year_answer answers) as [ya | |]; cbn [Interactive.ask];
    [| eexists; eexists; split; [reflexivity | split; [reflexivity |]];
       cbn; intros code H; intuition discriminate ..].
  destruct (Interactive.export_answer answers) as [ea | |]; cbn [Interactive.ask];
    [| eexists; eexists; split; [reflexivity | split; [reflexivity |]];
       cbn; intros code H; intuition discriminate ..].
  destruct (String.eqb ea "View in terminal only");
    destruct (Py.contains "HTML" ea);
    destruct (Py.contains "Markdown" ea);
    destruct (Py.contains "JSON" ea);
    cbn [orb];
    repeat match goal with
           | |- context [Interactive.ask ?a _ _] =>
               destruct a as [[|] | |] || destruct a; cbn [Interactive.ask]
           end;
    first
      [ cbn; intros code H; intuition discriminate
      | eexists; eexists; split; [reflexivity | split; [reflexivity |]];
        cbn; intros code H; intuition discriminate ].
Qed.

(** ** Sorted listings *)

Lemma insert_sorted_perm {A : Type} (le : A -> A -> bool) (x : A) (l : list A) :
  Permutation (Py.insert_sorted le x l) (x :: l).
Proof.
  induction l as [| y l IH]; cbn [Py.insert_sorted]; [reflexivity |].
  destruct (le y x); [| reflexivity].
  rewrite IH. apply perm_swap.
Qed.

Lemma sorted_perm {A : Type} (le : A -> A -> bool) (l : list A) :
  Permutation (Py.sorted le l) l.
Proof.
  unfold Py.sorted.
  assert (H : forall acc,
             Permutation (fold_left (fun acc x => Py.insert_sorted le x acc) l acc)
               (acc ++ l)%list).
  { induction l as [| x l IH]; intros acc; cbn [fold_left].
    - rewrite app_nil_r. reflexivity.
    - rewrite IH, insert_sorted_perm. cbn [app]. apply Permutation_middle. }
  apply (H []).
Qed.

Lemma insert_sorted_sorted {A : Type} (le : A -> A -> bool) (x : A) (l : list A) :
  (forall a b, le a b = true \/ le b a = true) ->
  Sorted (fun a b => le a b = true) l ->
  Sorted (fun a b => le a b = true) (Py.insert_sorted le x l).
Proof.
  intros Htotal. induction 1 as [| y l Hl IH Hhd]; cbn [Py.insert_sorted].
  - repeat constructor.
  - destruct (le y x) eqn:Hyx.
    + constructor; [exact IH |].
      destruct l as [| z l]; cbn [Py.insert_sorted].
      * constructor. exact Hyx.
      * destruct (le z x); constructor; [inversion Hhd; assumption | exact Hyx].
    + constructor; [constructor; assumption |].
      constructor. destruct (Htotal x y) as [H | H]; [exact H | congruence].
Qed.

Lemma sorted_sorted {A : Type} (le : A -> A -> bool) (l : list A) :
  (forall a b, le a b = true \/ le b a = true) ->
  Sorted (fun a b => le a b = true) (Py.sorted le l).
Proof.
  intros Htotal. unfold Py.sorted.
  assert (H : forall acc,
             Sorted (fun a b => le a b = true) acc ->
             Sorted (fun a b => le a b = true)
               (fold_left (fun acc x => Py.insert_sorted le x acc) l acc)).
  { induction l as [| x l IH]; intros acc Hacc; cbn [fold_left]; [exact Hacc |].
    apply IH, insert_sorted_sorted; assumption. }
  apply H. constructor.
Qed.

(** ** The month rows *)

Lemma markdown_month_step_rows (stats : WrappedStats) (acc : Markdown.totals) (k : string) :
  Spec.month_writable stats k = true ->
  exists acc',
    Markdown.month_step stats acc k = Py.Ok acc' /\
    Markdown.rows acc'
      = (Markdown.rows acc
         ++ match Py.dict_get (monthly_tokens stats) k with
            | Some _ => [Ui.month_row stats k]
            | None => []
            end)%list.
Proof.
  unfold Spec.month_writable, Markdown.month_step, Ui.month_row, Ui.month_name.
  unfold Py.dict_get_or.
  destruct (Py.dict_get (monthly_tokens stats) k) as [tokens |].
  - destruct (Datetime.strptime_Y_m k) as [month_date |]; [intros _ | discriminate].
    cbn [Py.bind]. eexists. split; reflexivity.
  - intros _. eexists. split; [reflexivity |]. cbn [Markdown.rows].
    rewrite app_nil_r. reflexivity.
Qed.

Lemma markdown_month_rows (stats : WrappedStats) (keys : list string) (acc : Markdown.totals) :
  forallb (Spec.month_writable stats) keys = true ->
  exists acc',
    Py.for_each (Markdown.month_step stats) keys acc = Py.Ok acc' /\
    Markdown.rows acc'
      = (Markdown.rows acc
         ++ map (Ui.month_row stats)
              (List.filter
                 (fun k => match Py.dict_get (monthly_tokens stats) k with
                           | Some _ => true
                           | None => false
                           end) keys))%list.
Proof.
  revert acc. induction keys as [| k keys IH]; intros acc Hall.
  - exists acc. cbn. rewrite app_nil_r. auto.
  - cbn [forallb] in Hall. apply andb_true_iff in Hall as [Hk Hrest].
    destruct (markdown_month_step_rows stats acc k Hk) as (acc1 & Hstep & Hrows1).
    destruct (IH acc1 Hrest) as (acc2 & Hloop & Hrows2).
    exists acc2. cbn [Py.for_each List.filter]. rewrite Hstep, Hloop, Hrows2, Hrows1.
    split; [reflexivity |]. rewrite <- app_assoc.
    destruct (Py.dict_get (monthly_tokens stats) k); reflexivity.
Qed.

Lemma html_month_step_rows (stats : WrappedStats) (acc : Html.totals) (k : string) :
  Spec.month_writable stats k = true ->
  exists acc',
    Html.month_step stats acc k = Py.Ok acc' /\
    Html.rows acc'
      = (Html.rows acc
         ++ match Py.dict_get (monthly_tokens stats) k with
            | Some _ => [Ui.month_row stats k]
            | None => []
            end)%list.
Proof.
  unfold Spec.month_writable, Html.month_step, Ui.month_row, Ui.month_name.
  unfold Py.dict_get_or.
  destruct (Py.dict_get (monthly_tokens stats) k) as [tokens |].
  - destruct (Datetime.strptime_Y_m k) as [month_date |]; [intros _ | discriminate].
    cbn [Py.bind]. eexists. split; reflexivity.
  - intros _. eexists. split; [reflexivity |]. cbn [Html.rows].
    rewrite app_nil_r. reflexivity.
Qed.

Lemma html_month_rows (stats : WrappedStats) (keys : list string) (acc : Html.totals) :
  forallb (Spec.month_writable stats) keys = true ->
  exists acc',
    Py.for_each (Html.month_step stats) keys acc = Py.Ok acc' /\
    Html.rows acc'
      = (Html.rows acc
         ++ map (Ui.month_row stats)
              (List.filter
                 (fun k => match Py.dict_get (monthly_tokens stats) k with
                           | Some _ => true
                           | None => false
                           end) keys))%list.
Proof.
  revert acc. induction keys as [| k keys IH]; intros acc Hall.
  - exists acc. cbn. rewrite app_nil_r. auto.
  - cbn [forallb] in Hall. apply andb_true_iff in Hall as [Hk Hrest].
    destruct (html_month_step_rows stats acc k Hk) as (acc1 & Hstep & Hrows1).
    destruct (IH acc1 Hrest) as (acc2 & Hloop & Hrows2).
    exists acc2. cbn [Py.for_each List.filter]. rewrite Hstep, Hloop, Hrows2, Hrows1.
    split; [reflexivity |]. rewrite <- app_assoc.
    destruct (Py.dict_get (monthly_tokens stats) k); reflexivity.
Qed.

(** X8: the three monthly cost tables list the months in ascending order
    of their keys, each month of [monthly_costs] once. The terminal table
    has one row per month; when every month can be written, the Markdown
    and HTML tables have, between the header and the Total row, the rows of
    the terminal table for the months that [monthly_tokens] has. *)
Theorem X8_month_rows_sorted (stats : WrappedStats) :
  monthly_costs stats <> [] ->
  forallb (Spec.month_writable stats) (Spec.months stats) = true ->
  Sorted (fun a b => String.leb a b = true) (Spec.months stats) /\
  Permutation (Spec.months stats) (Py.dict_keys (monthly_costs stats)) /\
  Ui.create_monthly_cost_table stats
    = (map (Ui.month_row stats) (Spec.months stats)
       ++ [Ui.separator_row; Ui.total_row stats])%list /\
  (Markdown._build_monthly_costs stats
     = Py.Ok (Markdown.header_row
                  :: map (Ui.month_row stats)
                       (List.filter
                          (fun k => match Py.dict_get (monthly_tokens stats) k with
                                    | Some _ => true
                                    | None => false
                                    end) (Spec.months stats))
                  ++ [Spec.summed_total_row stats])%list) /\
  (Html._build_monthly_costs stats
     = Py.Ok (Html.header_row
                  :: map (Ui.month_row stats)
                       (List.filter
                          (fun k => match Py.dict_get (monthly_tokens stats) k with
                                    | Some _ => true
                                    | None => false
                                    end) (Spec.months stats))
                  ++ [Spec.summed_total_row stats])%list).
Proof.
  intros Hne Hall.
  split; [apply sorted_sorted, String.leb_total |].
  split; [apply sorted_perm |].
  split.
  - unfold Ui.create_monthly_cost_table. fold (Spec.months stats).
    assert (Hm : Spec.months stats <> []).
    { apply sorted_not_nil. unfold Py.dict_keys.
      destruct (monthly_costs stats); [contradiction | discriminate]. }
    destruct (Spec.months stats); [contradiction | reflexivity].
  - split.
    + unfold Markdown._build_monthly_costs.
      destruct (monthly_costs stats) as [| kv rest] eqn:Hcosts; [contradiction |].
      rewrite <- Hcosts. fold (Spec.months stats).
      destruct (markdown_month_rows stats (Spec.months stats)
                  {| Markdown.rows := [Markdown.header_row]; Markdown.total_cost := 0;
                     Markdown.total_input := 0; Markdown.total_output := 0;
                     Markdown.total_cache := 0 |} Hall) as (acc & Hloop & Hrows).
      destruct (markdown_month_loop stats (Spec.months stats)
                  {| Markdown.rows := [Markdown.header_row]; Markdown.total_cost := 0;
                     Markdown.total_input := 0; Markdown.total_output := 0;
                     Markdown.total_cache := 0 |} Hall)
        as (acc' & Hloop' & Hi & Ho & Hc & Hq).
      rewrite Hloop in Hloop'. injection Hloop' as <-.
      rewrite Hloop. cbn [Py.bind]. rewrite Hrows. cbn [Markdown.rows app].
      unfold Markdown.total_row, Spec.summed_total_row.
      rewrite Hi, Ho, Hc, Hq. reflexivity.
    + unfold Html._build_monthly_costs.
      destruct (monthly_costs stats) as [| kv rest] eqn:Hcosts; [contradiction |].
      rewrite <- Hcosts. fold (Spec.months stats).
      destruct (html_month_rows stats (Spec.months stats)
                  {| Html.rows := [Html.header_row]; Html.total_cost := 0;
                     Html.total_input := 0; Html.total_output := 0;
                     Html.total_cache := 0 |} Hall) as (acc & Hloop & Hrows).
      destruct (html_month_loop stats (Spec.months stats)
                  {| Html.rows := [Html.header_row]; Html.total_cost := 0;
                     Html.total_input := 0; Html.total_output := 0;
                     Html.total_cache := 0 |} Hall)
        as (acc' & Hloop' & Hi & Ho & Hc & Hq).
      rewrite Hloop in Hloop'. injection Hloop' as <-.
      rewrite Hloop. cbn [Py.bind]. rewrite Hrows. cbn [Html.rows app].
      unfold Html.total_row, Spec.summed_total_row.
      rewrite Hi, Ho, Hc, Hq. reflexivity.
Qed.

(** The tables of the two quarters sample: the months come out in order. *)
Lemma X8_quarters_in_order :
  Spec.months Sample.quarters = ["2024-12"; "2025-01"; "2025-04"] /\
  Ui.create_monthly_cost_table Sample.quarters
    = (map (Ui.month_row Sample.quarters) (Spec.months Sample.quarters)
       ++ [Ui.separator_row; Ui.total_row Sample.quarters])%list.
Proof.
  split; [reflexivity |].
  destruct (X8_month_rows_sorted Sample.quarters ltac:(discriminate) eq_refl)
    as (_ & _ & Hui & _).
  exact Hui.
Defined.

(** ** Month keys that cannot be read *)

Lemma strptime_Y_m_error (s : string) (e : Py.exn) :
  Datetime.strptime_Y_m s = Py.Raise e -> e = Py.ValueError.
Proof.
  unfold Datetime.strptime_Y_m.
  repeat match goal with
         | |- context [match ?x with _ => _ end] => destruct x
         end;
    intros [=]; auto.
Qed.

Lemma markdown_month_loop_raises (stats : WrappedStats) (keys : list string)
    (acc : Markdown.totals) :
  forallb (Spec.month_writable stats) keys = false ->
  Py.for_each (Markdown.month_step stats) keys acc = Py.Raise Py.ValueError.
Proof.
  revert acc. induction keys as [| k keys IH]; intros acc Hall; [discriminate Hall |].
  cbn [forallb] in Hall. cbn [Py.for_each].
  destruct (Spec.month_writable stats k) eqn:Hk.
  - destruct (markdown_month_step stats acc k Hk) as (acc1 & -> & _).
    apply IH. exact Hall.
  - unfold Spec.month_writable in Hk. unfold Markdown.month_step.
    destruct (Py.dict_get (monthly_tokens stats) k) as [tokens |]; [| discriminate Hk].
    destruct (Datetime.strptime_Y_m k) as [d | e] eqn:Hparse; [discriminate Hk |].
    rewrite (strptime_Y_m_error k e Hparse). reflexivity.
Qed.

Lemma html_month_loop_raises (stats : WrappedStats) (keys : list string)
    (acc : Html.totals) :
  forallb (Spec.month_writable stats) keys = false ->
  Py.for_each (Html.month_step stats) keys acc = Py.Raise Py.ValueError.
Proof.
  revert acc. induction keys as [| k keys IH]; intros acc Hall; [discriminate Hall |].
  cbn [forallb] in Hall. cbn [Py.for_each].
  destruct (Spec.month_writable stats k) eqn:Hk.
  - destruct (html_month_step stats acc k Hk) as (acc1 & -> & _).
    apply IH. exact Hall.
  - unfold Spec.month_writable in Hk. unfold Html.month_step.
    destruct (Py.dict_get (monthly_tokens stats) k) as [tokens |]; [| discriminate Hk].
    destruct (Datetime.strptime_Y_m k) as [d | e] eqn:Hparse; [discriminate Hk |].
    rewrite (strptime_Y_m_error k e Hparse). reflexivity.
Qed.

(** X9: the monthly cost table of the Markdown exporter, and the one of the
    HTML exporter, is built exactly when every month of [monthly_costs]
    that has tokens has a key made of a year and a month; with one key that
    is not, the exporter raises [ValueError], where the terminal table shows
    the key as it is. *)
Theorem X9_month_key_errors (stats : WrappedStats) :
  (forallb (Spec.month_writable stats) (Spec.months stats) = true ->
   Py.raises (Markdown._build_monthly_costs stats) = false /\
   Py.raises (Html._build_monthly_costs stats) = false) /\
  (forallb (Spec.month_writable stats) (Spec.months stats) = false ->
   Markdown._build_monthly_costs stats = Py.Raise Py.ValueError /\
   Html._build_monthly_costs stats = Py.Raise Py.ValueError) /\
  (forall key, Py.raises (Datetime.strptime_Y_m key) = true -> Ui.month_name key = key).
Proof.
  unfold Markdown._build_monthly_costs, Html._build_monthly_costs, Spec.months.
  split; [| split].
  - intros Hall. destruct (monthly_costs stats) as [| kv rest] eqn:Hcosts;
      [split; reflexivity |].
    rewrite <- Hcosts in *.
    destruct (markdown_month_loop stats _
                {| Markdown.rows := [Markdown.header_row]; Markdown.total_cost := 0;
                   Markdown.total_input := 0; Markdown.total_output := 0;
                   Markdown.total_cache := 0 |} Hall) as (acc & -> & _).
    destruct (html_month_loop stats _
                {| Html.rows := [Html.header_row]; Html.total_cost := 0;
                   Html.total_input := 0; Html.total_output := 0;
                   Html.total_cache := 0 |} Hall) as (acc' & -> & _).
    split; reflexivity.
  - intros Hall. destruct (monthly_costs stats) as [| kv rest] eqn:Hcosts;
      [discriminate Hall |].
    rewrite <- Hcosts in *.
    rewrite markdown_month_loop_raises, html_month_loop_raises by exact Hall.
    split; reflexivity.
  - intros key. unfold Ui.month_name.
    destruct (Datetime.strptime_Y_m key); [discriminate | reflexivity].
Qed.

(** A month written with its name: the exporters stop, the terminal goes
    on. *)
Lemma X9_month_by_name :
  Markdown._build_monthly_costs Sample.named_month = Py.Raise Py.ValueError /\
  Html._build_monthly_costs Sample.named_month = Py.Raise Py.ValueError /\
  Ui.month_name "March 2025" = "March 2025".
Proof.
  destruct (X9_month_key_errors Sample.named_month) as (_ & Hraise & Hname).
  destruct (Hraise eq_refl) as [Hmd Hhtml].
  split; [exact Hmd |]. split; [exact Hhtml |]. apply Hname. reflexivity.
Defined.

(** ** The cost lines of the credits *)

Lemma dict_set_keys {V : Type} (d : Py.dict V) (k : string) (v : V) :
  map fst (Py.dict_set d k v)
  = if existsb (String.eqb k) (map fst d) then map fst d else (map fst d ++ [k])%list.
Proof.
  induction d as [| [k' v'] d IH]; cbn [Py.dict_set map fst existsb app]; [reflexivity |].
  rewrite (String.eqb_sym k k').
  destruct (String.eqb k' k); cbn [orb map fst]; [reflexivity |].
  rewrite IH. destruct (existsb (String.eqb k) (map fst d)); reflexivity.
Qed.

Lemma existsb_eqb_in (k : string) (l : list string) :
  existsb (String.eqb k) l = true <-> In k l.
Proof.
  rewrite existsb_exists. split.
  - intros (x & Hx & Heq). apply String.eqb_eq in Heq. subst x. exact Hx.
  - intros Hk. exists k. split; [exact Hk | apply String.eqb_refl].
Qed.

Lemma dict_set_nodup {V : Type} (d : Py.dict V) (k : string) (v : V) :
  List.NoDup (map fst d) -> List.NoDup (map fst (Py.dict_set d k v)).
Proof.
  intros Hnd. rewrite dict_set_keys.
  destruct (existsb (String.eqb k) (map fst d)) eqn:Hk; [exact Hnd |].
  apply List.NoDup_app; [exact Hnd | repeat constructor; intros [] |].
  intros x Hx [<- | []]. apply existsb_eqb_in in Hx. congruence.
Qed.

(** No display label is listed twice. *)
Lemma display_costs_nodup (stats : WrappedStats) :
  List.NoDup (map fst (Ui.display_costs stats)).
Proof.
  unfold Ui.display_costs.
  assert (H : forall d : Py.dict Q,
             List.NoDup (map fst d) ->
             List.NoDup
               (map fst
                  (fold_left
                     (fun display_costs (model_cost : string * Q) =>
                        let '(model, cost) := model_cost in
                        let display_name := Ui.simplify_model_name model in
                        Py.dict_set display_costs display_name
                          (Py.dict_get_or display_costs display_name 0 + cost)%Q)
                     (cost_by_model stats) d))).
  { induction (cost_by_model stats) as [| [model cost] items IH]; intros d Hd;
      cbn [fold_left]; [exact Hd |].
    apply IH, dict_set_nodup, Hd. }
  apply H. constructor.
Qed.

Lemma costs_of_label_nonempty (items : list (string * Q)) (label : string) :
  map snd
    (List.filter
       (fun model_cost : string * Q =>
          String.eqb (Ui.simplify_model_name (fst model_cost)) label) items) <> []
  <-> exists model, In model (map fst items) /\ Ui.simplify_model_name model = label.
Proof.
  induction items as [| [model cost] items IH]; cbn [List.filter map fst snd In].
  - split; [intros H; contradiction | intros (m & [] & _)].
  - destruct (String.eqb_spec (Ui.simplify_model_name model) label) as [Heq | Hne].
    + split; [intros _; exists model; auto | intros _; discriminate].
    + rewrite IH. split.
      * intros (m & Hm & Hl). exists m. split; [right |]; assumption.
      * intros (m & [Hm | Hm] & Hl); [subst m; contradiction |].
        exists m. split; assumption.
Qed.

(** The display labels are the simplified names of the stored models. *)
Lemma display_costs_labels (stats : WrappedStats) (label : string) :
  In label (map fst (Ui.display_costs stats)) <->
  exists model,
    In model (map fst (cost_by_model stats)) /\ Ui.simplify_model_name model = label.
Proof.
  rewrite <- costs_of_label_nonempty.
  pose proof (dict_get_none_iff (Ui.display_costs stats) label) as Hnone.
  unfold Ui.display_costs in Hnone at 1. rewrite grouping_loop in Hnone.
  cbn [Py.dict_get Spec.grouped] in Hnone.
  destruct (map snd _) as [| c cs].
  - split; [intros Hin; apply Hnone in Hin; [contradiction | reflexivity] | congruence].
  - split; [discriminate |]. intros _.
    destruct (in_dec string_dec label (map fst (Ui.display_costs stats)))
      as [Hin | Hout]; [exact Hin |].
    apply Hnone in Hout. discriminate Hout.
Qed.

Lemma by_cost_descending_total (a b : string * Q) :
  Ui.by_cost_descending a b = true \/ Ui.by_cost_descending b a = true.
Proof.
  unfold Ui.by_cost_descending. rewrite !Qle_bool_iff.
  destruct (Qlt_le_dec (- snd b) (- snd a)) as [H | H]; [right | left]; auto.
  apply Qlt_le_weak. exact H.
Qed.

Lemma sorted_descending (l : list (string * Q)) :
  Sorted (fun a b => Ui.by_cost_descending a b = true) l ->
  Sorted (fun a b => (snd b <= snd a)%Q) l.
Proof.
  induction 1 as [| x l Hl IH Hhd]; constructor; [exact IH |].
  destruct Hhd as [| y l Hxy]; constructor.
  unfold Ui.by_cost_descending in Hxy. apply Qle_bool_iff in Hxy.
  apply Qopp_le_compat in Hxy. rewrite !Qopp_involutive in Hxy. exact Hxy.
Qed.

(** X10: when there is an estimated cost, the cost lines that the loops
    of the three credits go through, the same list in the terminal, the
    Markdown and the HTML credits, hold each display label once, from the
    highest cost to the lowest; the labels are the simplified names of the
    stored models, and the lines are the grouped costs in another order.
    The two exporters write every line; the numbers frame of the terminal,
    when it is built, shows every line too, in that order, and it is built
    exactly when no display name has more than 27 characters. *)
Theorem X10_cost_lines_descending (stats : WrappedStats) (cost : Q) :
  estimated_cost stats = Some cost ->
  Sorted (fun a b => (snd b <= snd a)%Q) (Markdown.cost_lines stats) /\
  Permutation (Markdown.cost_lines stats) (Markdown.display_costs stats) /\
  List.NoDup (map fst (Markdown.cost_lines stats)) /\
  (forall label,
     In label (map fst (Markdown.cost_lines stats)) <->
     exists model,
       In model (map fst (cost_by_model stats)) /\ Ui.simplify_model_name model = label) /\
  Html.cost_lines stats = Markdown.cost_lines stats /\
  Ui.cost_lines stats = Markdown.cost_lines stats /\
  (forall console_width lines,
     Ui.numbers_cost_lines stats console_width = Py.Ok lines ->
     map snd lines = map (fun line => Cost (snd line)) (Markdown.cost_lines stats) /\
     map fst lines
     = map (fun line : string * Q =>
              Ui.pad console_width ++ fst line ++ Py.repeat " " (27 - Py.len (fst line)))
         (Markdown.cost_lines stats)) /\
  (forall console_width,
     Py.raises (Ui.numbers_cost_lines stats console_width) = false <->
     Forall (fun label => Py.len label <= 27) (map fst (Markdown.cost_lines stats))).
Proof.
  intros Hcost.
  change (Markdown.cost_lines stats) with (Ui.cost_lines stats).
  change (Markdown.display_costs stats) with (Ui.display_costs stats).
  assert (Hperm : Permutation (Ui.cost_lines stats) (Ui.display_costs stats)).
  { unfold Ui.cost_lines. rewrite Hcost. apply sorted_perm. }
  split.
  { unfold Ui.cost_lines. rewrite Hcost.
    apply sorted_descending, sorted_sorted, by_cost_descending_total. }
  split; [exact Hperm |].
  split.
  { eapply Permutation_NoDup; [| apply display_costs_nodup].
    apply Permutation_map. symmetry. exact Hperm. }
  split.
  { intros label. rewrite <- display_costs_labels.
    split; apply Permutation_in, Permutation_map; [| symmetry]; exact Hperm. }
  do 2 (split; [reflexivity |]).
  split.
  - intros console_width lines Hlines.
    rewrite (numbers_cost_lines_built stats console_width lines Hlines), !map_map.
    split; reflexivity.
  - intros console_width. unfold Ui.numbers_cost_lines.
    rewrite List.Forall_forall.
    generalize (Ui.cost_lines stats). intros l.
    induction l as [| [model c] l IH]; cbn [Py.map_each map In].
    + split; [intros _ label [] | reflexivity].
    + unfold Py.blanks at 1.
      destruct (Z.ltb_spec (27 - Py.len model) 0) as [Hlong | Hfits]; cbn [Py.bind fst].
      * split; [discriminate |]. intros Hall.
        specialize (Hall model (or_introl eq_refl)). lia.
      * destruct (Py.map_each _ l) as [ys | e]; cbn [Py.raises] in *.
        -- split; [| reflexivity]. intros _ label [<- | Hin]; [lia |].
           apply IH; [reflexivity | exact Hin].
        -- split; [discriminate |]. intros Hall.
           apply IH. intros label Hin. apply Hall. right. exact Hin.
Qed.

(** The cost lines of the quarters sample: Sonnet 4.5, with 1 + 3, before
    Opus 4.5, with 2, on the lines of the exporters and in the numbers
    frame of the terminal. *)
Lemma X10_quarters_cost_lines :
  map fst (Markdown.cost_lines Sample.quarters) = ["Sonnet 4.5"; "Opus 4.5"] /\
  Sorted (fun a b => (snd b <= snd a)%Q) (Markdown.cost_lines Sample.quarters) /\
  Py.raises (Ui.numbers_cost_lines Sample.quarters 80) = false.
Proof.
  split; [reflexivity |].
  destruct (X10_cost_lines_descending Sample.quarters 6 eq_refl)
    as (Hsorted & _ & _ & _ & _ & _ & _ & Hbuilt).
  split; [exact Hsorted |].
  apply Hbuilt. repeat constructor; vm_compute; discriminate.
Defined.

(** ** Exceptions of the activity charts *)

Lemma for_each_raise {A S : Type} (body : S -> A -> Py.result S) (x : A) (l : list A)
    (s : S) (e : Py.exn) :
  body s x = Py.Raise e -> Py.for_each body (x :: l) s = Py.Raise e.
Proof. intros H. cbn [Py.for_each]. rewrite H. reflexivity. Qed.





(** ** The levels of the contribution graph *)






(** ** The personality and the length of the histograms *)





(** ** Display names given twice *)

Lemma simplify_model_name_cases (model : string) :
  In (Ui.simplify_model_name model)
    ["Opus 4.5"; "Opus 4.1"; "Opus"; "Sonnet 4.5"; "Sonnet"; "Haiku 4.5"; "Haiku"] \/
  Ui.simplify_model_name model = model.
Proof.
  unfold Ui.simplify_model_name.
  repeat match goal with
         | |- context [if ?b then _ else _] => destruct b
         end; cbn [In]; auto 10.
Qed.

(** X14: a display name is not always kept when it is simplified again:
    the four names with a version lose it, since the patterns look for
    [-] or [.] between the family and the version and the names have a
    space. From the second application on the name no longer changes, and
    it is then a family name or the identifier itself. Name by name,
    Opus 4.5 and Opus 4.1 become Opus, Sonnet 4.5 becomes Sonnet and
    Haiku 4.5 becomes Haiku. *)
Theorem X14_simplify_model_name_twice (model : string) :
  let once := Ui.simplify_model_name model in
  let twice := Ui.simplify_model_name once in
  Ui.simplify_model_name twice = twice /\
  (In once ["Opus 4.5"; "Opus 4.1"; "Sonnet 4.5"; "Haiku 4.5"] -> twice <> once) /\
  (In twice ["Opus"; "Sonnet"; "Haiku"] \/ twice = model) /\
  map Ui.simplify_model_name ["Opus 4.5"; "Opus 4.1"; "Sonnet 4.5"; "Haiku 4.5"]
  = ["Opus"; "Opus"; "Sonnet"; "Haiku"].
Proof.
  cbv zeta.
  destruct (simplify_model_name_cases model) as [Hlabel | Hsame].
  - cbn [In] in Hlabel.
    repeat (destruct Hlabel as [<- | Hlabel]; [
      split; [reflexivity |];
      split; [intros Hin Heq; cbn [In] in Hin;
              first [discriminate Heq | intuition discriminate]
             | split; [left; vm_compute; tauto | reflexivity]] |]).
    contradiction.
  - rewrite !Hsame. split; [reflexivity |].
    split; [| split; [right; reflexivity | reflexivity]].
    intros Hin Heq. clear Heq. cbn [In] in Hin.
    assert (Hfix : forall label,
              In label ["Opus 4.5"; "Opus 4.1"; "Sonnet 4.5"; "Haiku 4.5"] ->
              Ui.simplify_model_name label <> label).
    { intros label Hl. cbn [In] in Hl.
      repeat (destruct Hl as [<- | Hl]; [vm_compute; discriminate |]). contradiction. }
    apply (Hfix model); [cbn [In]; exact Hin | exact Hsame].
Qed.

(** The name of an Opus 4.5 model, simplified twice, is [Opus]. *)
Lemma X14_opus_loses_its_version :
  Ui.simplify_model_name "claude-opus-4-5-20251101" = "Opus 4.5" /\
  Ui.simplify_model_name (Ui.simplify_model_name "claude-opus-4-5-20251101")
  <> Ui.simplify_model_name "claude-opus-4-5-20251101".
Proof.
  split; [reflexivity |].
  pose proof (X14_simplify_model_name_twice "claude-opus-4-5-20251101") as H.
  cbv zeta in H. destruct H as (_ & Hversion & _).
  apply Hversion. vm_compute. tauto.
Defined.

(** ** The files of the exports *)

Lemma file_name_cases (args : Main.Args) (year_display : string) (now : datetime) :
  (forall name,
     Main.output_name args = Some name -> name <> EmptyString ->
     Main.file_name args year_display now = name) /\
  (Main.output_name args = None \/ Main.output_name args = Some EmptyString ->
   Main.file_name args year_display now
   = "claude-wrapped-" ++ year_display ++ "-" ++ Main.timestamp now).
Proof.
  unfold Main.file_name. split.
  - intros name -> Hne. destruct (String.eqb_spec name EmptyString); [contradiction |].
    reflexivity.
  - intros [-> | ->]; reflexivity.
Qed.

(** X15: a run of [main] that exports to HTML and to Markdown gives both
    exporters the same statistics and the same filter; the statistics are
    aggregated once, before the HTML file is written, the HTML file is
    written before the Markdown file, and the two files have the same name
    with the extensions [.html] and [.md]: the name given with [--output]
    when there is one and it is not empty, and otherwise
    [claude-wrapped-], the display name of the period and the time stamp
    of the run. *)
Theorem X15_exports_share_the_name (Message : Type) (w : Main.World Message)
    (args : Main.Args) (stats_html stats_md : WrappedStats)
    (filter_html filter_md : option Z) (html_path md_path : string) :
  In (Main.ExportToHtml stats_html filter_html html_path) (Main.run (Main.main w args)) ->
  In (Main.ExportToMarkdown stats_md filter_md md_path) (Main.run (Main.main w args)) ->
  stats_html = stats_md /\ filter_html = filter_md /\
  (exists before between after,
     Main.run (Main.main w args)
     = (before ++ Main.ExportToHtml stats_html filter_html html_path
          :: between ++ Main.ExportToMarkdown stats_md filter_md md_path :: after)%list /\
     List.filter Main.reports before = [Main.AggregateStats filter_html]) /\
  exists year_display name,
    option_map (fun parsed => snd (fst parsed)) (Main.parse_year (Main.arg_year args))
    = Some year_display /\
    html_path = name ++ ".html" /\ md_path = name ++ ".md" /\
    (forall given,
       Main.output_name args = Some given -> given <> EmptyString -> name = given) /\
    (Main.output_name args = None \/ Main.output_name args = Some EmptyString ->
     name = "claude-wrapped-" ++ year_display ++ "-" ++ Main.timestamp (Main.now w)).
Proof.
  unfold Main.run, Main.main.
  destruct (Main.parse_year (Main.arg_year args)) as [[[yf yd] yl] |] eqn:Hyear;
    [| cbn; intros Hin; exfalso; intuition discriminate].
  destruct (Main.get_claude_dir w) as [dir | e];
    [| cbn; intros Hin; exfalso; intuition discriminate].
  destruct (Main.load_all_messages w dir yf) as [| m ms];
    [destruct (Main.json_flag args); cbn; intros Hin; exfalso; intuition discriminate |].
  set (stats := Main.aggregate_stats w (m :: ms) yf).
  destruct (file_name_cases args yd (Main.now w)) as [Hgiven Hdefault].
  destruct (Main.json_flag args), (Main.html args), (Main.markdown args);
    cbn [Main.when negb Main.seq Main.emit Main.ret];
    repeat match goal with
           | |- context [Main.returns ?o] => destruct o; cbn [Main.returns Main.ret]
           end;
    cbn; intros Hhtml Hmd;
    try (exfalso; intuition discriminate).
  all: assert (Eh : Main.ExportToHtml stats yf
                      (Main.file_name args yd (Main.now w) ++ ".html")
                    = Main.ExportToHtml stats_html filter_html html_path)
         by intuition congruence.
  all: assert (Em : Main.ExportToMarkdown stats yf
                      (Main.file_name args yd (Main.now w) ++ ".md")
                    = Main.ExportToMarkdown stats_md filter_md md_path)
         by intuition congruence.
  all: injection Eh as <- <- <-; injection Em as <- <- <-.
  all: split; [reflexivity |]; split; [reflexivity |]; split.
  all: try (exists yd, (Main.file_name args yd (Main.now w));
            split; [reflexivity |]; split; [reflexivity |]; split; [reflexivity |];
            split; assumption).
  all: first
         [ exists [Main.LoadAllMessages yf; Main.AggregateStats yf];
           eexists [_];
           first [eexists [_; _]; split; reflexivity | eexists [_]; split; reflexivity]
         | eexists [_; Main.LoadAllMessages yf; Main.AggregateStats yf];
           eexists [_];
           first [eexists [_; _]; split; reflexivity | eexists [_]; split; reflexivity] ].
Qed.

(** A run for 2025 on the thirtieth of December at nine, without
    [--output]: the two files are named after the period and the time. *)
Lemma X15_both_exports_on_dec_30 :
  In (Main.ExportToHtml Sample.january (Some 2025) "claude-wrapped-2025-20251230-0900.html")
    (Main.run (Main.main Sample.busy_world Sample.args_2025)) /\
  In (Main.ExportToMarkdown Sample.january (Some 2025) "claude-wrapped-2025-20251230-0900.md")
    (Main.run (Main.main Sample.busy_world Sample.args_2025)) /\
  exists name,
    "claude-wrapped-2025-20251230-0900.html" = name ++ ".html" /\
    "claude-wrapped-2025-20251230-0900.md" = name ++ ".md".
Proof.
  assert (Hhtml : In (Main.ExportToHtml Sample.january (Some 2025)
                        "claude-wrapped-2025-20251230-0900.html")
                    (Main.run (Main.main Sample.busy_world Sample.args_2025))).
  { vm_compute. tauto. }
  assert (Hmd : In (Main.ExportToMarkdown Sample.january (Some 2025)
                      "claude-wrapped-2025-20251230-0900.md")
                  (Main.run (Main.main Sample.busy_world Sample.args_2025))).
  { vm_compute. tauto. }
  split; [exact Hhtml |]. split; [exact Hmd |].
  destruct (X15_exports_share_the_name unit Sample.busy_world Sample.args_2025
              _ _ _ _ _ _ Hhtml Hmd)
    as (_ & _ & _ & _ & name & _ & Hh & Hm & _).
  exists name. split; assumption.
Defined.

(** ** The squares of the Markdown activity graph *)

Lemma for_each_ext {A S : Type} (body body' : S -> A -> Py.result S) (l : list A) (s : S) :
  (forall s' x, In x l -> body s' x = body' s' x) ->
  Py.for_each body l s = Py.for_each body' l s.
Proof.
  revert s. induction l as [| x l IH]; intros s Hext; cbn [Py.for_each]; [reflexivity |].
  rewrite <- (Hext s x (or_introl eq_refl)).
  destruct (body s x) as [s' | e]; [| reflexivity].
  apply IH. intros s'' y Hy. apply Hext. right. exact Hy.
Qed.

(** The cells of one row: a gap is two blanks, any level is a square. *)
Lemma graph_cells_same_gaps (weeks weeks' : list (list (option Z))) (row : nat)
    (graph : string) :
  Forall2 (Forall2 (fun cell cell' : option Z => cell = None <-> cell' = None))
    weeks weeks' ->
  Py.for_each
    (fun graph week =>
       match nth_error week row with
       | None => Py.Raise Py.IndexError
       | Some None => Py.Ok (graph ++ "  ")
       | Some (Some _) => Py.Ok (graph ++ "■ ")
       end) weeks graph
  = Py.for_each
      (fun graph week =>
         match nth_error week row with
         | None => Py.Raise Py.IndexError
         | Some None => Py.Ok (graph ++ "  ")
         | Some (Some _) => Py.Ok (graph ++ "■ ")
         end) weeks' graph.
Proof.
  intros Hgaps. revert graph.
  induction Hgaps as [| week week' weeks weeks' Hweek _ IH]; intros graph;
    cbn [Py.for_each]; [reflexivity |].
  assert (Hcell : match nth_error week row, nth_error week' row with
                  | None, None => True
                  | Some cell, Some cell' => cell = None <-> cell' = None
                  | _, _ => False
                  end).
  { clear IH. revert row. induction Hweek as [| c c' l l' Hc _ IHw]; intros [| row];
      cbn [nth_error]; auto. apply IHw. }
  destruct (nth_error week row) as [[level |] |], (nth_error week' row) as [[level' |] |];
    try contradiction; try apply IH; try reflexivity.
  - destruct Hcell as [_ H]. discriminate (H eq_refl).
  - destruct Hcell as [H _]. discriminate (H eq_refl).
Qed.

Lemma graph_cells_total (weeks : list (list (option Z))) (row : nat) (graph : string) :
  (row < 7)%nat ->
  Forall (fun week : list (option Z) => length week = 7%nat) weeks ->
  exists text,
    Py.for_each
      (fun graph week =>
         match nth_error week row with
         | None => Py.Raise Py.IndexError
         | Some None => Py.Ok (graph ++ "  ")
         | Some (Some _) => Py.Ok (graph ++ "■ ")
         end) weeks graph = Py.Ok text.
Proof.
  intros Hrow Hweeks. apply for_each_ok. intros g week Hin.
  rewrite List.Forall_forall in Hweeks. specialize (Hweeks week Hin).
  destruct (nth_error week row) as [[level |] |] eqn:Hnth; eauto.
  apply nth_error_None in Hnth. lia.
Qed.

(** X16: the activity graph of the Markdown exporter draws the same
    square for every level: on a grid of weeks of seven cells the text is
    built without exception, and two grids with the same gaps give the
    same text, whatever the levels of their days. *)
Theorem X16_markdown_graph_ignores_levels (weeks weeks' : list (list (option Z))) :
  Forall (fun week : list (option Z) => length week = 7%nat) weeks ->
  Forall2 (Forall2 (fun cell cell' : option Z => cell = None <-> cell' = None))
    weeks weeks' ->
  (exists text, Markdown.graph weeks = Py.Ok text) /\
  Markdown.graph weeks = Markdown.graph weeks'.
Proof.
  intros Hseven Hgaps. split.
  - unfold Markdown.graph.
    destruct (for_each_ok (Markdown.graph_row weeks) (seq 0 7) ("```" ++ Py.nl))
      as [text Htext]; [| rewrite Htext; cbn [Py.bind]; eauto].
    intros graph row Hrow. apply in_seq in Hrow. unfold Markdown.graph_row.
    destruct (nth_error Markdown.days_labels row) as [label |] eqn:Hlabel.
    + destruct (graph_cells_total weeks row (graph ++ label ++ " ")) as [cells Hcells];
        [lia | exact Hseven |].
      rewrite Hcells. cbn [Py.bind]. eauto.
    + apply nth_error_None in Hlabel. cbn [length Markdown.days_labels] in Hlabel. lia.
  - unfold Markdown.graph.
    rewrite (for_each_ext (Markdown.graph_row weeks) (Markdown.graph_row weeks'));
      [reflexivity |].
    intros graph row _. unfold Markdown.graph_row.
    destruct (nth_error Markdown.days_labels row) as [label |]; [| reflexivity].
    rewrite (graph_cells_same_gaps weeks weeks' row _ Hgaps). reflexivity.
Qed.

(** A week with a gap, a quiet day and five days of every other level,
    and the same week with all its days at level 1: the same text. *)
Lemma X16_one_week_of_levels :
  Markdown.graph [[None; Some 0; Some 1; Some 2; Some 3; Some 4; Some 4]]
  = Markdown.graph [[None; Some 1; Some 1; Some 1; Some 1; Some 1; Some 1]].
Proof.
  apply (X16_markdown_graph_ignores_levels
           [[None; Some 0; Some 1; Some 2; Some 3; Some 4; Some 4]]
           [[None; Some 1; Some 1; Some 1; Some 1; Some 1; Some 1]]).
  - repeat constructor.
  - repeat constructor; intros H; discriminate H.
Defined.

(** ** Labels too long for the numbers frame *)

Lemma map_each_raises {A B : Type} (f : A -> Py.result B) (l : list A) :
  Py.raises (Py.map_each f l) = true <-> exists x, In x l /\ Py.raises (f x) = true.
Proof.
  induction l as [| x l IH]; cbn [Py.map_each In].
  - split; [discriminate | intros (x & [] & _)].
  - destruct (f x) as [y | e] eqn:Hfx.
    + destruct (Py.map_each f l) as [ys | e]; cbn [Py.raises] in *.
      * split; [discriminate |]. intros (x' & [<- | Hin] & Hr).
        -- rewrite Hfx in Hr. discriminate Hr.
        -- apply IH. eauto.
      * split; [| reflexivity]. intros _.
        destruct IH as [IH _]. destruct (IH eq_refl) as (x' & Hin & Hr). eauto.
    + cbn [Py.raises]. split; [| reflexivity]. intros _. exists x.
      rewrite Hfx. auto.
Qed.

Lemma map_each_exception {A B : Type} (f : A -> Py.result B) (l : list A) (e : Py.exn) :
  (forall x e', f x = Py.Raise e' -> e' = e) ->
  Py.raises (Py.map_each f l) = true -> Py.map_each f l = Py.Raise e.
Proof.
  intros Hf. induction l as [| x l IH]; cbn [Py.map_each]; [discriminate |].
  destruct (f x) as [y | e'] eqn:Hfx.
  - destruct (Py.map_each f l) as [ys | e'']; [discriminate |].
    intros _. apply IH. reflexivity.
  - intros _. rewrite (Hf x e' Hfx). reflexivity.
Qed.

Lemma blanks_raises (w : Z) :
  (Py.raises (Py.blanks w) = true <-> w < 0) /\
  (forall e, Py.blanks w = Py.Raise e -> e = Py.ValueError).
Proof.
  unfold Py.blanks. destruct (Z.ltb_spec w 0); cbn [Py.raises]; split.
  - tauto.
  - intros e [= <-]. reflexivity.
  - split; [discriminate | lia].
  - intros e [=].
Qed.

(** X17: in the numbers frame of the terminal credits, building the cost
    lines raises exactly when there is an estimated cost and the display
    name of one model of [cost_by_model] has more than 27 characters; the
    exception is then [ValueError], from the negative width of the padding.
    Such a name is the identifier of a model of no known family, the
    longest label having ten characters. *)
Theorem X17_long_label_stops_the_numbers (stats : WrappedStats) (console_width : Z) :
  (Py.raises (Ui.numbers_cost_lines stats console_width) = true <->
   estimated_cost stats <> None /\
   exists model,
     In model (map fst (cost_by_model stats)) /\
     27 < Py.len (Ui.simplify_model_name model)) /\
  (Py.raises (Ui.numbers_cost_lines stats console_width) = true ->
   Ui.numbers_cost_lines stats console_width = Py.Raise Py.ValueError) /\
  (forall model,
     27 < Py.len (Ui.simplify_model_name model) -> Ui.simplify_model_name model = model).
Proof.
  split; [| split].
  - unfold Ui.numbers_cost_lines. rewrite map_each_raises.
    assert (Hlabels : forall label,
              (exists cost, In (label, cost) (Ui.cost_lines stats)) <->
              estimated_cost stats <> None /\
              exists model,
                In model (map fst (cost_by_model stats)) /\
                Ui.simplify_model_name model = label).
    { intros label. rewrite <- display_costs_labels. unfold Ui.cost_lines.
      destruct (estimated_cost stats) as [cost |].
      - pose proof (sorted_perm Ui.by_cost_descending (Ui.display_costs stats)) as Hperm.
        split.
        + intros (c & Hin). split; [discriminate |].
          apply (Permutation_in _ (Permutation_map fst Hperm)).
          apply (in_map fst) in Hin. exact Hin.
        + intros [_ Hin].
          apply (Permutation_in _ (Permutation_map fst (Permutation_sym Hperm))) in Hin.
          apply in_map_iff in Hin. destruct Hin as ([l c] & <- & Hin). eauto.
      - split; [intros (c & []) | intros [Hne _]; contradiction]. }
    split.
    + intros ([label cost] & Hin & Hr).
      destruct (Hlabels label) as [(Hcost & model & Hmodel & Hlabel) _]; [eauto |].
      split; [exact Hcost |]. exists model. split; [exact Hmodel |].
      rewrite Hlabel.
      destruct (blanks_raises (27 - Py.len label)) as [[Hneg _] _].
      destruct (Py.blanks (27 - Py.len label)) eqn:Hb; [discriminate Hr |].
      specialize (Hneg eq_refl). lia.
    + intros (Hcost & model & Hmodel & Hlong).
      destruct (Hlabels (Ui.simplify_model_name model)) as [_ (cost & Hin)]; [eauto |].
      exists (Ui.simplify_model_name model, cost). split; [exact Hin |].
      destruct (blanks_raises (27 - Py.len (Ui.simplify_model_name model)))
        as [[_ Hneg] _].
      destruct (Py.blanks (27 - Py.len (Ui.simplify_model_name model)));
        [| reflexivity].
      discriminate Hneg. lia.
  - apply map_each_exception. intros [label cost] e.
    destruct (blanks_raises (27 - Py.len label)) as [_ Herr].
    destruct (Py.blanks (27 - Py.len label)) as [fill | e'] eqn:Hb; [discriminate |].
    cbn [Py.bind]. intros [= <-]. apply Herr. reflexivity.
  - intros model Hlong.
    destruct (simplify_model_name_cases model) as [Hlabel | Hsame]; [| exact Hsame].
    cbn [In] in Hlabel.
    repeat (destruct Hlabel as [Heq | Hlabel];
            [rewrite <- Heq in Hlong; vm_compute in Hlong; discriminate Hlong |]).
    contradiction.
Qed.

(** An identifier of 38 characters stops the numbers frame; the Opus model
    of [january] does not. *)
Lemma X17_long_model_name :
  Ui.numbers_cost_lines Sample.long_label 80 = Py.Raise Py.ValueError /\
  Py.raises (Ui.numbers_cost_lines Sample.january 80) = false.
Proof.
  destruct (X17_long_label_stops_the_numbers Sample.long_label 80) as (Hiff & Herr & _).
  split; [| reflexivity].
  apply Herr, Hiff. split; [discriminate |].
  exists "vendor/experimental-model-preview-2025". split.
  - vm_compute. tauto.
  - vm_compute. reflexivity.
Defined.

(** ** The frames of the credits *)

Lemma prompts_labels (console_width : Z) (labels : list string) :
  map fst (Ui.prompts console_width labels) = labels.
Proof.
  unfold Ui.prompts. rewrite map_map.
  generalize labels at 1. generalize 0%nat.
  induction labels as [| label rest IH]; intros start all; [reflexivity |].
  cbn [length seq combine map fst]. rewrite IH. reflexivity.
Qed.

(** The timeline frame is built for a year other than the current one,
    when there is a first message, only if [datetime] takes the year. *)
Lemma timeline_dates_year (stats : WrappedStats) (today : datetime) (built : unit) (y : Z) :
  Ui.timeline_dates stats today = Py.Ok built ->
  year stats = Some y -> y <> Datetime.year today -> first_message_date stats <> None ->
  1 <= y <= 9999.
Proof.
  unfold Ui.timeline_dates. intros H Hy Hne Hfirst. rewrite Hy in H.
  destruct (Z.eqb_spec y (Datetime.year today)) as [| _]; [contradiction |].
  cbn [Py.bind] in H.
  destruct (first_message_date stats) as [first |]; [| contradiction].
  unfold Datetime.new in H.
  destruct (negb _); [discriminate H |].
  destruct ((1 <=? y) && (y <=? 9999) && (1 <=? 12) && (12 <=? 12) && (1 <=? 31)
            && (31 <=? Datetime.days_in_month y 12)) eqn:Hrange; [| discriminate H].
  rewrite !andb_true_iff, !Z.leb_le in Hrange. lia.
Qed.

(** X18: a credits roll that is returned, the numbers frame and the
    timeline frame having raised nothing, has from five to eight frames,
    none twice: the numbers, the timeline and the averages first, the
    final card last. The last loop leaves the final card as it is; every
    other frame is followed by a frame, and gets a prompt that names it, or
    [to continue] when the final card follows. The branch for a frame that
    nothing follows is never taken. A roll is returned only if the cost
    lines of the numbers frame are built and if the year of statistics
    with a first message is the current one or a year from 1 to 9999. *)
Theorem X18_credits_prompts (stats : WrappedStats) (console_width : Z)
    (today : datetime) (frames : list (string * option string)) :
  Ui.create_credits_roll stats console_width today = Py.Ok frames ->
  let labels := map fst frames in
  Py.raises (Ui.numbers_cost_lines stats console_width) = false /\
  (forall y,
     year stats = Some y -> y <> Datetime.year today ->
     first_message_date stats <> None -> 1 <= y <= 9999) /\
  labels = Ui.frame_labels stats /\
  List.NoDup labels /\
  (5 <= length labels <= 8)%nat /\
  firstn 3 labels = ["numbers"; "timeline"; "averages"] /\
  nth_error frames (length labels - 1) = Some ("final", None) /\
  (forall i label,
     nth_error labels i = Some label -> label <> "final" ->
     exists next,
       nth_error labels (S i) = Some next /\
       nth_error frames i
       = Some (label,
               Some (Ui.pad console_width
                       ++ (if String.eqb next "final" then "press [ENTER] to continue"
                           else "press [ENTER] for the "
                                  ++ (if String.eqb next "conversation"
                                      then "longest conversation" else next))))).
Proof.
  unfold Ui.create_credits_roll.
  destruct (Ui.numbers_cost_lines stats console_width) as [numbers | e];
    [| discriminate].
  destruct (Ui.timeline_dates stats today) as [timeline | e] eqn:Htimeline;
    [| discriminate].
  cbn [Py.bind]. intros [= <-]. cbv zeta. rewrite prompts_labels.
  split; [reflexivity |].
  split; [intros y; exact (timeline_dates_year stats today timeline y Htimeline) |].
  clear Htimeline. unfold Ui.frame_labels.
  destruct ((streak_longest stats >=? 3) && Ui.is_some (streak_longest_start stats)
            && Ui.is_some (streak_longest_end stats));
    destruct (longest_conversation_messages stats >? 0);
    destruct (top_projects stats) as [| project projects];
    cbn [app]; unfold Ui.prompts, Ui.prompt;
    remember (Ui.pad console_width) as margin;
    (split; [reflexivity |]);
    (split; [repeat (apply List.NoDup_cons; [cbn [In]; intuition discriminate |]);
             apply List.NoDup_nil |]);
    (split; [cbn [length]; lia |]);
    (split; [reflexivity |]);
    (split; [reflexivity |]);
    intros i label Hlabel Hfinal;
    do 9 (try (destruct i as [| i]; cbn [nth_error] in Hlabel;
               [first [discriminate Hlabel
                      | injection Hlabel as <-;
                        first [contradiction Hfinal; reflexivity
                              | eexists; split; reflexivity]]
               | try discriminate Hlabel])).
Qed.

(** The roll of [january] on the thirtieth of December 2025, in 80
    columns, opens on the numbers, whose prompt announces the timeline;
    there is no roll for the statistics with a label of 38 characters. *)
Lemma X18_january_first_prompt :
  (exists frames,
     Ui.create_credits_roll Sample.january 80 Sample.dec_30 = Py.Ok frames /\
     nth_error frames 0
     = Some ("numbers", Some (Ui.pad 80 ++ "press [ENTER] for the timeline"))) /\
  Ui.create_credits_roll Sample.long_label 80 Sample.dec_30 = Py.Raise Py.ValueError.
Proof.
  split; [| reflexivity].
  destruct (Ui.create_credits_roll Sample.january 80 Sample.dec_30) as [frames | e]
    eqn:Hroll; [| vm_compute in Hroll; discriminate Hroll].
  exists frames. split; [reflexivity |].
  pose proof (X18_credits_prompts Sample.january 80 Sample.dec_30 frames Hroll) as H.
  cbv zeta in H. destruct H as (_ & _ & Hlabels & _ & _ & _ & _ & Hprompt).
  destruct (Hprompt 0%nat "numbers") as (next & Hnext & Hp).
  - rewrite Hlabels. reflexivity.
  - discriminate.
  - rewrite Hlabels in Hnext. vm_compute in Hnext. injection Hnext as <-. exact Hp.
Defined.

(** ** The nulls of the JSON object *)

Lemma rounded_or_null_null (x : option Q) (ndigits : nat) :
  Main.rounded_or_null x ndigits = Main.JNull <->
  x = None \/ exists v, x = Some v /\ (v == 0)%Q.
Proof.
  unfold Main.rounded_or_null. destruct x as [v |].
  - destruct (Qeq_bool v 0) eqn:Hz.
    + apply Qeq_bool_iff in Hz. split; [intros _; right; eauto | reflexivity].
    + split; [discriminate |]. intros [H | (v' & [= <-] & Hv)]; [discriminate H |].
      apply Qeq_bool_iff in Hv. congruence.
  - split; [auto | reflexivity].
Qed.

(** X19: in the JSON object, the busiest day and its number of messages
    are null together, exactly when the statistics have no busiest day. An
    average cost is null when it is missing and also when it is zero, a
    zero being false, whereas the estimated cost is null only when it is
    missing: a cost of zero is written as a number. *)
Theorem X19_json_nulls (stats : WrappedStats) :
  (Main.member "most_active_day" (Main.output stats) = Some Main.JNull <->
   most_active_day stats = None) /\
  (Main.member "most_active_day_messages" (Main.output stats) = Some Main.JNull <->
   most_active_day stats = None) /\
  (Main.member "avg_cost_per_day" (Main.output stats) = Some Main.JNull <->
   avg_cost_per_day stats = None \/
   exists cost, avg_cost_per_day stats = Some cost /\ (cost == 0)%Q) /\
  (Main.member "avg_cost_per_week" (Main.output stats) = Some Main.JNull <->
   avg_cost_per_week stats = None \/
   exists cost, avg_cost_per_week stats = Some cost /\ (cost == 0)%Q) /\
  (Main.member "avg_cost_per_month" (Main.output stats) = Some Main.JNull <->
   avg_cost_per_month stats = None \/
   exists cost, avg_cost_per_month stats = Some cost /\ (cost == 0)%Q) /\
  (Main.member "estimated_cost_usd" (Main.output stats) = Some Main.JNull <->
   estimated_cost stats = None) /\
  (forall cost,
     estimated_cost stats = Some cost ->
     Main.member "estimated_cost_usd" (Main.output stats) = Some (Main.JFloat cost)).
Proof.
  assert (Hnull : forall x : option Q,
            Some (Main.rounded_or_null x 2) = Some Main.JNull <->
            x = None \/ exists cost, x = Some cost /\ (cost == 0)%Q).
  { intros x. rewrite <- rounded_or_null_null. split; [intros [= ->] | intros ->];
      reflexivity. }
  change (Main.member "most_active_day" (Main.output stats))
    with (Some (Main.opt (fun d => Main.JStr (Datetime.isoformat (fst d)))
                  (most_active_day stats))).
  change (Main.member "most_active_day_messages" (Main.output stats))
    with (Some (Main.opt (fun d => Main.JInt (snd d)) (most_active_day stats))).
  change (Main.member "avg_cost_per_day" (Main.output stats))
    with (Some (Main.rounded_or_null (avg_cost_per_day stats) 2)).
  change (Main.member "avg_cost_per_week" (Main.output stats))
    with (Some (Main.rounded_or_null (avg_cost_per_week stats) 2)).
  change (Main.member "avg_cost_per_month" (Main.output stats))
    with (Some (Main.rounded_or_null (avg_cost_per_month stats) 2)).
  change (Main.member "estimated_cost_usd" (Main.output stats))
    with (Some (Main.opt Main.JFloat (estimated_cost stats))).
  split; [destruct (most_active_day stats) as [[day messages] |]; cbn [Main.opt];
          split; congruence |].
  split; [destruct (most_active_day stats) as [[day messages] |]; cbn [Main.opt];
          split; congruence |].
  split; [apply Hnull |]. split; [apply Hnull |]. split; [apply Hnull |].
  split; [destruct (estimated_cost stats); cbn [Main.opt]; split; congruence |].
  intros cost ->. reflexivity.
Qed.

(** The busiest day of [january] is written; [idle] has none, and no
    average cost. *)
Lemma X19_idle_and_january :
  Main.member "most_active_day" (Main.output Sample.idle) = Some Main.JNull /\
  Main.member "avg_cost_per_day" (Main.output Sample.idle) = Some Main.JNull /\
  Main.member "most_active_day" (Main.output Sample.january)
  = Some (Main.JStr "2025-01-01T00:00:00").
Proof.
  destruct (X19_json_nulls Sample.idle) as (Hday & _ & Hcost & _).
  split; [apply Hday; reflexivity |].
  split; [apply Hcost; left; reflexivity |].
  reflexivity.
Defined.

(** ** The reporting window *)

Lemma lex_compare_opp (a b : list Z) :
  Datetime.lex_compare a b = CompOpp (Datetime.lex_compare b a).
Proof.
  revert b. induction a as [| x a IH]; intros [| y b]; cbn [Datetime.lex_compare];
    try reflexivity.
  rewrite (Z.compare_antisym x y).
  destruct (x ?= y); cbn [CompOpp]; [apply IH | reflexivity | reflexivity].
Qed.

Lemma lex_compare_eq (a b : list Z) : Datetime.lex_compare a b = Eq -> a = b.
Proof.
  revert b. induction a as [| x a IH]; intros [| y b]; cbn [Datetime.lex_compare];
    try discriminate; [reflexivity |].
  destruct (Z.compare_spec x y) as [-> | |]; try discriminate.
  intros H. f_equal. apply IH. exact H.
Qed.

Lemma lex_compare_refl (a : list Z) : Datetime.lex_compare a a = Eq.
Proof.
  induction a as [| x a IH]; cbn [Datetime.lex_compare]; [reflexivity |].
  rewrite Z.compare_refl. exact IH.
Qed.

Lemma lex_compare_lt_trans (a b c : list Z) :
  Datetime.lex_compare a b = Lt -> Datetime.lex_compare b c = Lt ->
  Datetime.lex_compare a c = Lt.
Proof.
  revert b c. induction a as [| x a IH]; intros [| y b] [| z c];
    cbn [Datetime.lex_compare]; try discriminate; try reflexivity.
  destruct (Z.compare_spec x y) as [-> | Hxy | Hxy]; try discriminate.
  - destruct (Z.compare_spec y z) as [-> | Hyz | Hyz]; try discriminate;
      [apply IH | reflexivity].
  - intros _. destruct (Z.compare_spec y z) as [-> | Hyz | Hyz]; try discriminate.
    + intros _. destruct (Z.compare_spec x z); [lia | reflexivity | lia].
    + intros _. destruct (Z.compare_spec x z); [lia | reflexivity | lia].
Qed.

Lemma leb_refl (t : datetime) : Datetime.leb t t = true.
Proof.
  unfold Datetime.leb, Datetime.ltb, Datetime.compare. rewrite lex_compare_refl.
  reflexivity.
Qed.

Lemma leb_trans (s t u : datetime) :
  Datetime.leb s t = true -> Datetime.leb t u = true -> Datetime.leb s u = true.
Proof.
  unfold Datetime.leb, Datetime.ltb, Datetime.compare. intros Hst Htu.
  destruct (Datetime.lex_compare (Datetime.fields u) (Datetime.fields s)) eqn:Hus;
    try reflexivity.
  destruct (Datetime.lex_compare (Datetime.fields t) (Datetime.fields s)) eqn:Hts;
    try discriminate Hst.
  - apply lex_compare_eq in Hts. rewrite Hts, Hus in Htu. discriminate Htu.
  - rewrite lex_compare_opp in Hts.
    destruct (Datetime.lex_compare (Datetime.fields s) (Datetime.fields t)) eqn:Hst';
      try discriminate Hts.
    rewrite (lex_compare_lt_trans _ _ _ Hus Hst') in Htu. discriminate Htu.
Qed.

Lemma ltb_leb (s t : datetime) : Datetime.ltb s t = true -> Datetime.leb s t = true.
Proof.
  unfold Datetime.leb, Datetime.ltb, Datetime.compare. rewrite (lex_compare_opp _ (Datetime.fields s)).
  destruct (Datetime.lex_compare (Datetime.fields s) (Datetime.fields t));
    try discriminate; reflexivity.
Qed.

Lemma not_ltb_leb (s t : datetime) : Datetime.ltb s t = false -> Datetime.leb t s = true.
Proof. unfold Datetime.leb. intros ->. reflexivity. Qed.

(** The earliest of the dates is not after the first of them, and the
    latest is not before it. *)
Lemma fold_min_leb (l : list datetime) (x : datetime) :
  Datetime.leb (fold_left (fun m t => if Datetime.ltb t m then t else m) l x) x = true.
Proof.
  revert x. induction l as [| t l IH]; intros x; cbn [fold_left]; [apply leb_refl |].
  destruct (Datetime.ltb t x) eqn:Htx.
  - eapply leb_trans; [apply IH | apply ltb_leb; exact Htx].
  - apply IH.
Qed.

Lemma fold_max_leb (l : list datetime) (x : datetime) :
  Datetime.leb x (fold_left (fun m t => if Datetime.ltb m t then t else m) l x) = true.
Proof.
  revert x. induction l as [| t l IH]; intros x; cbn [fold_left]; [apply leb_refl |].
  destruct (Datetime.ltb x t) eqn:Hxt.
  - eapply leb_trans; [apply ltb_leb; exact Hxt | apply IH].
  - apply IH.
Qed.

Lemma min_or_leb_max_or (d : datetime) (l : list datetime) :
  Datetime.leb (Datetime.min_or d l) (Datetime.max_or d l) = true.
Proof.
  destruct l as [| x l]; cbn [Datetime.min_or Datetime.max_or]; [apply leb_refl |].
  eapply leb_trans; [apply fold_min_leb | apply fold_max_leb].
Qed.

Lemma c_int_iff (z : Z) : Datetime.c_int z = true <-> -2147483648 <= z <= 2147483647.
Proof. unfold Datetime.c_int. rewrite andb_true_iff, !Z.leb_le. reflexivity. Qed.

Lemma c_int_small (z : Z) : -2147483648 <= z <= 2147483647 -> Datetime.c_int z = true.
Proof. apply c_int_iff. Qed.

Lemma new_ok (y m d : Z) :
  1 <= y <= 9999 -> 1 <= m <= 12 -> 1 <= d <= 28 ->
  Datetime.new y m d = Py.Ok (Datetime.at_midnight y m d).
Proof.
  intros Hy Hm Hd. unfold Datetime.new.
  rewrite !c_int_small by lia. cbn [andb negb].
  assert (Hdays : 28 <= Datetime.days_in_month y m).
  { unfold Datetime.days_in_month.
    destruct (m =? 2); [destruct (Datetime.is_leap y); lia |].
    destruct ((m =? 4) || (m =? 6) || (m =? 9) || (m =? 11)); lia. }
  replace ((1 <=? y) && (y <=? 9999) && (1 <=? m) && (m <=? 12) && (1 <=? d)
           && (d <=? Datetime.days_in_month y m)) with true; [reflexivity |].
  symmetry. repeat (apply andb_true_iff; split); apply Z.leb_le; lia.
Qed.

Lemma new_year_range (y m d : Z) (t : datetime) :
  Datetime.new y m d = Py.Ok t -> 1 <= y <= 9999.
Proof.
  unfold Datetime.new. destruct (negb _); [discriminate |].
  destruct ((1 <=? y) && (y <=? 9999) && (1 <=? m) && (m <=? 12) && (1 <=? d)
            && (d <=? Datetime.days_in_month y m)) eqn:H; [| discriminate].
  intros _. rewrite !andb_true_iff, !Z.leb_le in H. lia.
Qed.

(** The exception of the constructor: [OverflowError] for an argument
    that is no C [int], [ValueError] for one out of its range. *)
Lemma new_error (y m d : Z) (e : Py.exn) :
  Datetime.new y m d = Py.Raise e ->
  e = (if Datetime.c_int y && Datetime.c_int m && Datetime.c_int d
       then Py.ValueError else Py.OverflowError).
Proof.
  unfold Datetime.new.
  destruct (Datetime.c_int y && Datetime.c_int m && Datetime.c_int d); cbn [negb].
  - destruct ((1 <=? y) && (y <=? 9999) && (1 <=? m) && (m <=? 12) && (1 <=? d)
              && (d <=? Datetime.days_in_month y m)); intros [=]; auto.
  - intros [=]; auto.
Qed.

Lemma digit_range (c : ascii) (d : Z) : Datetime.digit c = Some d -> 0 <= d <= 9.
Proof.
  unfold Datetime.digit.
  destruct ((48 <=? nat_of_ascii c)%nat && (nat_of_ascii c <=? 57)%nat) eqn:H;
    [| discriminate].
  apply andb_true_iff in H. destruct H as [Hlo Hhi].
  apply Nat.leb_le in Hlo, Hhi. intros [= <-]. lia.
Qed.

Lemma parse_month_range (s : string) (m : Z) :
  Datetime.parse_month s = Some m -> 1 <= m <= 12.
Proof.
  unfold Datetime.parse_month.
  repeat match goal with
         | |- context [match ?x with _ => _ end] => destruct x eqn:?
         end;
    intros [= <-];
    repeat match goal with
           | H : Datetime.digit _ = Some _ |- _ => apply digit_range in H
           | H : (_ <=? _) = true |- _ => apply Z.leb_le in H
           end; lia.
Qed.

Lemma parse_day_range (s : string) (d : Z) :
  Datetime.parse_day s = Some d -> 1 <= d <= 31.
Proof.
  unfold Datetime.parse_day.
  repeat match goal with
         | |- context [match ?x with _ => _ end] => destruct x eqn:?
         end;
    intros [= <-];
    repeat match goal with
           | H : Datetime.digit _ = Some _ |- _ => apply digit_range in H
           | H : (_ <=? _) = true |- _ => apply Z.leb_le in H
           | H : (_ && _) = true |- _ => apply andb_true_iff in H; destruct H
           end; lia.
Qed.

Lemma strptime_Y_m_d_error (s : string) (e : Py.exn) :
  Datetime.strptime_Y_m_d s = Py.Raise e -> e = Py.ValueError.
Proof.
  unfold Datetime.strptime_Y_m_d.
  repeat match goal with
         | |- context [match ?x with _ => _ end] => destruct x eqn:?
         end;
    try (intros [=]; auto; fail).
  intros Hnew. apply new_error in Hnew.
  repeat match goal with
         | H : Datetime.digit _ = Some _ |- _ => apply digit_range in H
         | H : Datetime.parse_month _ = Some _ |- _ => apply parse_month_range in H
         | H : Datetime.parse_day _ = Some _ |- _ => apply parse_day_range in H
         end.
  rewrite !c_int_small in Hnew by lia. exact Hnew.
Qed.

(** The first of January of the year of a moment is not after it. *)
Lemma new_year_leb (now : datetime) :
  1 <= Datetime.month now -> 1 <= Datetime.day now ->
  0 <= Datetime.hour now -> 0 <= Datetime.minute now ->
  0 <= Datetime.second now -> 0 <= Datetime.microsecond now ->
  Datetime.leb (Datetime.at_midnight (Datetime.year now) 1 1) now = true.
Proof.
  intros Hm Hd Hh Hmi Hs Hus.
  unfold Datetime.leb, Datetime.ltb, Datetime.compare, Datetime.fields,
    Datetime.at_midnight. cbn [Datetime.lex_compare Datetime.year Datetime.month
    Datetime.day Datetime.hour Datetime.minute Datetime.second Datetime.microsecond].
  rewrite Z.compare_refl.
  repeat match goal with
         | |- context [?a ?= ?b] => destruct (Z.compare_spec a b); try lia
         end; reflexivity.
Qed.

Lemma date_range_of_year (daily_stats : gmap string DailyStats) (y : Z) (now : datetime) :
  (1 <= y <= 9999 ->
   Ui.date_range daily_stats (Some y) now
   = Py.Ok (Datetime.at_midnight y 1 1,
            if y =? Datetime.year now then now else Datetime.at_midnight y 12 31)) /\
  (~ 1 <= y <= 9999 ->
   Ui.date_range daily_stats (Some y) now
   = Py.Raise (if Datetime.c_int y then Py.ValueError else Py.OverflowError)).
Proof.
  unfold Ui.date_range. split.
  - intros Hy. rewrite (new_ok y 1 1) by lia. cbn [Py.bind].
    destruct (y =? Datetime.year now); [reflexivity |].
    unfold Datetime.new. rewrite (c_int_small y) by lia.
    cbn [Datetime.days_in_month Datetime.c_int andb negb Z.leb Z.compare Pos.compare
         Pos.compare_cont Z.eqb Pos.eqb orb].
    replace ((1 <=? y) && (y <=? 9999)) with true
      by (symmetry; apply andb_true_iff; split; apply Z.leb_le; lia).
    reflexivity.
  - intros Hy. destruct (Datetime.new y 1 1) as [t | e] eqn:Hnew.
    + apply new_year_range in Hnew. contradiction.
    + rewrite (new_error _ _ _ _ Hnew).
      change (Datetime.c_int 1) with true. rewrite !andb_true_r. reflexivity.
Qed.

(** X20: for statistics with at least one day, computing the reporting
    window of the contribution graph raises exactly for all time with a
    key of [daily_stats] that is not a date, or for a year outside 1 to
    9999; the exception is [ValueError], but for a year that does not fit
    a C [int] of 32 bits, which [datetime] refuses with [OverflowError].
    A window that is computed is not empty: it starts no later than it
    ends, the clock giving a moment with its fields in their ranges. The
    three renderers compute the same window. *)
Theorem X20_reporting_window (daily_stats : gmap string DailyStats) (year : option Z)
    (now : datetime) :
  daily_stats <> ∅ ->
  1 <= Datetime.month now -> 1 <= Datetime.day now ->
  0 <= Datetime.hour now -> 0 <= Datetime.minute now ->
  0 <= Datetime.second now -> 0 <= Datetime.microsecond now ->
  (Py.raises (Ui.date_range daily_stats year now) = true <->
   (year = None /\
    exists key,
      is_Some (daily_stats !! key) /\ Py.raises (Datetime.strptime_Y_m_d key) = true) \/
   (exists y, year = Some y /\ ~ 1 <= y <= 9999)) /\
  (Py.raises (Ui.date_range daily_stats year now) = true ->
   Ui.date_range daily_stats year now
   = Py.Raise (match year with
               | Some y =>
                   if (-2147483648 <=? y) && (y <=? 2147483647)
                   then Py.ValueError else Py.OverflowError
               | None => Py.ValueError
               end)) /\
  (forall start_date end_date,
     Ui.date_range daily_stats year now = Py.Ok (start_date, end_date) ->
     Datetime.leb start_date end_date = true) /\
  Markdown.date_range daily_stats year now = Ui.date_range daily_stats year now /\
  Html.date_range daily_stats year now = Ui.date_range daily_stats year now.
Proof.
  intros _ Hm Hd Hh Hmi Hs Hus.
  assert (Hkeys : forall key,
            In key (map fst (map_to_list daily_stats)) <-> is_Some (daily_stats !! key)).
  { intros key. rewrite in_map_iff. split.
    - intros ([k s] & <- & Hin). exists s.
      apply elem_of_map_to_list, list_elem_of_In. exact Hin.
    - intros [s Hs']. exists (key, s). split; [reflexivity |].
      apply list_elem_of_In, elem_of_map_to_list. exact Hs'. }
  change (Markdown.date_range daily_stats year now)
    with (Ui.date_range daily_stats year now).
  change (Html.date_range daily_stats year now)
    with (Ui.date_range daily_stats year now).
  destruct year as [y |].
  - destruct (date_range_of_year daily_stats y now) as [Hin Hout].
    destruct (Z_le_dec 1 y) as [Hlo |]; [destruct (Z_le_dec y 9999) as [Hhi |] |].
    + rewrite Hin by lia. cbn [Py.raises].
      split; [| split; [discriminate | split; [| split; reflexivity]]].
      * split; [discriminate |].
        intros [[Hnone _] | (y' & [= <-] & Hy)]; [discriminate Hnone | lia].
      * intros start_date end_date [= <- <-].
        destruct (Z.eqb_spec y (Datetime.year now)) as [-> | _];
          [apply new_year_leb; assumption |].
        unfold Datetime.leb, Datetime.ltb, Datetime.compare, Datetime.fields,
          Datetime.at_midnight. cbn [Datetime.lex_compare Datetime.year Datetime.month].
        rewrite Z.compare_refl. reflexivity.
    + rewrite Hout by lia. cbn [Py.raises].
      split; [| split; [reflexivity | split; [discriminate | split; reflexivity]]].
      split; [| reflexivity]. intros _. right. exists y. split; [reflexivity | lia].
    + rewrite Hout by lia. cbn [Py.raises].
      split; [| split; [reflexivity | split; [discriminate | split; reflexivity]]].
      split; [| reflexivity]. intros _. right. exists y. split; [reflexivity | lia].
  - unfold Ui.date_range.
    pose proof (map_each_raises Datetime.strptime_Y_m_d (map fst (map_to_list daily_stats)))
      as Hraises.
    pose proof (map_each_exception Datetime.strptime_Y_m_d
                  (map fst (map_to_list daily_stats)) Py.ValueError
                  strptime_Y_m_d_error) as Herror.
    destruct (Py.map_each Datetime.strptime_Y_m_d (map fst (map_to_list daily_stats)))
      as [dates | e]; cbn [Py.bind Py.raises] in *.
    + split; [| split; [discriminate | split; [| split; reflexivity]]].
      * split; [discriminate |].
        intros [[_ (key & Hkey & Hr)] | (y & Hy & _)]; [| discriminate Hy].
        apply Hraises. exists key. split; [apply Hkeys; exact Hkey | exact Hr].
      * intros start_date end_date [= <- <-]. apply min_or_leb_max_or.
    + injection (Herror eq_refl) as ->.
      split; [| split; [reflexivity | split; [discriminate | split; reflexivity]]].
      split; [| reflexivity]. intros _. left. split; [reflexivity |].
      destruct Hraises as [Hraises _]. destruct (Hraises eq_refl) as (key & Hin & Hr).
      exists key. split; [apply Hkeys; exact Hin | exact Hr].
Qed.

(** The window of [january] for 2025, seen on the thirtieth of December:
    from the first of January to that day; for the year ten thousand
    million there is no window but an [OverflowError]. *)
Lemma X20_january_window :
  Ui.date_range (daily_stats Sample.january) (Some 2025) Sample.dec_30
  = Py.Ok (Datetime.at_midnight 2025 1 1, Sample.dec_30) /\
  Datetime.leb (Datetime.at_midnight 2025 1 1) Sample.dec_30 = true /\
  Ui.date_range (daily_stats Sample.january) (Some 10000000000) Sample.dec_30
  = Py.Raise Py.OverflowError.
Proof.
  split; [reflexivity |].
  assert (Hdays : daily_stats Sample.january <> ∅).
  { intros H. apply (f_equal (fun days => days !! "2025-01-01")) in H.
    vm_compute in H. discriminate H. }
  split.
  - destruct (X20_reporting_window (daily_stats Sample.january) (Some 2025) Sample.dec_30
                Hdays ltac:(vm_compute; discriminate) ltac:(vm_compute; discriminate)
                ltac:(vm_compute; discriminate) ltac:(vm_compute; discriminate)
                ltac:(vm_compute; discriminate) ltac:(vm_compute; discriminate))
      as (_ & _ & Hwindow & _).
    apply Hwindow. reflexivity.
  - destruct (X20_reporting_window (daily_stats Sample.january) (Some 10000000000)
                Sample.dec_30
                Hdays ltac:(vm_compute; discriminate) ltac:(vm_compute; discriminate)
                ltac:(vm_compute; discriminate) ltac:(vm_compute; discriminate)
                ltac:(vm_compute; discriminate) ltac:(vm_compute; discriminate))
      as (_ & Herror & _).
    apply Herror. reflexivity.
Defined.

(** ** Bars scaled on floats *)

(** A loop that appends what its body computes collects the results of
    the body. *)
Lemma for_each_collect {A B : Type} (f : A -> Py.result (list B)) (l : list A)
    (acc : list B) :
  Py.for_each (fun acc x => try! ys := f x in Py.Ok (acc ++ ys)%list) l acc
  = try! yss := Py.map_each f l in Py.Ok (acc ++ concat yss)%list.
Proof.
  revert acc. induction l as [| x l IH]; intros acc; cbn [Py.for_each Py.map_each].
  - cbn [Py.bind concat]. rewrite app_nil_r. reflexivity.
  - destruct (f x) as [ys | e]; cbn [Py.bind]; [| reflexivity].
    rewrite IH. destruct (Py.map_each f l) as [yss | e]; cbn [Py.bind concat];
      [rewrite app_assoc |]; reflexivity.
Qed.

Lemma map_each_ok {A B : Type} (f : A -> Py.result B) (g : A -> B) (l : list A) :
  (forall x, In x l -> f x = Py.Ok (g x)) -> Py.map_each f l = Py.Ok (map g l).
Proof.
  induction l as [| x l IH]; intros Hf; cbn [Py.map_each map]; [reflexivity |].
  rewrite (Hf x (or_introl eq_refl)), IH; [reflexivity |].
  intros y Hy. apply Hf. right. exact Hy.
Qed.

Lemma map_each_total {A B : Type} (f : A -> Py.result B) (l : list A) :
  (forall x, In x l -> exists y, f x = Py.Ok y) ->
  exists ys, Py.map_each f l = Py.Ok ys /\ length ys = length l.
Proof.
  induction l as [| x l IH]; intros Hf; cbn [Py.map_each]; [exists []; auto |].
  destruct (Hf x (or_introl eq_refl)) as [y ->].
  destruct IH as (ys & -> & Hlen); [intros z Hz; apply Hf; right; exact Hz |].
  exists (y :: ys). cbn [length]. auto.
Qed.


Lemma scaled_by_zero (count scale : Z) :
  Float.scaled count 0 scale = Py.Raise Py.ZeroDivisionError.
Proof. reflexivity. Qed.

Lemma scaled_error (count max_val scale : Z) (e : Py.exn) :
  Float.scaled count max_val scale = Py.Raise e -> e = Py.ZeroDivisionError.
Proof.
  unfold Float.scaled, Float.truediv. destruct (max_val =? 0); cbn [Py.bind];
    intros [=]; auto.
Qed.




(** ** The bars of the rankings *)











(** ** The count-up animation *)

Lemma scaled_value (count max_val scale : Z) :
  max_val <> 0 ->
  Float.scaled count max_val scale
  = Py.Ok (Float.to_int
             (Float.mul (SpecFloat.SFdiv 53 1024 (Float.of_int count) (Float.of_int max_val))
                (Float.of_int scale))).
Proof.
  intros Hmax. unfold Float.scaled, Float.truediv.
  destruct (Z.eqb_spec max_val 0); [contradiction | reflexivity].
Qed.

(** Zero divided by a count and scaled is zero, whatever the doubles. *)
Lemma scaled_zero (max_val scale : Z) :
  Float.to_int
    (Float.mul (SpecFloat.SFdiv 53 1024 (Float.of_int 0) (Float.of_int max_val))
       (Float.of_int scale)) = 0.
Proof.
  change (Float.of_int 0) with (SpecFloat.S754_zero false).
  destruct (Float.of_int max_val) as [s | s | | s m e];
    destruct (Float.of_int scale) as [s' | s' | | s' m' e']; reflexivity.
Qed.

(** X24: the count-up animation, when [time.sleep] takes the time of a
    step, a number that is not negative and is below 2^33 seconds. For a
    target that a double can hold, below 2^1024 - 2^970 in absolute value,
    it does not raise, the number of steps being at least one even for a
    target that is not positive: it shows one number more than its steps,
    31 at most however large the target, sleeping the same time after
    each; the first number is zero and the value printed at the end is the
    target itself. For a larger target the first frame raises
    [OverflowError]. *)
Theorem X24_count_up_frames (target : Z) (duration step_duration : Float.float)
    (suffix : string) :
  Float.div_int duration (if target >? 0 then Z.min 30 target else 1)
  = Py.Ok step_duration ->
  Float.sleepable step_duration = true ->
  (Z.abs target < 2 ^ 1024 - 2 ^ 970 ->
   exists shown,
     Ui.animate_count_up target duration suffix
     = Py.Ok (flat_map (fun text => [Ui.Update text; Ui.Sleep step_duration]) shown
                ++ [Ui.Print (Py.commas target ++ suffix)])%list /\
     Z.of_nat (length shown) = (if target >? 0 then Z.min 30 target else 1) + 1 /\
     (2 <= length shown <= 31)%nat /\
     hd_error shown = Some ("0" ++ suffix)) /\
  (2 ^ 1024 - 2 ^ 970 <= Z.abs target ->
   Ui.animate_count_up target duration suffix = Py.Raise Py.OverflowError).
Proof.
  intros Hstep _. revert Hstep. unfold Ui.animate_count_up.
  set (steps := if target >? 0 then Z.min 30 target else 1).
  assert (Hsteps : 1 <= steps <= 30).
  { unfold steps. destruct (Z.gtb_spec target 0); lia. }
  unfold Float.div_int. destruct (Z.eqb_spec steps 0) as [Hz | _]; [lia |].
  intros [= <-].
  set (step_duration := Float.div_int_value duration steps).
  cbn [Py.bind].
  assert (Hlen : length (Py.range (steps + 1)) = Z.to_nat (steps + 1)).
  { unfold Py.range. rewrite length_map, length_seq. reflexivity. }
  split.
  - intros Hfits. apply Z.ltb_lt in Hfits.
    set (current := fun i =>
           Float.to_int
             (Float.mul (SpecFloat.SFdiv 53 1024 (Float.of_int i) (Float.of_int steps))
                (Float.of_int target))).
    exists (map (fun i => Py.commas (current i) ++ suffix) (Py.range (steps + 1))).
    rewrite (for_each_ext _
               (fun acc i =>
                  try! ys :=
                    (fun i =>
                       try! ratio := Float.truediv i steps in
                       try! product := Float.mul_int ratio target in
                       Py.Ok [Ui.Update (Py.commas (Float.to_int product) ++ suffix);
                              Ui.Sleep step_duration]) i in
                  Py.Ok (acc ++ ys)%list)).
    2: { intros acc i _. destruct (Float.truediv i steps); [| reflexivity].
         cbn [Py.bind]. destruct (Float.mul_int _ target); reflexivity. }
    rewrite for_each_collect.
    rewrite (map_each_ok _
               (fun i => [Ui.Update (Py.commas (current i) ++ suffix);
                          Ui.Sleep step_duration])).
    2: { intros i _. unfold Float.truediv, Float.mul_int.
         destruct (Z.eqb_spec steps 0); [lia |]. cbn [Py.bind].
         rewrite Hfits. reflexivity. }
    cbn [Py.bind app].
    split.
    { f_equal. f_equal. rewrite flat_map_concat_map, List.map_map. reflexivity. }
    rewrite length_map, Hlen.
    split; [lia |]. split; [lia |].
    unfold Py.range. destruct (Z.to_nat (steps + 1)) as [| n] eqn:Hn; [lia |].
    cbn [seq map hd_error]. unfold current. rewrite scaled_zero. reflexivity.
  - intros Hlarge. apply Z.ltb_ge in Hlarge.
    unfold Py.range. destruct (Z.to_nat (steps + 1)) as [| n] eqn:Hn; [lia |].
    cbn [seq map]. rewrite (for_each_raise _ _ _ _ Py.OverflowError); [reflexivity |].
    unfold Float.truediv, Float.mul_int.
    destruct (Z.eqb_spec steps 0); [lia |]. cbn [Py.bind].
    rewrite Hlarge. reflexivity.
Qed.

(** The count-up to 1234 in a second and a half: thirty steps of a
    twentieth of a second, 31 numbers from 0 on. A count-up to 2^1024
    raises. [time.sleep] would not take a step of minus one second. *)
Lemma X24_count_to_1234 :
  Float.div_int (Float.div_int_value (Float.of_int 3) 2) 30
  = Py.Ok (Float.div_int_value (Float.div_int_value (Float.of_int 3) 2) 30) /\
  (exists shown,
     Ui.animate_count_up 1234 (Float.div_int_value (Float.of_int 3) 2) EmptyString
     = Py.Ok (flat_map
                (fun text =>
                   [Ui.Update text;
                    Ui.Sleep (Float.div_int_value
                                (Float.div_int_value (Float.of_int 3) 2) 30)])
                shown
                ++ [Ui.Print "1,234"])%list /\
     length shown = 31%nat /\
     hd_error shown = Some "0") /\
  Ui.animate_count_up (2 ^ 1024) (Float.div_int_value (Float.of_int 3) 2) EmptyString
  = Py.Raise Py.OverflowError /\
  Float.sleepable (Float.of_int (-1)) = false.
Proof.
  split; [reflexivity |].
  split; [| split; [| reflexivity]].
  - destruct (X24_count_up_frames 1234 (Float.div_int_value (Float.of_int 3) 2)
                (Float.div_int_value (Float.div_int_value (Float.of_int 3) 2) 30)
                EmptyString eq_refl eq_refl) as [Hfits _].
    destruct Hfits as (shown & Hframes & Hlen & _ & Hfirst); [vm_compute; reflexivity |].
    exists shown. split; [exact Hframes |]. split; [| exact Hfirst].
    change (if 1234 >? 0 then Z.min 30 1234 else 1) with 30 in Hlen. lia.
  - destruct (X24_count_up_frames (2 ^ 1024) (Float.div_int_value (Float.of_int 3) 2)
                (Float.div_int_value (Float.div_int_value (Float.of_int 3) 2) 30)
                EmptyString eq_refl eq_refl) as [_ Hlarge].
    apply Hlarge. vm_compute. discriminate.
Defined.
